(** * opentaps SEAS, [opentaps_seas/core/utils.py]

    A shallow embedding of the analytics helpers of the core application:
    the current-value decorator ([get_current_value_dict],
    [get_current_value], [add_current_values]), the AHU role resolver
    ([get_ahu_current_values]), the range parser and result decoder of
    [get_point_values], and the tag report of [get_topics_tags_report];
    then the chart list ([charts_for_points]), the tag lists ([get_tag],
    [get_tags_list], [get_related_model_id]), the equipment metrics
    ([get_equipment_metrics]), [cleanup_id], the site locator
    ([get_site_addr_loc]) and the BACnet table
    ([get_bacnet_trending_data]).

    Conventions of the embedding.
    - A Python [str] is a [string] of bytes (UTF-8).  Slices with a constant
      negative bound and comparisons with ASCII literals act on bytes exactly
      as they act on code points.
    - A naive [datetime] is the number of microseconds since
      0001-01-01T00:00:00, a [Z] in [0, MAX_DATETIME]; arithmetic that leaves
      this interval raises [OverflowError], as [datetime.__sub__] does.
    - A call that may raise runs in the monad [M]: a function from the world
      to an outcome and the world after it.  The world survives an exception,
      so what was left open when the exception escaped can be read off.
    - [int] reads ASCII text by its own rules; what it reads beyond ASCII,
      and how many digits it accepts, belongs to the interpreter
      ([PyStr.Interpreter]), over which every statement is quantified.
    - [datetime.utcfromtimestamp] raises as it does with a 64-bit [time_t]
      and the [gmtime] of glibc.
    - The time-series store, the wall clock and the library functions
      [dateutil.parser.parse], [strftime], [isoformat], [float]/[format] and
      [format_html] are parameters of the development. *)

From Stdlib Require Import String Ascii List ZArith QArith Qround Bool Lia.
From Stdlib Require Import Sorted Permutation Btauto.
Import ListNotations.

Local Open Scope string_scope.
Local Open Scope Z_scope.

(** ** Exceptions and outcomes *)

Inductive exn : Type :=
| ValueError      (* int() of a bad literal; a year outside 1..9999 *)
| OverflowError   (* timedelta / datetime / time_t out of range *)
| TypeError       (* round(None) *)
| ParserError     (* dateutil could not read the text *)
| StoreError      (* the store refused or could not be reached *)
| OSError.        (* gmtime cannot hold the year *)

Inductive result (A : Type) : Type :=
| Ok (a : A)
| Raise (e : exn).
Arguments Ok {A} a.
Arguments Raise {A} e.

Definition is_ok {A} (r : result A) : bool :=
  match r with Ok _ => true | Raise _ => false end.

(** ** Python strings *)

Module PyStr.

Definition len (s : string) : nat := String.length s.

(** [s[-n:]] for a constant [n > 0]. *)
Definition last_n (n : nat) (s : string) : string :=
  let l := list_ascii_of_string s in
  string_of_list_ascii (skipn (List.length l - n) l).

(** [s[:-n]] for a constant [n > 0]. *)
Definition drop_last_n (n : nat) (s : string) : string :=
  let l := list_ascii_of_string s in
  string_of_list_ascii (firstn (List.length l - n) l).

(** [len(s) > n and suf == s[-n:]], the test of each suffix rule. *)
Definition ends_with (n : nat) (suf s : string) : bool :=
  (n <? len s)%nat && String.eqb suf (last_n n s).

(** [s.split(c)] for a one-character separator: never the empty list. *)
Fixpoint split (c : ascii) (s : string) : list string :=
  match s with
  | EmptyString => [EmptyString]
  | String a r =>
      if Ascii.eqb a c then EmptyString :: split c r
      else match split c r with
           | h :: t => String a h :: t
           | [] => [String a EmptyString]
           end
  end.

(** Truth value of a string: [bool(s)]. *)
Definition truthy (s : string) : bool :=
  match s with EmptyString => false | _ => true end.

(** *** [int(s)]

    On a text of ASCII characters: surrounding white space (tab, line feed,
    vertical tab, form feed, carriage return, space) is stripped, one sign
    is allowed, then decimal digits follow, with single underscores allowed
    between digits; any other character makes [int] raise.  The separators
    FS, GS, RS and US (28 to 31) are white space for [str.strip] but not for
    [int]. *)

Definition is_space (c : ascii) : bool :=
  let n := nat_of_ascii c in
  ((9 <=? n)%nat && (n <=? 13)%nat) || (n =? 32)%nat.

Definition is_digit (c : ascii) : bool :=
  let n := nat_of_ascii c in (48 <=? n)%nat && (n <=? 57)%nat.

Definition digit_val (c : ascii) : Z := Z.of_nat (nat_of_ascii c) - 48.

Fixpoint lstrip (l : list ascii) : list ascii :=
  match l with
  | c :: r => if is_space c then lstrip r else l
  | [] => []
  end.

Definition strip (l : list ascii) : list ascii :=
  rev (lstrip (rev (lstrip l))).

Fixpoint digits (acc : Z) (after_digit : bool) (l : list ascii) : option Z :=
  match l with
  | [] => if after_digit then Some acc else None
  | c :: r =>
      if is_digit c then digits (10 * acc + digit_val c) true r
      else if Ascii.eqb c "_" then
             if after_digit then digits acc false r else None
      else None
  end.

Definition int_ascii (s : string) : option Z :=
  match strip (list_ascii_of_string s) with
  | [] => None
  | c :: r =>
      if Ascii.eqb c "-" then option_map Z.opp (digits 0 false r)
      else if Ascii.eqb c "+" then digits 0 false r
      else digits 0 false (c :: r)
  end.

(** Every byte of the text is an ASCII character. *)
Definition is_ascii (s : string) : bool :=
  forallb (fun c => (nat_of_ascii c <? 128)%nat) (list_ascii_of_string s).

(** A byte that a text read by [int] can hold: white space, a digit, an
    underscore, a sign, or a byte of a character beyond ASCII. *)
Definition int_byte (c : ascii) : bool :=
  is_space c || is_digit c
  || Ascii.eqb c "_" || Ascii.eqb c "+" || Ascii.eqb c "-"
  || (128 <=? nat_of_ascii c)%nat.

(** The number of decimal digits in a text. *)
Definition count_digits (s : string) : nat :=
  List.length (filter is_digit (list_ascii_of_string s)).

(** What [int] owes to the interpreter that runs it. *)
Record Interpreter : Type := mkInterpreter {
  (** [sys.get_int_max_str_digits()]: 4300 unless configured; 0 for no
      limit, which is also how an interpreter older than the limit reads. *)
  int_max_str_digits : nat;
  (** [int(s)] for a text with a character beyond ASCII and no ASCII
      character that [int] refuses: it depends on which characters the
      Unicode tables of the interpreter take as decimal digits and as white
      space.  [None] when [int] raises [ValueError]. *)
  int_non_ascii : string -> option Z
}.

(** A text with more digits than the limit is refused; the limit is not
    looked at for 640 digits or fewer. *)
Definition too_many_digits (interp : Interpreter) (s : string) : bool :=
  (0 <? int_max_str_digits interp)%nat
  && (int_max_str_digits interp <? count_digits s)%nat
  && (640 <? count_digits s)%nat.

(** [int(s)] on any text.  ASCII characters are read as they are, so an
    ASCII character outside [int_byte] makes [int] raise whatever else the
    text holds. *)
Definition int (interp : Interpreter) (s : string) : option Z :=
  if is_ascii s then
    if too_many_digits interp s then None else int_ascii s
  else if forallb int_byte (list_ascii_of_string s) then int_non_ascii interp s
  else None.

End PyStr.

(** ** Naive datetimes and timedeltas *)

Module PyTime.

Definition US_PER_SECOND : Z := 1000000.
Definition US_PER_MINUTE : Z := 60 * US_PER_SECOND.
Definition US_PER_HOUR : Z := 60 * US_PER_MINUTE.
Definition US_PER_DAY : Z := 24 * US_PER_HOUR.

(** [datetime.max]: 9999-12-31T23:59:59.999999, day 3652058 after
    [datetime.min]. *)
Definition MAX_DATETIME : Z := 3652059 * US_PER_DAY - 1.

Definition in_range (t : Z) : bool := (0 <=? t) && (t <=? MAX_DATETIME).

(** 1970-01-01 is day 719162 after 0001-01-01. *)
Definition UNIX_EPOCH : Z := 719162 * US_PER_DAY.

(** [timedelta(...)] holding [us] microseconds; its day count must have
    magnitude at most 999999999. *)
Definition timedelta (us : Z) : result Z :=
  let days := us / US_PER_DAY in
  if (-999999999 <=? days) && (days <=? 999999999) then Ok us
  else Raise OverflowError.

Definition timedelta_days (n : Z) : result Z := timedelta (n * US_PER_DAY).
Definition timedelta_hours (n : Z) : result Z := timedelta (n * US_PER_HOUR).
Definition timedelta_minutes (n : Z) : result Z := timedelta (n * US_PER_MINUTE).

(** [t - delta] on a datetime. *)
Definition sub (t delta : Z) : result Z :=
  if in_range (t - delta) then Ok (t - delta) else Raise OverflowError.

(** What [datetime.utcfromtimestamp(secs)] raises for a second outside the
    years 1 to 9999, on a platform with a 64-bit [time_t] and the [gmtime]
    of glibc: [OverflowError] when [secs] does not fit [time_t], [OSError]
    when [gmtime] cannot hold the year in an [int] (its last second is
    67767976233532799, its first -67768040609740800), [ValueError] (year out
    of range) otherwise. *)
Definition utc_error (secs : Z) : exn :=
  if (secs <? - 2 ^ 63) || (2 ^ 63 <=? secs) then OverflowError
  else if (secs <? -67768040609740800) || (67767976233532799 <? secs)
  then OSError
  else ValueError.

(** [datetime.utcfromtimestamp(secs)]: a whole number of seconds after the
    Unix epoch. *)
Definition utcfromtimestamp (secs : Z) : result Z :=
  let t := UNIX_EPOCH + secs * US_PER_SECOND in
  if in_range t then Ok t else Raise (utc_error secs).

End PyTime.

(** ** Values, rows and queries of the time-series store *)

(** What a cell of a result row, or a decoded value, can be. *)
Inductive PyVal : Type :=
| PNone
| PStr (s : string)
| PFloat (q : Q)      (* a finite double, as the rational it denotes *)
| PInt (z : Z).

(** [bool(v)]. *)
Definition truthy (v : PyVal) : bool :=
  match v with
  | PNone => false
  | PStr s => PyStr.truthy s
  | PFloat q => negb (Qeq_bool q 0)
  | PInt z => negb (z =? 0)
  end.

(** [v == s] for a string literal [s]. *)
Definition eq_str (v : PyVal) (s : string) : bool :=
  match v with PStr s' => String.eqb s' s | _ => false end.

(** [round(q)] with one argument: the nearest integer, a tie going to the
    even one. *)
Definition round_half_even (q : Q) : Z :=
  let f := Qfloor q in
  match Qcompare (q - inject_Z f) (1 # 2) with
  | Lt => f
  | Gt => f + 1
  | Eq => if Z.even f then f else f + 1
  end.

Definition py_round (v : PyVal) : result PyVal :=
  match v with
  | PFloat q => Ok (PInt (round_half_even q))
  | PInt z => Ok (PInt z)
  | PNone | PStr _ => Raise TypeError
  end.

(** A row of a range query: [result[0]] is the (truncated) timestamp in epoch
    milliseconds, [result[1]] the first projection, [result[2]] the numeric
    shadow column that only the Bool shape selects (and only the Bool path
    reads). *)
Record Row : Type := mkRow { r0 : Z; r1 : PyVal; r2 : PyVal }.

(** The three shapes of [sql] with their parameters [(topic, start, end)]. *)
Inductive Query : Type :=
| SelectNumber (date_trunc value_func topic : string) (start end_ : Z)
| SelectBool (date_trunc value_func topic : string) (start end_ : Z)
| SelectString (topic : string) (start end_ : Z).

(** The timestamp of a returned pair: epoch milliseconds as stored, or a
    datetime when [ts_as_datetime] is set. *)
Inductive Stamp : Type :=
| Millis (ms : Z)
| Datetime (t : Z).

Definition stamp_key (s : Stamp) : Z :=
  match s with Millis ms => ms | Datetime t => t end.

(** ** Points *)

(** The value stored under ['value'] by [get_current_value_dict]. *)
Inductive DictValue : Type :=
| DBool (b : bool)
| DStr (s : option string).   (* string_value; None for SQL NULL *)

Record ValueDict : Type := mkValueDict {
  v_value : DictValue;
  v_epoch : Z;
  v_fmttime : string;
  v_time : string;
  v_unit : option string       (* the key 'unit', when present *)
}.

(** What ends up in [point.current_value]. *)
Inductive CurrentValue : Type :=
| CvDict (d : ValueDict)       (* raw=True, a reading exists *)
| CvHtml (s : string)          (* raw=False, a reading exists *)
| CvEmptyDict                  (* raw=True, no reading: {} *)
| CvNA.                        (* raw=False, no reading: 'N/A' *)

Record PointView : Type := mkPoint {
  entity_id : string;
  topic : string;
  kind : string;
  unit : option string;
  m_tags : list string;                  (* NULL reads as the empty list *)
  kv_tags : list (string * string);      (* keys unique; NULL reads as {} *)
  equipment_id : string;
  current_value : option CurrentValue    (* None until the attribute is set *)
}.

Definition set_current_value (p : PointView) (cv : CurrentValue) : PointView :=
  mkPoint (entity_id p) (topic p) (kind p) (unit p) (m_tags p) (kv_tags p)
          (equipment_id p) (Some cv).

(** ** The world and the monad of calls *)

(** [reads] counts the calls of [datetime.utcnow()] made so far; [next_conn]
    numbers the connections handed out by [get_crate_connection];
    [open_conns] lists those not closed yet. *)
Record World : Type := mkWorld {
  reads : nat;
  next_conn : nat;
  open_conns : list nat
}.

Definition M (A : Type) : Type := World -> result A * World.

Definition ret {A} (a : A) : M A := fun w => (Ok a, w).
Definition raise {A} (e : exn) : M A := fun w => (Raise e, w).
Definition bind {A B} (m : M A) (k : A -> M B) : M B :=
  fun w => match m w with
           | (Ok a, w') => k a w'
           | (Raise e, w') => (Raise e, w')
           end.
Definition lift {A} (r : result A) : M A := fun w => (r, w).

Declare Scope py_scope.
Delimit Scope py_scope with py.
Notation "x <- m ;; k" := (bind m (fun x => k))
  (at level 61, m at next level, right associativity) : py_scope.
Notation "m ;;; k" := (bind m (fun _ => k))
  (at level 61, right associativity) : py_scope.
Local Open Scope py_scope.

(** ** The functions of [utils.py] *)

Definition DEFAULT_RANGE : string := "24h".
Definition DEFAULT_RES : string := "minute".

(** [x in l] for a list of strings. *)
Definition str_in (x : string) (l : list string) : bool :=
  existsb (String.eqb x) l.

Section Utils.

(** The [k]-th reading of [datetime.utcnow()]. *)
Variable utcnow_at : nat -> Z.

(** The interpreter, as far as [int] depends on it. *)
Variable interp : PyStr.Interpreter.

(** [cursor.execute(sql, params)] followed by the rows [fetchone] hands out,
    in order; [Raise] when the store fails. *)
Variable store_range : Query -> result (list Row).

(** The query of [get_current_value_dict]: the newest [(ts, string_value)] of
    a topic, [None] when the topic has no row. *)
Variable store_latest : string -> result (option (Z * option string)).

(** [dateutil.parser.parse]. *)
Variable parse_datetime : string -> result Z.

(** [t.isoformat()] and [t.strftime("%m/%d/%Y %H:%M:%S")]. *)
Variable isoformat : Z -> string.
Variable strftime : Z -> string.

(** [format(float(s), '.1f')]; [None] when [float] raises. *)
Variable format_1f : option string -> option string.

(** [django.utils.html.format_html] applied to one string. *)
Variable format_html : string -> result string.

(** *** Connections *)

Definition get_crate_connection : M nat :=
  fun w => (Ok (next_conn w),
            mkWorld (reads w) (S (next_conn w)) (next_conn w :: open_conns w)).

Definition connection_close (c : nat) : M Datatypes.unit :=
  fun w => (Ok tt,
            mkWorld (reads w) (next_conn w)
                    (filter (fun c' => negb (Nat.eqb c' c)) (open_conns w))).

Definition utcnow : M Z :=
  fun w => (Ok (utcnow_at (reads w)),
            mkWorld (S (reads w)) (next_conn w) (open_conns w)).

(** *** [format_epoch] *)

Record Epoch : Type := mkEpoch { e_epoch : Z; e_fmttime : string; e_time : string }.

Definition format_epoch (ts : Z) : result Epoch :=
  match PyTime.utcfromtimestamp (ts / 1000) with
  | Ok t0 =>
      let t := t0 + ts mod 1000 * 1000 in
      Ok (mkEpoch ts (strftime t) (isoformat t))
  | Raise e => Raise e
  end.

(** *** [get_current_value_dict] *)

Definition unit_truthy (u : option string) : bool :=
  match u with Some s => PyStr.truthy s | None => false end.

Definition unit_is (u : option string) (s : string) : bool :=
  match u with Some s' => String.eqb s' s | None => false end.

Definition get_current_value_dict (point : PointView) (connection : option nat)
  : M (option ValueDict) :=
  let connection_given := match connection with Some _ => true | None => false end in
  connection <- match connection with
                | Some c => ret c
                | None => get_crate_connection
                end ;;
  result_ <- lift (store_latest (topic point)) ;;
  (if connection_given then ret tt else connection_close connection) ;;;
  match result_ with
  | None => ret None
  | Some (ts, string_value) =>
      t <- lift (format_epoch ts) ;;
      let epoch := ts in
      let time := e_time t in
      let fmttime := e_fmttime t in
      if String.eqb (kind point) "Bool" then
        let value := match string_value with
                     | Some s => String.eqb s "t" || negb (String.eqb s "0")
                     | None => true
                     end in
        ret (Some (mkValueDict (DBool value) epoch fmttime time None))
      else
        let string_value :=
          if String.eqb (kind point) "Number"
             && (unit_is (unit point) "°F" || unit_is (unit point) "°C")
          then match format_1f string_value with
               | Some s => Some s
               | None => string_value
               end
          else string_value in
        if unit_truthy (unit point) then
          ret (Some (mkValueDict (DStr string_value) epoch fmttime time (unit point)))
        else
          ret (Some (mkValueDict (DStr string_value) epoch fmttime time None))
  end.

(** *** [get_current_value] *)

(** ['%s' % value]. *)
Definition str_of_value (v : DictValue) : string :=
  match v with
  | DBool true => "True"
  | DBool false => "False"
  | DStr (Some s) => s
  | DStr None => "None"
  end.

Fixpoint remove_char (c : ascii) (s : string) : string :=
  match s with
  | EmptyString => EmptyString
  | String a r => if Ascii.eqb a c then remove_char c r else String a (remove_char c r)
  end.

Fixpoint has_char (c : ascii) (s : string) : bool :=
  match s with
  | EmptyString => false
  | String a r => Ascii.eqb a c || has_char c r
  end.

Definition strip_braces (v : DictValue) : DictValue :=
  match v with
  | DStr (Some s) =>
      if has_char "{" s then DStr (Some (remove_char "}" (remove_char "{" s))) else v
  | _ => v
  end.

Definition dquote : string := String (ascii_of_nat 34) EmptyString.

Definition as_of (time fmttime : string) : string :=
  " as of <my-datetime value=" ++ dquote ++ time ++ dquote ++ ">"
  ++ fmttime ++ "</my-datetime>".

Definition get_current_value (point : PointView) (connection : option nat)
           (raw : bool) : M (option CurrentValue) :=
  d <- get_current_value_dict point connection ;;
  match d with
  | None => ret None
  | Some d =>
      let value := v_value d in
      if raw then ret (Some (CvDict d))
      else
        let value := strip_braces value in
        if String.eqb (kind point) "Bool" then
          s <- lift (format_html ("<b>" ++ str_of_value value ++ "</b>"
                                  ++ as_of (v_time d) (v_fmttime d))) ;;
          ret (Some (CvHtml s))
        else if unit_truthy (unit point) then
          s <- lift (format_html ("<b>" ++ str_of_value value ++ "</b> "
                                  ++ match v_unit d with Some u => u | None => "" end
                                  ++ as_of (v_time d) (v_fmttime d))) ;;
          ret (Some (CvHtml s))
        else
          s <- lift (format_html ("<b>" ++ str_of_value value ++ "</b>"
                                  ++ as_of (v_time d) (v_fmttime d))) ;;
          ret (Some (CvHtml s))
  end.

(** *** [add_current_values] *)

(** [not cv]. *)
Definition cv_falsy (cv : option CurrentValue) : bool :=
  match cv with
  | None => true
  | Some (CvDict _) => false          (* four keys at least *)
  | Some (CvHtml s) => negb (PyStr.truthy s)
  | Some CvEmptyDict => true
  | Some CvNA => false
  end.

(** The body of [for d in d2], for one [d]. *)
Definition add_current_value (conn : nat) (raw : bool) (d : PointView)
  : M PointView :=
  cv <- get_current_value d (Some conn) raw ;;
  let cv := if cv_falsy cv then (if raw then CvEmptyDict else CvNA)
            else match cv with Some c => c | None => CvNA end in
  ret (set_current_value d cv).

Fixpoint for_each {A B} (f : A -> M B) (l : list A) : M (list B) :=
  match l with
  | [] => ret []
  | a :: r => b <- f a ;; bs <- for_each f r ;; ret (b :: bs)
  end.

Definition add_current_values (data : list PointView) (raw : bool)
  : M (list PointView) :=
  let d2 := data in
  conn <- get_crate_connection ;;
  d2 <- for_each (add_current_value conn raw) d2 ;;
  connection_close conn ;;;
  ret d2.

(** *** [get_ahu_current_values] *)

(** [list.sort] and [sorted]: a stable sort, here by straight insertion. *)
Fixpoint insert_sorted {A} (le : A -> A -> bool) (x : A) (l : list A) : list A :=
  match l with
  | [] => [x]
  | y :: r => if le x y then x :: y :: r else y :: insert_sorted le x r
  end.

Fixpoint stable_sort {A} (le : A -> A -> bool) (l : list A) : list A :=
  match l with
  | [] => []
  | x :: r => insert_sorted le x (stable_sort le r)
  end.

(** [pl.sort(key=lambda x: len(x.m_tags))]. *)
Definition tag_count_le (x y : PointView) : bool :=
  (List.length (m_tags x) <=? List.length (m_tags y))%nat.

(** An entry of the role catalog [q]: the tags a point must carry and, when
    the key ['exclude'] is present, the tags it must not carry. *)
Record RoleQuery : Type := mkRole {
  has : list string;
  exclude : option (list string)
}.

Definition q : list (string * RoleQuery) :=
  [ ("Space Air Temp",
     mkRole ["air"; "his"; "point"; "sensor"; "temp"]
            (Some ["mixed"; "discharge"; "return"; "outside"]));
    ("Return Air Temp",
     mkRole ["air"; "his"; "point"; "sensor"; "temp"; "return"] None);
    ("Supply Fan Speed",
     mkRole ["air"; "his"; "point"; "sensor"; "fan"; "speed"; "discharge"] None);
    ("Cooling",
     mkRole ["his"; "point"; "sensor"; "cooling"] (Some ["heat"]));
    ("Heating",
     mkRole ["his"; "point"; "sensor"; "heat"] (Some ["cooling"]));
    ("CO2",
     mkRole ["his"; "point"; "sensor"; "co2"; "zone"] None) ].

(** [m_tags__contains=tags]: every tag of [tags] is one of the point's. *)
Definition m_tags_contains (tags : list string) (p : PointView) : bool :=
  forallb (fun t => str_in t (m_tags p)) tags.

(** [m_tags__overlap=tags]: some tag of [tags] is one of the point's. *)
Definition m_tags_overlap (tags : list string) (p : PointView) : bool :=
  existsb (fun t => str_in t (m_tags p)) tags.

(** The queryset [p] of one role, before any sorting. *)
Definition role_points (data_points : list PointView) (t : RoleQuery)
  : list PointView :=
  let p := filter (m_tags_contains (has t)) data_points in
  match exclude t with
  | Some ex => filter (fun x => negb (m_tags_overlap ex x)) p
  | None => p
  end.

(** [results[n] = v] on a dict kept in insertion order. *)
Fixpoint dict_set {V} (k : string) (v : V) (d : list (string * V))
  : list (string * V) :=
  match d with
  | [] => [(k, v)]
  | (k', v') :: r =>
      if String.eqb k' k then (k, v) :: r else (k', v') :: dict_set k v r
  end.

Fixpoint dict_get {V} (k : string) (d : list (string * V)) : option V :=
  match d with
  | [] => None
  | (k', v) :: r => if String.eqb k' k then Some v else dict_get k r
  end.

(** The body of [for n, t in q.items()]. *)
Definition ahu_role (data_points : list PointView)
           (results : list (string * PointView)) (nt : string * RoleQuery)
  : M (list (string * PointView)) :=
  let (n, t) := nt in
  let p := role_points data_points t in
  match p with
  | [] => ret results
  | _ :: _ =>
      let p := if (1 <? List.length p)%nat then stable_sort tag_count_le p else p in
      match p with
      | p0 :: _ =>
          r <- add_current_values [p0] true ;;
          match r with
          | v :: _ => ret (dict_set n v results)
          | [] => ret results      (* not reached: one point in, one out *)
          end
      | [] => ret results          (* not reached: sorting keeps the length *)
      end
  end.

Fixpoint fold_m {A S} (f : S -> A -> M S) (s : S) (l : list A) : M S :=
  match l with
  | [] => ret s
  | a :: r => s' <- f s a ;; fold_m f s' r
  end.

(** [objects] is the content of [PointView.objects]. *)
Definition get_ahu_current_values (objects : list PointView)
           (equipment_id_ : string) : M (list (string * PointView)) :=
  let results := [] in
  let data_points :=
    filter (fun p => String.eqb (equipment_id p) equipment_id_) objects in
  fold_m (ahu_role data_points) results q.

(** *** [get_point_values] *)

(** Lines 189 to 211: the bounds [(start, end)] of the range token. *)
Definition resolve_range (trange : string) : M (Z * Z) :=
  end_ <- utcnow ;;
  start <- utcnow ;;
  if String.eqb "today" trange then
    td <- lift (PyTime.timedelta_days 1) ;;
    start <- lift (PyTime.sub start td) ;;
    ret (start, end_)
  else if String.eqb "yesterday" trange then
    td <- lift (PyTime.timedelta_days 2) ;;
    start <- lift (PyTime.sub start td) ;;
    td <- lift (PyTime.timedelta_days 1) ;;
    end_ <- lift (PyTime.sub end_ td) ;;
    ret (start, end_)
  else if PyStr.ends_with 7 " months" trange then
    match PyStr.int interp (PyStr.drop_last_n 7 trange) with
    | Some n =>
        td <- lift (PyTime.timedelta_days (30 * n)) ;;
        start <- lift (PyTime.sub start td) ;;
        ret (start, end_)
    | None => raise ValueError
    end
  else if PyStr.ends_with 6 " month" trange then
    match PyStr.int interp (PyStr.drop_last_n 6 trange) with
    | Some n =>
        td <- lift (PyTime.timedelta_days (30 * n)) ;;
        start <- lift (PyTime.sub start td) ;;
        ret (start, end_)
    | None => raise ValueError
    end
  else if PyStr.ends_with 5 " days" trange then
    match PyStr.int interp (PyStr.drop_last_n 5 trange) with
    | Some n =>
        td <- lift (PyTime.timedelta_days n) ;;
        start <- lift (PyTime.sub start td) ;;
        ret (start, end_)
    | None => raise ValueError
    end
  else if PyStr.ends_with 1 "h" trange then
    match PyStr.int interp (PyStr.drop_last_n 1 trange) with
    | Some n =>
        td <- lift (PyTime.timedelta_hours n) ;;
        start <- lift (PyTime.sub start td) ;;
        ret (start, end_)
    | None => raise ValueError
    end
  else if PyStr.ends_with 1 "m" trange then
    match PyStr.int interp (PyStr.drop_last_n 1 trange) with
    | Some n =>
        td <- lift (PyTime.timedelta_minutes n) ;;
        start <- lift (PyTime.sub start td) ;;
        ret (start, end_)
    | None => raise ValueError
    end
  else
    let dr := PyStr.split "," trange in
    start <- lift (parse_datetime (hd "" dr)) ;;
    match dr with
    | _ :: dr1 :: _ =>
        end_ <- lift (parse_datetime dr1) ;;
        ret (start, end_)
    | _ => ret (start, end_)
    end.

(** One pass of the [while True] loop on a fetched row: lines 233 to 243. *)
Definition decode_row (is_bool ts_as_datetime : bool) (r : Row)
  : result (Stamp * PyVal) :=
  let ts := r0 r in
  let value := r1 r in
  match (if is_bool then
           if truthy value && (eq_str value "t" || negb (eq_str value "0"))
           then Ok (PInt 1)
           else py_round (r2 r)
         else Ok value) with
  | Raise e => Raise e
  | Ok value =>
      if ts_as_datetime then
        match PyTime.utcfromtimestamp (ts / 1000) with
        | Ok t => Ok (Datetime t, value)
        | Raise e => Raise e
        end
      else Ok (Millis ts, value)
  end.

(** The loop itself: [data] in the order in which the rows were fetched. *)
Fixpoint fetch_all (is_bool ts_as_datetime : bool) (rows : list Row)
  : result (list (Stamp * PyVal)) :=
  match rows with
  | [] => Ok []
  | r :: rest =>
      match decode_row is_bool ts_as_datetime r with
      | Raise e => Raise e
      | Ok x =>
          match fetch_all is_bool ts_as_datetime rest with
          | Raise e => Raise e
          | Ok xs => Ok (x :: xs)
          end
      end
  end.

Definition valid_date_trunc (date_trunc : string) : string :=
  if str_in date_trunc ["day"; "hour"; "minute"; "second"] then date_trunc
  else DEFAULT_RES.

(** [if not trange: trange = DEFAULT_RANGE]; [None] and [''] are both false. *)
Definition valid_trange (trange : option string) : string :=
  match trange with
  | Some s => if PyStr.truthy s then s else DEFAULT_RANGE
  | None => DEFAULT_RANGE
  end.

(** Lines 215 to 227: the shape of [sql] with its parameters. *)
Definition point_query (d : PointView) (date_trunc value_func : string)
           (start end_ : Z) : Query :=
  let is_number := String.eqb "Number" (kind d) in
  let is_bool := String.eqb "Bool" (kind d) in
  if is_number then SelectNumber date_trunc value_func (topic d) start end_
  else if is_bool then SelectBool date_trunc value_func (topic d) start end_
  else SelectString (topic d) start end_.

(** Lines 215 to 247: the query, the loop over its rows, the release of the
    connection and the reversal. *)
Definition query_points (conn : nat) (d : PointView) (date_trunc value_func : string)
           (ts_as_datetime : bool) (range : Z * Z) : M (list (Stamp * PyVal)) :=
  let (start, end_) := range in
  let is_bool := String.eqb "Bool" (kind d) in
  rows <- lift (store_range (point_query d date_trunc value_func start end_)) ;;
  data <- lift (fetch_all is_bool ts_as_datetime rows) ;;
  connection_close conn ;;;
  ret (rev data).

Definition get_point_values (d : PointView) (date_trunc value_func : string)
           (trange : option string) (ts_as_datetime : bool)
  : M (list (Stamp * PyVal)) :=
  conn <- get_crate_connection ;;
  let date_trunc := valid_date_trunc date_trunc in
  let trange := valid_trange trange in
  range <- resolve_range trange ;;
  query_points conn d date_trunc value_func ts_as_datetime range.

End Utils.

(** *** [get_topics_tags_report] *)

(** A row of [Topic.objects.all().order_by('topic')] with what
    [topic.get_related_point()] returns for it. *)
Record Topic : Type := mkTopic {
  t_topic : string;
  related_point : option PointView
}.

(** The dict [topic_tags]: each of its two keys is present or not. *)
Record TopicTags : Type := mkTopicTags {
  tt_kv_tags : option (list (string * string));
  tt_m_tags : option (list string)
}.

(** [if x not in report_header: report_header.append(x)], for each [x]. *)
Fixpoint append_new (xs : list string) (report_header : list string) : list string :=
  match xs with
  | [] => report_header
  | x :: r =>
      append_new r (if str_in x report_header then report_header
                    else report_header ++ [x])
  end.

Definition nonempty {A} (l : list A) : bool :=
  match l with [] => false | _ => true end.

(** The body of the first [for topic in topics], on the pair
    [(report_header, topics_tags)]. *)
Definition collect_topic (st : list string * list (string * TopicTags))
           (topic_ : Topic) : list string * list (string * TopicTags) :=
  let (report_header, topics_tags) := st in
  match related_point topic_ with
  | None => st
  | Some point =>
      let report_header :=
        if nonempty (kv_tags point)
        then append_new (map fst (kv_tags point)) report_header
        else report_header in
      let report_header :=
        if nonempty (m_tags point)
        then append_new (m_tags point) report_header
        else report_header in
      let tags_exists := nonempty (kv_tags point) || nonempty (m_tags point) in
      let topic_tags :=
        mkTopicTags (if nonempty (kv_tags point) then Some (kv_tags point) else None)
                    (if nonempty (m_tags point) then Some (m_tags point) else None) in
      (report_header,
       if tags_exists then dict_set (t_topic topic_) topic_tags topics_tags
       else topics_tags)
  end.

(** The cell of one column of a topic that has tags. *)
Definition report_cell (kv : list (string * string)) (m : list string)
           (tag : string) : string :=
  if nonempty kv && str_in tag (map fst kv) then
    match dict_get tag kv with Some value => value | None => "" end
  else if nonempty m && str_in tag m then "X"
  else "".

(** The body of the second [for topic in topics]. *)
Definition report_row (report_header : list string)
           (topics_tags : list (string * TopicTags)) (topic_ : Topic)
  : list string :=
  let row := [t_topic topic_] in
  let blank := (row ++ repeat "" (List.length report_header))%list in
  match dict_get (t_topic topic_) topics_tags with
  | None => blank
  | Some topic_tags =>
      match tt_kv_tags topic_tags, tt_m_tags topic_tags with
      | None, None => blank            (* an empty dict is false too *)
      | okv, om =>
          let kv := match okv with Some d => d | None => [] end in
          let m := match om with Some l => l | None => [] end in
          if nonempty kv || nonempty m
          then (row ++ map (report_cell kv m) report_header)%list
          else (row ++ [""])%list
      end
  end.

Definition get_topics_tags_report (topics : list Topic)
  : list (list string) * list string :=
  let (report_header, topics_tags) := fold_left collect_topic topics ([], []) in
  let report_header := stable_sort String.leb report_header in
  let report_rows := map (report_row report_header topics_tags) topics in
  (report_rows, "topic" :: report_header).

Definition pt (tp : string) (m : list string) (kv : list (string * string)) : PointView :=
  mkPoint tp tp "Number" None m kv "eq" None.

(** * Vocabulary of the statements, and fixtures *)

Definition int_char (c : ascii) : bool :=
  PyStr.is_space c || PyStr.is_digit c
  || Ascii.eqb c "_" || Ascii.eqb c "+" || Ascii.eqb c "-".

(** A relative token: one of the two words, or the text of a number [N]
    followed by one of the five suffixes. *)
Inductive RelToken : Type :=
| Today
| Yesterday
| Months (N : string)
| Month (N : string)
| Days (N : string)
| Hours (N : string)
| Minutes (N : string).

Definition token_text (t : RelToken) : string :=
  match t with
  | Today => "today"
  | Yesterday => "yesterday"
  | Months N => N ++ " months"
  | Month N => N ++ " month"
  | Days N => N ++ " days"
  | Hours N => N ++ "h"
  | Minutes N => N ++ "m"
  end.

Definition token_number (t : RelToken) : option string :=
  match t with
  | Today | Yesterday => None
  | Months N | Month N | Days N | Hours N | Minutes N => Some N
  end.

(** The bounds stated for each token, as what is subtracted from [now] for
    [start] and for [end], in microseconds. *)
Definition token_span (t : RelToken) (n : Z) : Z * Z :=
  match t with
  | Today => (1 * PyTime.US_PER_DAY, 0)
  | Yesterday => (2 * PyTime.US_PER_DAY, 1 * PyTime.US_PER_DAY)
  | Months _ | Month _ => (30 * n * PyTime.US_PER_DAY, 0)
  | Days _ => (n * PyTime.US_PER_DAY, 0)
  | Hours _ => (n * PyTime.US_PER_HOUR, 0)
  | Minutes _ => (n * PyTime.US_PER_MINUTE, 0)
  end.

(** [N] is the text of the integer [n]. *)
Definition token_value (interp : PyStr.Interpreter) (t : RelToken) (n : Z)
  : Prop :=
  match token_number t with
  | Some N => PyStr.int interp N = Some n
  | None => True
  end.

(** The stated bounds exist as [timedelta] and [datetime] values; [t_start]
    and [t_end] are the clock readings the two bounds start from. *)
Definition representable (t : RelToken) (n t_start t_end : Z) : bool :=
  is_ok (PyTime.timedelta (fst (token_span t n)))
  && PyTime.in_range (t_start - fst (token_span t n))
  && match t with
     | Yesterday => PyTime.in_range (t_end - snd (token_span t n))
     | _ => true
     end.

(** The world after the two readings of the clock. *)
Definition after_reads (w : World) : World :=
  mkWorld (S (S (reads w))) (next_conn w) (open_conns w).

(** The world after [get_crate_connection]. *)
Definition after_connect (w : World) : World :=
  mkWorld (reads w) (S (next_conn w)) (next_conn w :: open_conns w).

(** A clock that starts on day 739000 after 0001-01-01 and advances by one
    microsecond between two readings. *)
Definition clock0 (k : nat) : Z := 739000 * PyTime.US_PER_DAY + Z.of_nat k.

(** An interpreter with the default limit on digits, whose [int] takes no
    character beyond ASCII. *)
Definition interp0 : PyStr.Interpreter := PyStr.mkInterpreter 4300 (fun _ => None).

(** An interpreter that also reads the Arabic-Indic digit three. *)
Definition interp_arabic : PyStr.Interpreter :=
  PyStr.mkInterpreter 4300 (fun s => if String.eqb s "٣" then Some 3 else None).

(** A clock that does not advance between two readings. *)
Definition clock_still (k : nat) : Z := 739000 * PyTime.US_PER_DAY.

(** A store without rows, and a parser that reads two dates and refuses any
    other text. *)
Definition store0 (sql : Query) : result (list Row) := Ok [].

Definition parse0 (s : string) : result Z :=
  if String.eqb s "2020-01-01" then Ok (737424 * PyTime.US_PER_DAY)
  else if String.eqb s "2020-01-02" then Ok (737425 * PyTime.US_PER_DAY)
  else Raise ParserError.

Definition w0 : World := mkWorld 0 0 [].

Definition d0 : PointView := mkPoint "p1" "campus/b1/ahu1/temp" "String" None [] [] "ahu1" None.

(** The explicit-date rule is reached: no earlier rule of the grammar
    matches. *)
Definition explicit_form (trange : string) : bool :=
  negb (String.eqb "today" trange)
  && negb (String.eqb "yesterday" trange)
  && negb (PyStr.ends_with 7 " months" trange)
  && negb (PyStr.ends_with 6 " month" trange)
  && negb (PyStr.ends_with 5 " days" trange)
  && negb (PyStr.ends_with 1 "h" trange)
  && negb (PyStr.ends_with 1 "m" trange).

(** The same, by the shape of the token: one of the two words, or a text
    that is not empty followed by one of the five suffixes. *)
Definition relative_form (trange : string) : Prop :=
  trange = "today" \/ trange = "yesterday"
  \/ exists pre suf,
      pre <> "" /\ In suf [" months"; " month"; " days"; "h"; "m"]
      /\ trange = pre ++ suf.

Definition store_down (sql : Query) : result (list Row) := Raise StoreError.

(** What the value of a returned pair is for a row of a Bool point, as the
    code computes it: 1 for a representative that is true (not NULL, not
    empty) and is not ["0"], the rounded aggregate otherwise. *)
Definition bool_decoded (r : Row) (v : PyVal) : Prop :=
  if truthy (r1 r) && negb (eq_str (r1 r) "0")
  then v = PInt 1
  else py_round (r2 r) = Ok v.

(** The same, as the specification words it: 1 for a representative that
    equals ["t"] or is not ["0"]. *)
Definition bool_decoded_as_specified (r : Row) (v : PyVal) : Prop :=
  if eq_str (r1 r) "t" || negb (eq_str (r1 r) "0")
  then v = PInt 1
  else py_round (r2 r) = Ok v.

(** The position in time of a returned pair, for comparing pairs. *)
Definition pair_key (x : Stamp * PyVal) : Z := stamp_key (fst x).

(** [datetime.utcfromtimestamp(ts // 1000)] as a number. *)
Definition whole_second (ts : Z) : Z :=
  PyTime.UNIX_EPOCH + ts / 1000 * PyTime.US_PER_SECOND.

(** A store that answers every query with two rows of the same second,
    newest first. *)
Definition store_same_second (sql : Query) : result (list Row) :=
  Ok [mkRow 1500 (PStr "a") PNone; mkRow 1000 (PStr "b") PNone].

(** A store of a Bool point: the representatives ["t"], ["0"] and the empty
    string, each with the aggregate 2.4. *)
Definition store_bool (sql : Query) : result (list Row) :=
  Ok [mkRow 3000 (PStr "t") (PFloat (24 # 10));
      mkRow 2000 (PStr "0") (PFloat (24 # 10));
      mkRow 1000 (PStr "") (PFloat (24 # 10))].

Definition d_bool : PointView :=
  mkPoint "p2" "campus/b1/ahu1/fan" "Bool" None [] [] "ahu1" None.

(** The marker [add_current_values] stores for a point without a reading. *)
Definition no_data_marker (raw : bool) : CurrentValue :=
  if raw then CvEmptyDict else CvNA.

(** A store in which no topic has a row. *)
Definition latest_none (topic_ : string) : result (option (Z * option string)) := Ok None.

Definition iso0 (t : Z) : string := "".
Definition fmt0 (t : Z) : string := "".
Definition float0 (s : option string) : option string := None.
Definition html0 (s : string) : result string := Ok s.

(** The candidate set of a role: the points of the equipment that carry all
    required tags and none of the excluded ones. *)
Definition candidates (objects : list PointView) (equipment_id_ : string)
           (t : RoleQuery) : list PointView :=
  role_points (filter (fun p => String.eqb (equipment_id p) equipment_id_) objects) t.

(** [p0] is a candidate and no candidate has fewer tags. *)
Definition fewest_tags (p0 : PointView) (cand : list PointView) : Prop :=
  In p0 cand
  /\ forall x, In x cand -> (List.length (m_tags p0) <= List.length (m_tags x))%nat.

(** What a role contributes to [results]: nothing when it has no candidate,
    else a candidate with the fewest tags, decorated with a current value. *)
Definition role_outcome (cand : list PointView) (before after : option PointView) : Prop :=
  match cand with
  | [] => after = before
  | _ :: _ => exists p0 cv, after = Some (set_current_value p0 cv) /\ fewest_tags p0 cand
  end.

(** Two points of one equipment that answer the role ["Return Air Temp"], one
    with six tags and one with seven, and a point of another equipment. *)
Definition p_six : PointView :=
  mkPoint "p6" "t/six" "Number" (Some "F")
          ["air"; "his"; "point"; "sensor"; "temp"; "return"] [] "ahu1" None.

Definition p_seven : PointView :=
  mkPoint "p7" "t/seven" "Number" (Some "F")
          ["air"; "his"; "point"; "sensor"; "temp"; "return"; "zone"] [] "ahu1" None.

Definition p_other : PointView :=
  mkPoint "p8" "t/other" "Number" (Some "F")
          ["his"; "point"; "sensor"; "co2"; "zone"] [] "ahu2" None.

Definition ahu_points : list PointView := [p_seven; p_six; p_other].

(** A store in which every topic has the reading ["72"] at one second past
    the epoch. *)
Definition latest_72 (topic_ : string) : result (option (Z * option string)) :=
  Ok (Some (1000, Some "72")).


(** A store whose latest reading is a text in braces. *)
Definition latest_braces (topic_ : string) : result (option (Z * option string)) :=
  Ok (Some (1000, Some "{a}")).

Definition reading_72 : CurrentValue :=
  CvDict (mkValueDict (DStr (Some "72")) 1000 "" "" (Some "F")).

(** The header is listed in ascending order without repetition. *)
Definition listed_ascending (l : list string) : Prop :=
  StronglySorted (fun a b => String.leb a b = true) l /\ NoDup l.

(** [x] is a key of [kv_tags] or a member of [m_tags] of the related point of
    some topic. *)
Definition observed (x : string) (topics : list Topic) : Prop :=
  exists tp p, In tp topics /\ related_point tp = Some p
               /\ (In x (map fst (kv_tags p)) \/ In x (m_tags p)).

(** The point has a tag of either kind. *)
Definition has_tags (p : PointView) : bool :=
  nonempty (kv_tags p) || nonempty (m_tags p).

(** A topic without a related point, or whose point has no tag. *)
Definition untagged (tp : Topic) : Prop :=
  match related_point tp with
  | None => True
  | Some p => has_tags p = false
  end.

(** What the first loop stores for a topic is never empty. *)
Definition tags_stored (v : TopicTags) : bool :=
  nonempty (match tt_kv_tags v with Some d => d | None => [] end)
  || nonempty (match tt_m_tags v with Some l => l | None => [] end).

Definition topic_A : Topic := mkTopic "A" (Some (pt "A" ["his"] [])).
Definition topic_B : Topic := mkTopic "B" (Some (pt "B" [] [("dis", "Room 1")])).
Definition topic_C : Topic := mkTopic "C" None.
Definition topic_D : Topic := mkTopic "D" (Some (pt "D" [] [])).

(** A topic whose related point has a tag. *)
Definition tagged (tp : Topic) : Prop :=
  exists p, related_point tp = Some p /\ has_tags p = true.

(** * The other functions of [utils.py] *)

(** [bool(v)] for a nullable text: [None] and [''] are false. *)
Definition opt_truthy (v : option string) : bool :=
  match v with Some s => PyStr.truthy s | None => false end.

(** [v == s] for a nullable text and a literal. *)
Definition opt_eqb (v : option string) (s : string) : bool :=
  match v with Some s' => String.eqb s' s | None => false end.

(** ['{}'.format(v)] for a nullable text. *)
Definition str_or_none (v : option string) : string :=
  match v with Some s => s | None => "None" end.

(** ** [charts_for_points] *)

(** A point as [charts_for_points] reads it: the columns of [PointView]
    modelled above, with [description] and [site_id]. *)
Record ChartPoint : Type := mkChartPoint {
  cp_point : PointView;
  description : option string;
  site_id : option string
}.

(** An entry of [charts]; [c_title] is [None] when the point has neither a
    description nor a unit. *)
Record Chart : Type := mkChart {
  c_index : nat;
  c_title : option string;
  c_unit : string;
  c_site_id : option string;
  c_equipment_id : string;
  c_point_id : string;
  c_point : ChartPoint;
  c_current_value : ValueDict;
  c_url : string;
  c_isBool : bool
}.

Section Charts.

Variable store_latest : string -> result (option (Z * option string)).
Variable isoformat : Z -> string.
Variable strftime : Z -> string.
Variable format_1f : option string -> option string.

(** [reverse("core:point_data_json", kwargs={"point": id})]. *)
Variable reverse_point_data_json : string -> result string.

(** The body of [for point in points], on the pair [(charts, i)]. *)
Definition chart_step (st : list Chart * nat) (point : ChartPoint)
  : M (list Chart * nat) :=
  let (charts, i) := st in
  data <- get_current_value_dict store_latest isoformat strftime format_1f
                                 (cp_point point) None ;;
  match data with
  | None => ret (charts, i)
  | Some data =>
      let i := S i in
      let title := description point in
      let unit_ := "" in
      let (unit_, title) :=
        if unit_truthy (unit (cp_point point))
        then (str_or_none (unit (cp_point point)),
              Some (str_or_none title ++ " " ++ str_or_none (unit (cp_point point))))
        else (unit_, title) in
      let unit_ :=
        if String.eqb "Bool" (kind (cp_point point)) then "on/off" else unit_ in
      url <- lift (reverse_point_data_json (entity_id (cp_point point))) ;;
      ret ((charts ++ [mkChart i title unit_ (site_id point)
                               (equipment_id (cp_point point))
                               (entity_id (cp_point point))
                               point data url
                               (String.eqb (kind (cp_point point)) "Bool")])%list,
           i)
  end.

Definition charts_for_points (points : list ChartPoint) : M (list Chart) :=
  st <- fold_m chart_step ([], 0%nat) points ;;
  ret (fst st).

End Charts.

(** ** [get_tag], [get_tags_list], [get_related_model_id] *)

(** A row of the table of [Tag]: the columns the raw query selects besides
    [tag]. *)
Record TagRow : Type := mkTagRow {
  tag_description : option string;
  tag_details : option string;
  tag_kind : option string
}.

(** A row of the table of [Entity] as the raw queries select it; a NULL
    column reads as the empty dict or list, which is as false as NULL. *)
Record EntityRow : Type := mkEntityRow {
  er_entity_id : string;
  er_kv_tags : list (string * option string);
  er_m_tags : list string
}.

(** An entry of [tags_list]: the dict of a key of [kv_tags], with the key
    ['slug'] present or not, or the three-key dict of a member of [m_tags]. *)
Inductive TagItem : Type :=
| KvItem (tag : string) (value : option string)
         (details kind description : option string) (slug : option string)
| MItem (tag : string) (details description : option string).

Definition item_tag (t : TagItem) : string :=
  match t with KvItem tag _ _ _ _ _ => tag | MItem tag _ _ => tag end.

Definition item_description (t : TagItem) : option string :=
  match t with KvItem _ _ _ _ d _ => d | MItem _ _ d => d end.

Definition item_details (t : TagItem) : option string :=
  match t with KvItem _ _ d _ _ _ => d | MItem _ d _ => d end.

Section Tags.

(** The rows of [Tag.objects.raw(... WHERE tag = %s)]. *)
Variable tag_rows : string -> result (list TagRow).

(** [Tag.get_ref_entity_for(key, value)]: the [entity_id] of the entity the
    reference names, when there is one. *)
Variable get_ref_entity_for : string -> option string -> result (option string).

(** The rows of the raw query of [get_tags_for_topic]. *)
Variable entity_rows : string -> result (list EntityRow).

Definition get_tag (tag : string) : M (option TagRow) :=
  rows <- lift (tag_rows tag) ;;
  match rows with
  | r :: _ => ret (Some r)
  | [] => ret None                  (* IndexError *)
  end.

(** The body of [for key in tag.kv_tags]. *)
Definition kv_item (kv_tags_ : list (string * option string)) (key : string)
  : M TagItem :=
  tag_row <- get_tag key ;;
  let '(description, details, kind) :=
    match tag_row with
    | Some r => (tag_description r, tag_details r, tag_kind r)
    | None => (Some key, Some "", Some "")
    end in
  let value := match dict_get key kv_tags_ with Some v => v | None => None end in
  if opt_eqb kind "Ref" && opt_truthy value then
    entity <- lift (get_ref_entity_for key value) ;;
    ret (KvItem key value details kind description entity)
  else ret (KvItem key value details kind description None).

(** The body of [for tag in tag.m_tags]. *)
Definition m_item (tag : string) : M TagItem :=
  tag_row <- get_tag tag ;;
  let '(description, details) :=
    match tag_row with
    | Some r => (tag_description r, tag_details r)
    | None => (Some tag, Some "")
    end in
  ret (MItem tag details description).

(** [for a in l: tags_list.append(f(a))]. *)
Definition append_each {A} (f : A -> M TagItem) (tags_list : list TagItem)
           (l : list A) : M (list TagItem) :=
  fold_m (fun tags_list a => t <- f a ;; ret (tags_list ++ [t])%list) tags_list l.

Definition get_tags_list (tags : list EntityRow) : M (list TagItem) :=
  let tags_list := [] in
  tags_list <-
    fold_m (fun tags_list tag =>
              if nonempty (er_kv_tags tag)
              then append_each (kv_item (er_kv_tags tag)) tags_list
                               (map fst (er_kv_tags tag))
              else ret tags_list)
           tags_list tags ;;
  fold_m (fun tags_list tag =>
            if nonempty (er_m_tags tag)
            then append_each m_item tags_list (er_m_tags tag)
            else ret tags_list)
         tags_list tags.

Definition get_tags_for_topic (entity_id_ : string) : M (list EntityRow) :=
  lift (entity_rows entity_id_).

Definition get_tags_list_for_topic (entity_id_ : string) : M (list TagItem) :=
  tags <- get_tags_for_topic entity_id_ ;;
  get_tags_list tags.

(** The loop of [get_related_model_id]: a row without the key raises
    [KeyError], which the loop passes over. *)
Fixpoint first_model_ref (tags : list EntityRow) : option string :=
  match tags with
  | [] => None
  | tag :: rest =>
      if nonempty (er_kv_tags tag) then
        match dict_get "modelRef" (er_kv_tags tag) with
        | Some v => if opt_truthy v then v else first_model_ref rest
        | None => first_model_ref rest
        end
      else first_model_ref rest
  end.

Definition get_related_model_id (entity_id_ : string) : M (option string) :=
  tags <- get_tags_for_topic entity_id_ ;;
  ret (first_model_ref tags).

End Tags.

(** ** [get_equipment_metrics] *)

(** An entry of [conditions]; the key ['m_tags_exclude'] is present or not. *)
Record Condition : Type := mkCondition {
  metric : string;
  cond_m_tags : list string;
  m_tags_exclude : option (list string)
}.

Definition conditions : list Condition :=
  [ mkCondition "CoolValveCMD" ["cool"; "valve"; "cmd"; "his"; "point"] None;
    mkCondition "HeatValveCmd" ["heat"; "valve"; "cmd"; "his"; "point"] None;
    mkCondition "OADamperCMD" ["outside"; "air"; "damper"; "his"; "point"] None;
    mkCondition "ZoneTemp" ["temp"; "zone"; "air"; "his"; "point"] (Some ["sp"]);
    mkCondition "ZoneTempSP" ["temp"; "zone"; "air"; "sp"; "his"; "point"] None;
    mkCondition "MixedAirTemp" ["temp"; "mixed"; "air"; "his"; "point"] None ].

(** An entry of [metrics]. *)
Record Metric : Type := mkMetric {
  mt_metric : string;
  mt_topic : string
}.

(** The queryset [data_points] of one condition; the exclusion is by
    [m_tags__contains], not by overlap. *)
Definition condition_points (objects : list PointView) (equipmen_ref : string)
           (condition : Condition) : list PointView :=
  let data_points :=
    filter (fun p => String.eqb (equipment_id p) equipmen_ref) objects in
  let data_points := filter (m_tags_contains (cond_m_tags condition)) data_points in
  match m_tags_exclude condition with
  | Some ex => filter (fun p => negb (m_tags_contains ex p)) data_points
  | None => data_points
  end.

(** [objects] is the content of [PointView.objects]. *)
Definition get_equipment_metrics (objects : list PointView) (equipmen_ref : string)
  : list Metric :=
  fold_left
    (fun metrics condition =>
       (metrics ++ map (fun data_point => mkMetric (metric condition) (topic data_point))
                       (condition_points objects equipmen_ref condition))%list)
    conditions [].

(** ** [cleanup_id] *)

(** [s.replace(a, b)] for one-character [a] and [b]. *)
Fixpoint replace_char (a b : ascii) (s : string) : string :=
  match s with
  | EmptyString => EmptyString
  | String c r => String (if Ascii.eqb c a then b else c) (replace_char a b r)
  end.

Definition cleanup_id (id : option string) : option string :=
  if opt_truthy id
  then option_map (replace_char "/" "-") id
  else id.

(** ** [get_site_addr_loc] *)

(** The dict stored in the session and returned. *)
Record AddrLoc : Type := mkAddrLoc {
  latitude : Q;
  longitude : Q;
  al_site_id : string
}.

(** [geo.json], with the keys the function reads. *)
Record GeoJson : Type := mkGeoJson {
  geo_ok : bool;
  geo_lat : Q;
  geo_lng : Q
}.

Definition allowed_tags : list string :=
  ["geoCity"; "geoCountry"; "geoPostalCode"; "geoState"; "geoStreet"; "geoAddr"].

(** The three variables the loop over [tags] updates. *)
Record AddrState : Type := mkAddrState {
  show_google_map : bool;
  geo_addr : option string;
  site_address : string
}.

(** The body of [for tag in tags], on an item of the dict. *)
Definition addr_step (st : AddrState) (item : string * option string) : AddrState :=
  let (tag, value) := item in
  if str_in tag allowed_tags && opt_truthy value then
    if String.eqb tag "geoAddr" then
      mkAddrState (show_google_map st) value (site_address st)
    else
      let site_address_ :=
        if PyStr.truthy (site_address st) then site_address st ++ ", "
        else site_address st in
      let site_address_ := site_address_ ++ match value with Some s => s | None => "" end in
      mkAddrState (if String.eqb tag "geoStreet" then true else show_google_map st)
                  (geo_addr st) site_address_
  else st.

(** Lines 578 to 594: the address to look up and whether to look it up. *)
Definition compose_address (tags : list (string * option string)) : AddrState :=
  let st := mkAddrState false None "" in
  let st := if nonempty tags then fold_left addr_step tags st else st in
  if negb (show_google_map st) && opt_truthy (geo_addr st) then
    let site_address_ :=
      if PyStr.truthy (site_address st) then site_address st ++ ", "
      else site_address st in
    mkAddrState true (geo_addr st)
                (site_address_ ++ match geo_addr st with Some s => s | None => "" end)
  else st.

Section SiteAddress.

(** [settings.GOOGLE_API_KEY]. *)
Variable GOOGLE_API_KEY : option string.

(** [hashlib.md5(s.encode('utf-8')).hexdigest()]. *)
Variable md5_hexdigest : string -> string.

(** [geocoder.google(address, key=...).json]; [None] when it is empty. *)
Variable geocoder_google : string -> option string -> option GeoJson.

(** The session maps a key to what was stored under it; [None] stands for a
    stored value that is false.  The result is [addr_loc], the session after
    the call, and the addresses handed to the geocoder. *)
Definition get_site_addr_loc (tags : list (string * option string)) (site_id_ : string)
           (session : list (string * option AddrLoc))
  : option AddrLoc * list (string * option AddrLoc) * list string :=
  let addr_loc := None in
  if opt_truthy GOOGLE_API_KEY then
    let st := compose_address tags in
    if PyStr.truthy (site_address st) && show_google_map st then
      let hash_key := md5_hexdigest (site_address st) in
      let addr_loc :=
        match dict_get hash_key session with
        | Some v => v
        | None => addr_loc
        end in
      match addr_loc with
      | Some _ => (addr_loc, session, [])
      | None =>
          match geocoder_google (site_address st) GOOGLE_API_KEY with
          | Some geo =>
              if geo_ok geo then
                let addr_loc := mkAddrLoc (geo_lat geo) (geo_lng geo) site_id_ in
                (Some addr_loc, dict_set hash_key (Some addr_loc) session,
                 [site_address st])
              else (None, session, [site_address st])
          | None => (None, session, [site_address st])
          end
      end
    else (addr_loc, session, [])
  else (addr_loc, session, []).

End SiteAddress.

(** ** [get_bacnet_trending_data] *)

(** A row of [rows], with the three attributes the function reads. *)
Record BacnetRow : Type := mkBacnetRow {
  br_topic : string;
  br_kv_tags : list (string * option string);
  br_bacnet_fields : list (string * option string)
}.

(** [d.get(key)] on a dict of nullable texts. *)
Definition hs_get (key : string) (d : list (string * option string)) : option string :=
  match dict_get key d with Some v => v | None => None end.

(** [v if v else ''], as both loops append it. *)
Definition text_or_blank (v : option string) : string :=
  if opt_truthy v then match v with Some s => s | None => "" end else "".

(** The first loop. *)
Definition bacnet_header (rows : list BacnetRow) : list string :=
  fold_left
    (fun header row =>
       if nonempty (br_bacnet_fields row)
       then append_new (map fst (br_bacnet_fields row)) header
       else header)
    rows ["Point Name"; "Volttron Point Name"].

(** The body of the second loop. *)
Definition bacnet_data_row (header : list string) (row : BacnetRow) : list string :=
  let data_row := [br_topic row] in
  let data_row :=
    (data_row ++ [if nonempty (br_kv_tags row) && opt_truthy (hs_get "dis" (br_kv_tags row))
                  then text_or_blank (hs_get "dis" (br_kv_tags row))
                  else ""])%list in
  if nonempty (br_bacnet_fields row) then
    (data_row ++ map (fun key => text_or_blank (hs_get key (br_bacnet_fields row)))
                     (skipn 2 header))%list
  else data_row.

Definition get_bacnet_trending_data (rows : list BacnetRow)
  : list string * list (list string) :=
  let header := bacnet_header rows in
  (header, map (bacnet_data_row header) rows).

(** * Vocabulary of the further statements *)

(** The world after a call that opened one connection and closed it. *)
Definition after_call (w : World) : World :=
  mkWorld (reads w) (S (next_conn w))
          (filter (fun c => negb (Nat.eqb c (next_conn w))) (open_conns w)).

(** What [add_current_values] leaves in [current_value]: with [raw] a dict,
    empty or not; without, a text that is not empty. *)
Definition stored_value (raw : bool) (cv : CurrentValue) : Prop :=
  if raw then (exists d, cv = CvDict d) \/ cv = CvEmptyDict
  else (exists s, cv = CvHtml s /\ s <> "") \/ cv = CvNA.

(** The timestamp of a returned pair, for a row with timestamp [ts]. *)
Definition stamp_of (ts_as_datetime : bool) (ts : Z) : Stamp :=
  if ts_as_datetime then Datetime (whole_second ts) else Millis ts.

(** The cell of a point under the column of tag [x]: the value of the key
    [x] when [kv_tags] has it, else the mark ["X"] when [x] is one of
    [m_tags], else empty. *)
Definition cell_of (p : PointView) (x : string) : string :=
  match dict_get x (kv_tags p) with
  | Some v => v
  | None => if str_in x (m_tags p) then "X" else ""
  end.

(** The store has a reading for the point of a chart. *)
Definition has_reading (store_latest : string -> result (option (Z * option string)))
           (p : ChartPoint) : bool :=
  match store_latest (topic (cp_point p)) with
  | Ok (Some _) => true
  | _ => false
  end.

(** The unit shown on the chart of a point: on/off for a Bool point, else
    the unit of the point, empty when it has none. *)
Definition chart_unit (p : PointView) : string :=
  if String.eqb (kind p) "Bool" then "on/off"
  else match unit p with Some u => u | None => "" end.

(** The title of the chart of a point: the description, followed by the
    unit when the point has one. *)
Definition chart_title (p : ChartPoint) : option string :=
  match unit (cp_point p) with
  | Some u => if PyStr.truthy u then Some (str_or_none (description p) ++ " " ++ u)
              else description p
  | None => description p
  end.

(** A chart carries the data of its point. *)
Definition chart_of_point (c : Chart) : Prop :=
  c_unit c = chart_unit (cp_point (c_point c))
  /\ c_title c = chart_title (c_point c)
  /\ c_isBool c = String.eqb (kind (cp_point (c_point c))) "Bool"
  /\ c_point_id c = entity_id (cp_point (c_point c))
  /\ c_equipment_id c = equipment_id (cp_point (c_point c))
  /\ c_site_id c = site_id (c_point c).

(** Between two worlds: [k] connections were opened, and none of them is
    open any more; nothing else was opened. *)
Definition connections_returned (k : nat) (w w' : World) : Prop :=
  next_conn w' = (next_conn w + k)%nat
  /\ incl (open_conns w') (open_conns w)
  /\ forall c, (next_conn w <= c < next_conn w')%nat -> ~ In c (open_conns w').

(** A store with a reading for the fan alone, two points to chart, and a
    resolver of URLs. *)
Definition latest_fan (topic_ : string) : result (option (Z * option string)) :=
  if String.eqb topic_ "campus/b1/ahu1/fan" then Ok (Some (1000, Some "t")) else Ok None.

Definition chart_points : list ChartPoint :=
  [mkChartPoint d0 (Some "Room temperature") (Some "site1");
   mkChartPoint d_bool (Some "Fan") (Some "site1")].

Definition url0 (id : string) : result string := Ok ("/point/" ++ id).

Definition chart_fan : Chart :=
  mkChart 1 (Some "Fan") "on/off" (Some "site1") "ahu1" "p2"
          (mkChartPoint d_bool (Some "Fan") (Some "site1"))
          (mkValueDict (DBool true) 1000 "" "" None) "/point/p2" true.

(** An entry of [tags_list] made from a key of [kv_tags]. *)
Definition is_kv (t : TagItem) : bool :=
  match t with KvItem _ _ _ _ _ _ => true | MItem _ _ _ => false end.

(** The entry carries the description and the details of the first row of
    [Tag] for its name, or its own name and empty details when [Tag] has no
    row for it. *)
Definition described (tag_rows : string -> result (list TagRow)) (t : TagItem) : Prop :=
  match tag_rows (item_tag t) with
  | Ok [] => item_description t = Some (item_tag t) /\ item_details t = Some ""
  | Ok (r :: _) =>
      item_description t = tag_description r /\ item_details t = tag_details r
  | Raise _ => False
  end.

(** The entry of a key has its value in one of the rows given; a ['slug'] is
    present only for a tag of kind ['Ref'] with a value, and is what the
    lookup of the reference found. *)
Definition kv_entry (get_ref_entity_for : string -> option string -> result (option string))
           (tags : list EntityRow) (t : TagItem) : Prop :=
  match t with
  | KvItem key value _ kind _ slug =>
      (exists e, In e tags /\ In key (map fst (er_kv_tags e))
                 /\ value = hs_get key (er_kv_tags e))
      /\ match slug with
         | Some _ => kind = Some "Ref" /\ opt_truthy value = true
                     /\ get_ref_entity_for key value = Ok slug
         | None => True
         end
  | MItem _ _ _ => True
  end.

(** A table of [Tag] with one row, for the reference to a site; a lookup of
    references that finds the site; and one row of [Entity]. *)
Definition tag_table0 (tag : string) : result (list TagRow) :=
  if String.eqb tag "siteRef"
  then Ok [mkTagRow (Some "Site") (Some "the site of the point") (Some "Ref")]
  else Ok [].

Definition ref_entity0 (key : string) (value : option string) : result (option string) :=
  Ok (Some "site-1").

Definition entity0 : EntityRow :=
  mkEntityRow "e1" [("siteRef", Some "@s1"); ("dis", Some "Room")] ["his"; "point"].

Definition tags_list0 : list TagItem :=
  [KvItem "siteRef" (Some "@s1") (Some "the site of the point") (Some "Ref")
          (Some "Site") (Some "site-1");
   KvItem "dis" (Some "Room") (Some "") (Some "") (Some "dis") None;
   MItem "his" (Some "") (Some "his");
   MItem "point" (Some "") (Some "point")].

(** The row has no model reference that is true. *)
Definition no_model_ref (row : EntityRow) : Prop :=
  opt_truthy (hs_get "modelRef" (er_kv_tags row)) = false.

(** The point answers the condition: it belongs to the equipment, carries
    every tag of the condition and not all of the excluded ones. *)
Definition answers (equipmen_ref : string) (c : Condition) (p : PointView) : Prop :=
  equipment_id p = equipmen_ref
  /\ (forall tag, In tag (cond_m_tags c) -> In tag (m_tags p))
  /\ (forall ex, m_tags_exclude c = Some ex ->
                 ~ (forall tag, In tag ex -> In tag (m_tags p))).

(** Two points of one air handler with the tags of a zone temperature, the
    second being the set point. *)
Definition p_zone : PointView :=
  mkPoint "z1" "ahu1/zone_temp" "Number" (Some "F")
          ["temp"; "zone"; "air"; "his"; "point"] [] "ahu1" None.

Definition p_zone_sp : PointView :=
  mkPoint "z2" "ahu1/zone_temp_sp" "Number" (Some "F")
          ["temp"; "zone"; "air"; "sp"; "his"; "point"] [] "ahu1" None.

(** The texts that make up the address: the values, in the order of the
    dict, of the allowed tags other than [geoAddr] that are not empty. *)
Definition address_parts (tags : list (string * option string)) : list string :=
  map (fun tv => match snd tv with Some s => s | None => "" end)
      (filter (fun tv => str_in (fst tv) allowed_tags && opt_truthy (snd tv)
                         && negb (String.eqb (fst tv) "geoAddr")) tags).

(** The dict has a street that is not empty. *)
Definition has_street (tags : list (string * option string)) : bool :=
  existsb (fun tv => String.eqb (fst tv) "geoStreet" && opt_truthy (snd tv)) tags.

(** [site_address] after one more text. *)
Definition add_part (site_address_ part : string) : string :=
  (if PyStr.truthy site_address_ then site_address_ ++ ", " else site_address_) ++ part.

(** The tags of a site with a street, and of a site with a free-form
    address only; a geocoder that knows every address. *)
Definition tags_street : list (string * option string) :=
  [("geoCity", Some "Paris"); ("dis", Some "HQ"); ("geoStreet", Some "1 rue A");
   ("geoAddr", Some "1 rue A, Paris, France")].

Definition tags_addr : list (string * option string) :=
  [("geoCity", Some "Paris"); ("geoAddr", Some "somewhere in Paris")].

Definition md5_0 (s : string) : string := "md5:" ++ s.

Definition geocoder0 (address : string) (key : option string) : option GeoJson :=
  Some (mkGeoJson true (4885 # 100) (235 # 100)).

(** The point is a temperature: a Number in degrees Fahrenheit or Celsius. *)
Definition is_temperature (point : PointView) : bool :=
  String.eqb (kind point) "Number"
  && (unit_is (unit point) "°F" || unit_is (unit point) "°C").

(** A temperature reading, and a formatter that knows one number. *)
Definition p_temp : PointView :=
  mkPoint "t1" "campus/b1/ahu1/temp" "Number" (Some "°F") [] [] "ahu1" None.

Definition float_1f_0 (s : option string) : option string :=
  if opt_eqb s "72" then Some "72.0" else None.

(** * Facts *)

(** ** Test vectors *)

Example int_24 : PyStr.int_ascii "24" = Some 24. Proof. reflexivity. Qed.
Example int_spaces : PyStr.int_ascii " 3 " = Some 3. Proof. reflexivity. Qed.
Example int_neg : PyStr.int_ascii "-5" = Some (-5). Proof. reflexivity. Qed.
Example int_under : PyStr.int_ascii "1_000" = Some 1000. Proof. reflexivity. Qed.
Example int_bad1 : PyStr.int_ascii "3 mont" = None. Proof. reflexivity. Qed.
Example int_bad2 : PyStr.int_ascii "1__0" = None. Proof. reflexivity. Qed.
Example int_bad3 : PyStr.int_ascii "" = None. Proof. reflexivity. Qed.
Example int_fs : PyStr.int interp0 (String (ascii_of_nat 28) "3") = None.
Proof. reflexivity. Qed.
Example int_form_feed : PyStr.int interp0 (String (ascii_of_nat 12) "3") = Some 3.
Proof. reflexivity. Qed.
Example int_arabic : PyStr.int interp_arabic "٣" = Some 3. Proof. reflexivity. Qed.
Example int_arabic_letter : PyStr.int interp_arabic "٣a" = None. Proof. reflexivity. Qed.
Example last_n_ex : PyStr.last_n 7 "3 months" = " months". Proof. reflexivity. Qed.
Example drop_last_n_ex : PyStr.drop_last_n 7 "3 months" = "3". Proof. reflexivity. Qed.
Example last_n_short : PyStr.last_n 7 "24h" = "24h". Proof. reflexivity. Qed.
Example split_ex : PyStr.split "," "a,b,,c" = ["a"; "b"; ""; "c"]. Proof. reflexivity. Qed.
Example split_empty : PyStr.split "," "" = [""]. Proof. reflexivity. Qed.
Example round_2_4 : round_half_even (24 # 10) = 2. Proof. reflexivity. Qed.
Example round_2_5 : round_half_even (5 # 2) = 2. Proof. reflexivity. Qed.
Example round_3_5 : round_half_even (7 # 2) = 4. Proof. reflexivity. Qed.
Example round_m0_6 : round_half_even (-6 # 10) = -1. Proof. reflexivity. Qed.
Example report_AB :
  get_topics_tags_report
    [mkTopic "A" (Some (pt "A" ["his"] [])); mkTopic "B" (Some (pt "B" [] [("dis", "Room 1")]))]
  = ([["A"; ""; "X"]; ["B"; "Room 1"; ""]], ["topic"; "dis"; "his"]).
Proof. reflexivity. Qed.
Example report_BA :
  snd (get_topics_tags_report
    [mkTopic "B" (Some (pt "B" [] [("dis", "Room 1")])); mkTopic "A" (Some (pt "A" ["his"] []))])
  = ["topic"; "dis"; "his"].
Proof. reflexivity. Qed.

(** ** The monad *)

Lemma bind_ok {A B} (m : M A) (k : A -> M B) w a w' :
  m w = (Ok a, w') -> bind m k w = k a w'.
Proof. unfold bind; intros ->; reflexivity. Qed.

Lemma bind_raise {A B} (m : M A) (k : A -> M B) w e w' :
  m w = (Raise e, w') -> bind m k w = (Raise e, w').
Proof. unfold bind; intros ->; reflexivity. Qed.

Lemma bind_lift_ok {A B} (a : A) (k : A -> M B) w :
  bind (lift (Ok a)) k w = k a w.
Proof. reflexivity. Qed.

Lemma bind_lift_raise {A B} (e : exn) (k : A -> M B) w :
  bind (lift (Raise e)) k w = (Raise e, w).
Proof. reflexivity. Qed.

(** ** Slices of strings *)

Lemma list_ascii_app (a b : string) :
  list_ascii_of_string (a ++ b) = (list_ascii_of_string a ++ list_ascii_of_string b)%list.
Proof. induction a as [|c a IH]; simpl; [reflexivity | now rewrite IH]. Qed.

Lemma length_list_ascii (s : string) :
  List.length (list_ascii_of_string s) = String.length s.
Proof. induction s; simpl; congruence. Qed.

Lemma len_app (a b : string) : PyStr.len (a ++ b) = (PyStr.len a + PyStr.len b)%nat.
Proof.
  unfold PyStr.len. rewrite <- !length_list_ascii, list_ascii_app. apply length_app.
Qed.

Lemma skipn_tail_app {A} (k : nat) (a b : list A) :
  (k <= List.length b)%nat ->
  skipn (List.length (a ++ b) - k) (a ++ b) = skipn (List.length b - k) b.
Proof.
  intros Hk. rewrite length_app, skipn_app.
  rewrite skipn_all2 by lia. simpl. f_equal. lia.
Qed.

Lemma last_n_app_le (k : nat) (pre suf : string) :
  (k <= String.length suf)%nat -> PyStr.last_n k (pre ++ suf) = PyStr.last_n k suf.
Proof.
  intros Hk. unfold PyStr.last_n. rewrite list_ascii_app.
  rewrite skipn_tail_app by (rewrite length_list_ascii; exact Hk). reflexivity.
Qed.

Lemma last_n_app (pre suf : string) :
  PyStr.last_n (String.length suf) (pre ++ suf) = suf.
Proof.
  rewrite last_n_app_le by lia. unfold PyStr.last_n.
  rewrite length_list_ascii, Nat.sub_diag. simpl. apply string_of_list_ascii_of_string.
Qed.

Lemma drop_last_n_app (pre suf : string) :
  PyStr.drop_last_n (String.length suf) (pre ++ suf) = pre.
Proof.
  unfold PyStr.drop_last_n. rewrite list_ascii_app, length_app.
  rewrite (length_list_ascii suf), Nat.add_sub.
  rewrite firstn_app, Nat.sub_diag, firstn_all. simpl. rewrite app_nil_r.
  apply string_of_list_ascii_of_string.
Qed.

Lemma skipn_tail_tail {A} (k n : nat) (l : list A) :
  (k <= n)%nat ->
  skipn (List.length (skipn (List.length l - n) l) - k) (skipn (List.length l - n) l)
  = skipn (List.length l - k) l.
Proof.
  intros Hkn.
  destruct (Nat.le_gt_cases n (List.length l)) as [Hn | Hn].
  - pose proof (skipn_tail_app k (firstn (List.length l - n) l)
                               (skipn (List.length l - n) l)) as H.
    rewrite firstn_skipn in H. symmetry. apply H.
    rewrite length_skipn. lia.
  - replace (List.length l - n)%nat with 0%nat by lia. reflexivity.
Qed.

Lemma last_n_last_n (k n : nat) (s : string) :
  (k <= n)%nat -> PyStr.last_n k (PyStr.last_n n s) = PyStr.last_n k s.
Proof.
  intros Hkn. unfold PyStr.last_n.
  rewrite list_ascii_of_string_of_list_ascii, skipn_tail_tail by exact Hkn.
  reflexivity.
Qed.

Lemma ends_with_hit (pre suf : string) :
  pre <> "" -> PyStr.ends_with (String.length suf) suf (pre ++ suf) = true.
Proof.
  intros Hpre. unfold PyStr.ends_with.
  rewrite last_n_app, String.eqb_refl, len_app, andb_true_r.
  apply Nat.ltb_lt. unfold PyStr.len. destruct pre; [congruence | simpl; lia].
Qed.

(** Two strings whose last [k] characters differ are different. *)
Lemma eqb_miss (k : nat) (s pre suf : string) :
  (k <= String.length suf)%nat ->
  PyStr.last_n k s <> PyStr.last_n k suf ->
  String.eqb s (pre ++ suf) = false.
Proof.
  intros Hk Hne. apply String.eqb_neq. intros ->.
  apply Hne. apply last_n_app_le; exact Hk.
Qed.

(** A suffix rule does not fire on a token whose last [k] characters differ
    from the rule's. *)
Lemma ends_with_miss (k n : nat) (suf pre suf' : string) :
  (k <= n)%nat -> (k <= String.length suf')%nat ->
  PyStr.last_n k suf <> PyStr.last_n k suf' ->
  PyStr.ends_with n suf (pre ++ suf') = false.
Proof.
  intros Hkn Hk Hne. unfold PyStr.ends_with.
  destruct (String.eqb_spec suf (PyStr.last_n n (pre ++ suf'))) as [E | E];
    [| apply andb_false_r].
  exfalso. apply Hne. rewrite E at 1.
  rewrite last_n_last_n by exact Hkn. apply last_n_app_le; exact Hk.
Qed.

(** ** What [int] accepts *)

Lemma digits_chars (l : list ascii) : forall acc b n,
  PyStr.digits acc b l = Some n -> Forall (fun c => int_char c = true) l.
Proof.
  induction l as [|c r IH]; intros acc b n H; [constructor |].
  simpl in H.
  destruct (PyStr.is_digit c) eqn:Hd.
  - constructor; [unfold int_char; rewrite Hd; btauto | eapply IH; eassumption].
  - destruct (Ascii.eqb c "_") eqn:Hu; [| discriminate].
    destruct b; [| discriminate].
    constructor; [unfold int_char; rewrite Hu; btauto | eapply IH; eassumption].
Qed.

Lemma lstrip_chars (l : list ascii) :
  Forall (fun c => int_char c = true) (PyStr.lstrip l) ->
  Forall (fun c => int_char c = true) l.
Proof.
  induction l as [|c r IH]; simpl; intros H; [constructor |].
  destruct (PyStr.is_space c) eqn:Hs; [| exact H].
  constructor; [unfold int_char; rewrite Hs; reflexivity | auto].
Qed.

Lemma strip_chars (l : list ascii) :
  Forall (fun c => int_char c = true) (PyStr.strip l) ->
  Forall (fun c => int_char c = true) l.
Proof.
  unfold PyStr.strip. intros H.
  apply lstrip_chars. apply Forall_rev in H. rewrite rev_involutive in H.
  apply lstrip_chars in H. apply Forall_rev in H. now rewrite rev_involutive in H.
Qed.

Lemma int_ascii_chars (s : string) (n : Z) :
  PyStr.int_ascii s = Some n ->
  Forall (fun c => int_char c = true) (list_ascii_of_string s).
Proof.
  unfold PyStr.int_ascii. intros H. apply strip_chars.
  destruct (PyStr.strip (list_ascii_of_string s)) as [|c r]; [discriminate |].
  destruct (Ascii.eqb c "-") eqn:Hm.
  - constructor; [unfold int_char; rewrite Hm; btauto |].
    destruct (PyStr.digits 0 false r) eqn:Hd; [| discriminate].
    eapply digits_chars; eassumption.
  - destruct (Ascii.eqb c "+") eqn:Hp.
    + constructor; [unfold int_char; rewrite Hp; btauto |].
      eapply digits_chars; eassumption.
    + eapply digits_chars; eassumption.
Qed.

Lemma int_char_byte (c : ascii) : int_char c = true -> PyStr.int_byte c = true.
Proof. unfold int_char, PyStr.int_byte. intros ->. reflexivity. Qed.

(** Whatever the interpreter takes beyond ASCII, a text read by [int] holds
    no ASCII character other than white space, digits, signs and
    underscores. *)
Lemma int_bytes (o : PyStr.Interpreter) (s : string) (n : Z) :
  PyStr.int o s = Some n ->
  Forall (fun c => PyStr.int_byte c = true) (list_ascii_of_string s).
Proof.
  unfold PyStr.int. destruct (PyStr.is_ascii s).
  - destruct (PyStr.too_many_digits o s); [discriminate |].
    intros H. eapply Forall_impl; [| apply (int_ascii_chars _ _ H)].
    intros c; apply int_char_byte.
  - destruct (forallb PyStr.int_byte (list_ascii_of_string s)) eqn:E;
      [| discriminate].
    intros _. apply Forall_forall. apply forallb_forall. exact E.
Qed.

Lemma int_nonempty (o : PyStr.Interpreter) (s : string) (n : Z) :
  PyStr.int o s = Some n -> s <> "".
Proof.
  intros H ->. unfold PyStr.int in H. cbn [PyStr.is_ascii list_ascii_of_string forallb] in H.
  destruct (PyStr.too_many_digits o ""); discriminate H.
Qed.


Lemma string_of_list_ascii_app (a b : list ascii) :
  string_of_list_ascii (a ++ b) = string_of_list_ascii a ++ string_of_list_ascii b.
Proof. induction a as [|c a IH]; simpl; [reflexivity | now rewrite IH]. Qed.

(** A text of ASCII characters with 640 digits or fewer is read the same by
    every interpreter. *)
Lemma int_short (o : PyStr.Interpreter) (s : string) :
  PyStr.is_ascii s = true -> (PyStr.count_digits s <=? 640)%nat = true ->
  PyStr.int o s = PyStr.int_ascii s.
Proof.
  intros Ha Hd. unfold PyStr.int, PyStr.too_many_digits. rewrite Ha.
  apply Nat.leb_le in Hd.
  destruct (Nat.ltb_spec 640 (PyStr.count_digits s)); [lia |].
  now rewrite andb_false_r.
Qed.

(** The last two characters of [text ++ "h"] are the last character of
    [text] and ["h"]. *)
Lemma last_char_of_number (o : PyStr.Interpreter) (text : string) (n : Z) :
  PyStr.int o text = Some n ->
  exists pre c, PyStr.int_byte c = true /\
                text = pre ++ String c "".
Proof.
  intros H. pose proof (int_bytes _ _ _ H) as Hall.
  pose proof (int_nonempty _ _ _ H) as Hne.
  destruct (exists_last (l := list_ascii_of_string text)) as [l' [c E]].
  - intros E. apply Hne. rewrite <- (string_of_list_ascii_of_string text), E. reflexivity.
  - exists (string_of_list_ascii l'), c. split.
    + rewrite E in Hall. apply Forall_app in Hall. destruct Hall as [_ Hc].
      now inversion Hc.
    + rewrite <- (string_of_list_ascii_of_string text), E.
      apply string_of_list_ascii_app.
Qed.

Lemma append_assoc (a b c : string) : (a ++ b) ++ c = a ++ (b ++ c).
Proof. induction a as [|x a IH]; simpl; [reflexivity | now rewrite IH]. Qed.

(** A number followed by ["h"] never ends in [" month"]: the rule for hours
    is not shadowed by the rule for one month. *)
Lemma hours_not_month (o : PyStr.Interpreter) (text : string) (n : Z) :
  PyStr.int o text = Some n -> PyStr.ends_with 6 " month" (text ++ "h") = false.
Proof.
  intros H. destruct (last_char_of_number _ _ _ H) as [pre [c [Hc ->]]].
  rewrite append_assoc. simpl.
  apply (ends_with_miss 2); [lia | simpl; lia |].
  intros E. cbv in E. injection E as E. subst c. discriminate Hc.
Qed.

(** ** The relative range tokens of the grammar *)

(** ** The range parser *)

Lemma timedelta_ok (us : Z) :
  is_ok (PyTime.timedelta us) = true -> PyTime.timedelta us = Ok us.
Proof.
  unfold PyTime.timedelta.
  destruct ((-999999999 <=? us / PyTime.US_PER_DAY)
            && (us / PyTime.US_PER_DAY <=? 999999999)); [reflexivity | discriminate].
Qed.

Lemma sub_ok (t delta : Z) :
  PyTime.in_range (t - delta) = true -> PyTime.sub t delta = Ok (t - delta).
Proof. unfold PyTime.sub. now intros ->. Qed.

Lemma timedelta_small_days (k : Z) :
  -999999999 <= k <= 999999999 -> PyTime.timedelta_days k = Ok (k * PyTime.US_PER_DAY).
Proof.
  intros Hk. unfold PyTime.timedelta_days, PyTime.timedelta.
  rewrite Z.div_mul by (cbv; discriminate).
  destruct (Z.leb_spec (-999999999) k); [| lia].
  destruct (Z.leb_spec k 999999999); [reflexivity | lia].
Qed.

Section RangeFacts.

Variable utcnow_at : nat -> Z.
Variable interp : PyStr.Interpreter.
Variable store_range : Query -> result (list Row).
Variable parse_datetime : string -> result Z.

Let resolve := resolve_range utcnow_at interp parse_datetime.
Let points := get_point_values utcnow_at interp store_range parse_datetime.

Lemma utcnow_bind {B} (k : Z -> M B) (w : World) :
  bind (utcnow utcnow_at) k w
  = k (utcnow_at (reads w)) (mkWorld (S (reads w)) (next_conn w) (open_conns w)).
Proof. reflexivity. Qed.

Lemma get_point_values_range (d : PointView) (date_trunc value_func : string)
      (trange : option string) (ts_as_datetime : bool) (w w' : World) (range : Z * Z) :
  resolve (valid_trange trange) (after_connect w) = (Ok range, w') ->
  points d date_trunc value_func trange ts_as_datetime w
  = query_points store_range (next_conn w) d (valid_date_trunc date_trunc)
                 value_func ts_as_datetime range w'.
Proof.
  intros H. unfold points, get_point_values.
  unfold bind at 1. unfold get_crate_connection. cbv beta iota zeta.
  fold (after_connect w). erewrite bind_ok by exact H. reflexivity.
Qed.

Lemma get_point_values_range_raise (d : PointView) (date_trunc value_func : string)
      (trange : option string) (ts_as_datetime : bool) (w w' : World) (e : exn) :
  resolve (valid_trange trange) (after_connect w) = (Raise e, w') ->
  points d date_trunc value_func trange ts_as_datetime w = (Raise e, w').
Proof.
  intros H. unfold points, get_point_values.
  unfold bind at 1. unfold get_crate_connection. cbv beta iota zeta.
  fold (after_connect w). erewrite bind_raise by exact H. reflexivity.
Qed.

Lemma valid_trange_token (t : RelToken) (n : Z) :
  token_value interp t n -> valid_trange (Some (token_text t)) = token_text t.
Proof.
  intros Hv. unfold valid_trange.
  destruct t as [| |N|N|N|N|N]; try reflexivity; simpl in *;
    apply int_nonempty in Hv; destruct N; try congruence; reflexivity.
Qed.

(** The outcome of a suffix rule once its test has passed: the stated
    bounds when they exist, [OverflowError] otherwise. *)
Lemma rule_outcome (us s e : Z) (w : World) :
  (td <- lift (PyTime.timedelta us) ;;
   start <- lift (PyTime.sub s td) ;;
   ret (start, e)) w
  = (if is_ok (PyTime.timedelta us) && PyTime.in_range (s - us)
     then Ok (s - us, e) else Raise OverflowError, w).
Proof.
  unfold PyTime.timedelta, PyTime.sub, bind, lift, ret.
  destruct ((-999999999 <=? us / PyTime.US_PER_DAY)
            && (us / PyTime.US_PER_DAY <=? 999999999));
    cbn [is_ok andb]; [| reflexivity].
  destruct (PyTime.in_range (s - us)); reflexivity.
Qed.

Ltac run_rule Hn :=
  rewrite Hn; cbv beta iota;
  unfold PyTime.timedelta_days, PyTime.timedelta_hours, PyTime.timedelta_minutes;
  rewrite rule_outcome, andb_true_r, Z.sub_0_r; reflexivity.

(** A relative token resolves to its stated bounds when they exist, and
    raises [OverflowError] when they do not; either way the clock has been
    read twice. *)
Lemma resolve_relative (t : RelToken) (n : Z) (w : World) :
  token_value interp t n ->
  resolve (token_text t) w
  = (if representable t n (utcnow_at (S (reads w))) (utcnow_at (reads w))
     then Ok (utcnow_at (S (reads w)) - fst (token_span t n),
              utcnow_at (reads w) - snd (token_span t n))
     else Raise OverflowError,
     after_reads w).
Proof.
  intros Hv. unfold representable.
  unfold resolve, resolve_range. rewrite !utcnow_bind.
  cbn [reads next_conn open_conns]. cbv beta. fold (after_reads w).
  destruct t as [| |N|N|N|N|N]; cbn [token_text token_span fst snd] in *.
  - (* today *)
    cbn [String.eqb Ascii.eqb Bool.eqb andb]. cbv beta iota.
    unfold PyTime.timedelta_days.
    rewrite rule_outcome, andb_true_r, Z.sub_0_r. reflexivity.
  - (* yesterday *)
    change (String.eqb "today" "yesterday") with false.
    change (String.eqb "yesterday" "yesterday") with true. cbv beta iota.
    rewrite !timedelta_small_days by lia. rewrite bind_lift_ok.
    pose proof (timedelta_small_days 2 ltac:(lia)) as Htd.
    unfold PyTime.timedelta_days in Htd. rewrite Htd. cbn [is_ok andb].
    unfold PyTime.sub at 1.
    destruct (PyTime.in_range (utcnow_at (S (reads w)) - 2 * PyTime.US_PER_DAY));
      [rewrite bind_lift_ok | reflexivity].
    rewrite bind_lift_ok. unfold PyTime.sub.
    destruct (PyTime.in_range (utcnow_at (reads w) - 1 * PyTime.US_PER_DAY));
      reflexivity.
  - (* N months *)
    pose proof (int_nonempty _ _ _ Hv) as Hne.
    rewrite (eqb_miss 1 "today" N " months") by (simpl; lia || discriminate).
    rewrite (eqb_miss 1 "yesterday" N " months") by (simpl; lia || discriminate).
    change 7%nat with (String.length " months").
    rewrite (ends_with_hit N " months" Hne), drop_last_n_app.
    cbv beta iota. run_rule Hv.
  - (* N month *)
    pose proof (int_nonempty _ _ _ Hv) as Hne.
    rewrite (eqb_miss 1 "today" N " month") by (simpl; lia || discriminate).
    rewrite (eqb_miss 1 "yesterday" N " month") by (simpl; lia || discriminate).
    rewrite (ends_with_miss 1 7 " months" N " month") by (simpl; lia || discriminate).
    change 6%nat with (String.length " month").
    rewrite (ends_with_hit N " month" Hne), drop_last_n_app.
    cbv beta iota. run_rule Hv.
  - (* N days *)
    pose proof (int_nonempty _ _ _ Hv) as Hne.
    rewrite (eqb_miss 1 "today" N " days") by (simpl; lia || discriminate).
    rewrite (eqb_miss 1 "yesterday" N " days") by (simpl; lia || discriminate).
    rewrite (ends_with_miss 2 7 " months" N " days") by (simpl; lia || discriminate).
    rewrite (ends_with_miss 1 6 " month" N " days") by (simpl; lia || discriminate).
    change 5%nat with (String.length " days").
    rewrite (ends_with_hit N " days" Hne), drop_last_n_app.
    cbv beta iota. run_rule Hv.
  - (* Nh *)
    pose proof (int_nonempty _ _ _ Hv) as Hne.
    rewrite (eqb_miss 1 "today" N "h") by (simpl; lia || discriminate).
    rewrite (eqb_miss 1 "yesterday" N "h") by (simpl; lia || discriminate).
    rewrite (ends_with_miss 1 7 " months" N "h") by (simpl; lia || discriminate).
    rewrite (hours_not_month _ N n Hv).
    rewrite (ends_with_miss 1 5 " days" N "h") by (simpl; lia || discriminate).
    change 1%nat with (String.length "h") at 1.
    rewrite (ends_with_hit N "h" Hne).
    change 1%nat with (String.length "h"). rewrite drop_last_n_app.
    cbv beta iota. run_rule Hv.
  - (* Nm *)
    pose proof (int_nonempty _ _ _ Hv) as Hne.
    rewrite (eqb_miss 1 "today" N "m") by (simpl; lia || discriminate).
    rewrite (eqb_miss 1 "yesterday" N "m") by (simpl; lia || discriminate).
    rewrite (ends_with_miss 1 7 " months" N "m") by (simpl; lia || discriminate).
    rewrite (ends_with_miss 1 6 " month" N "m") by (simpl; lia || discriminate).
    rewrite (ends_with_miss 1 5 " days" N "m") by (simpl; lia || discriminate).
    rewrite (ends_with_miss 1 1 "h" N "m") by (simpl; lia || discriminate).
    change 1%nat with (String.length "m") at 1.
    rewrite (ends_with_hit N "m" Hne).
    change 1%nat with (String.length "m"). rewrite drop_last_n_app.
    cbv beta iota. run_rule Hv.
Qed.

(** What [get_point_values] returns once the bounds are known: the rows of
    the store for these bounds, decoded and reversed. *)
Lemma query_points_outcome (conn : nat) (d : PointView)
      (date_trunc value_func : string) (ts_as_datetime : bool)
      (range : Z * Z) (w : World) :
  fst (query_points store_range conn d date_trunc value_func ts_as_datetime range w)
  = match store_range (point_query d date_trunc value_func (fst range) (snd range)) with
    | Raise e => Raise e
    | Ok rows =>
        match fetch_all (String.eqb "Bool" (kind d)) ts_as_datetime rows with
        | Raise e => Raise e
        | Ok data => Ok (rev data)
        end
    end.
Proof.
  destruct range as [start end_]. unfold query_points. cbn [fst snd].
  destruct (store_range (point_query d date_trunc value_func start end_)) as [rows | e];
    [rewrite bind_lift_ok | reflexivity].
  destruct (fetch_all (String.eqb "Bool" (kind d)) ts_as_datetime rows) as [data | e];
    [rewrite bind_lift_ok | reflexivity].
  reflexivity.
Qed.

End RangeFacts.

(** ** A concrete world to run the functions in *)

(** ** Claims on the range parser *)

(** C1, as stated, fails: not every relative token of the grammar resolves
    to bounds.  Day 739000 minus four million days is before
    [datetime.min], and a thousand million days is no [timedelta]: for
    ['4000000 days'] and ['1000000000 days'] the call raises
    [OverflowError], the store is not queried and the connection stays
    open. *)
Lemma relative_bounds_counterexample :
  token_value interp0 (Days "4000000") 4000000
  /\ get_point_values clock0 interp0 store0 parse0 d0 "minute" "avg"
                      (Some "4000000 days") false w0
     = (Raise OverflowError, after_reads (after_connect w0))
  /\ token_value interp0 (Days "1000000000") 1000000000
  /\ get_point_values clock0 interp0 store0 parse0 d0 "minute" "avg"
                      (Some "1000000000 days") false w0
     = (Raise OverflowError, after_reads (after_connect w0)).
Proof. repeat split; reflexivity. Qed.

(** C1, amended.  Every relative range token of the grammar, with [N] the
    text of the integer [n] as [int] reads it, has one of two outcomes.
    When the bounds of section 4.1 exist as [timedelta] and [datetime]
    values, the token resolves to them: [start] is the second reading of
    the clock minus the token's span and [end] is the first reading (minus
    one day for 'yesterday'); [get_point_values] queries the store with
    exactly these bounds and returns its rows decoded and reversed.  When
    they do not exist, the parser and the call raise [OverflowError] and
    the store is not queried.  The rules are tried in the order of the
    grammar: [N ++ " month"] gives thirty days per unit, it is never read as
    hours. *)
Theorem relative_token_bounds :
  forall (utcnow_at : nat -> Z) (interp : PyStr.Interpreter)
         (store_range : Query -> result (list Row))
         (parse_datetime : string -> result Z)
         (t : RelToken) (n : Z) (w : World),
    token_value interp t n ->
    let start := utcnow_at (S (reads w)) - fst (token_span t n) in
    let end_ := utcnow_at (reads w) - snd (token_span t n) in
    let exist := representable t n (utcnow_at (S (reads w))) (utcnow_at (reads w)) in
    resolve_range utcnow_at interp parse_datetime (token_text t) w
    = (if exist then Ok (start, end_) else Raise OverflowError, after_reads w)
    /\ forall d date_trunc value_func ts_as_datetime,
        let call :=
          get_point_values utcnow_at interp store_range parse_datetime
                           d date_trunc value_func (Some (token_text t))
                           ts_as_datetime w in
        (exist = true ->
         call = query_points store_range (next_conn w) d (valid_date_trunc date_trunc)
                             value_func ts_as_datetime (start, end_)
                             (after_reads (after_connect w))
         /\ fst call
            = match store_range (point_query d (valid_date_trunc date_trunc)
                                             value_func start end_) with
              | Raise e => Raise e
              | Ok rows =>
                  match fetch_all (String.eqb "Bool" (kind d)) ts_as_datetime rows with
                  | Raise e => Raise e
                  | Ok data => Ok (rev data)
                  end
              end)
        /\ (exist = false ->
            call = (Raise OverflowError, after_reads (after_connect w))).
Proof.
  intros utcnow_at interp store_range parse_datetime t n w Hv start end_ exist.
  split; [apply resolve_relative; exact Hv |].
  intros d date_trunc value_func ts_as_datetime call.
  pose proof (resolve_relative utcnow_at interp parse_datetime t n
                               (after_connect w) Hv) as H.
  rewrite <- (valid_trange_token interp t n Hv) in H at 1.
  change (representable t n (utcnow_at (S (reads (after_connect w))))
                        (utcnow_at (reads (after_connect w)))) with exist in H.
  change (utcnow_at (S (reads (after_connect w))) - fst (token_span t n))
    with start in H.
  change (utcnow_at (reads (after_connect w)) - snd (token_span t n))
    with end_ in H.
  split; intros He; rewrite He in H.
  - assert (Hcall : call = query_points store_range (next_conn w) d
                                        (valid_date_trunc date_trunc) value_func
                                        ts_as_datetime (start, end_)
                                        (after_reads (after_connect w)))
      by (apply get_point_values_range; exact H).
    split; [exact Hcall |].
    rewrite Hcall. apply query_points_outcome.
  - apply get_point_values_range_raise. exact H.
Qed.

Lemma relative_token_bounds_witness :
  token_value interp0 (Month "3") 3
  /\ resolve_range clock0 interp0 parse0 "3 month" w0
     = (Ok (clock0 1 - 90 * PyTime.US_PER_DAY, clock0 0 - 0), after_reads w0).
Proof.
  split; [reflexivity |].
  exact (proj1 (relative_token_bounds clock0 interp0 store0 parse0 (Month "3") 3 w0
                                      eq_refl)).
Defined.

(** Outside the representable bounds the parser raises: day 739000 minus
    four million days is before [datetime.min]. *)
Example resolve_overflow :
  resolve_range clock0 interp0 parse0 "4000000 days" w0 = (Raise OverflowError, after_reads w0).
Proof. reflexivity. Qed.

(** The separators 28 to 31 are no white space for [int]; a digit beyond
    ASCII is read when the interpreter reads it. *)
Example resolve_separator :
  resolve_range clock0 interp0 parse0 (String (ascii_of_nat 28) "3h") w0
  = (Raise ValueError, after_reads w0).
Proof. reflexivity. Qed.

Example resolve_arabic :
  resolve_range clock0 interp_arabic parse0 "٣ days" w0
  = (Ok (clock0 1 - 3 * PyTime.US_PER_DAY, clock0 0), after_reads w0).
Proof. reflexivity. Qed.

Example resolve_bad_number :
  resolve_range clock0 interp0 parse0 "3 monthh" w0 = (Raise ValueError, after_reads w0).
Proof. reflexivity. Qed.

(** C5, as stated, fails: ['0h'] resolves to an empty interval even on a
    clock that stands still, a negative count puts [start] after [end], and
    the explicit forms return whatever the two dates are, in the order
    given. *)
Lemma start_before_end_counterexample :
  (exists start end_ w,
      resolve_range clock_still interp0 parse0 "0h" w0 = (Ok (start, end_), w)
      /\ ~ start < end_)
  /\ (exists start end_ w,
      resolve_range clock_still interp0 parse0 "-5 days" w0 = (Ok (start, end_), w)
      /\ ~ start < end_)
  /\ (exists start end_ w,
      resolve_range clock_still interp0 parse0 "2020-01-02,2020-01-01" w0 = (Ok (start, end_), w)
      /\ ~ start < end_).
Proof.
  split; [| split]; eexists; eexists; eexists; (split; [reflexivity |]);
    cbv; discriminate.
Qed.

(** C5, amended.  For a relative token whose bounds are representable, the
    resolved interval has [start < end] exactly when the token's span is
    longer than the time that passes between the two readings of the clock
    (on a clock that stands still: when its count is positive, and for the
    two words); ['24h'] yields [start = now - 24 hours] and [end = now].
    Nothing is promised for counts that are not positive nor for the
    explicit date forms. *)
Theorem relative_token_start_before_end :
  forall (utcnow_at : nat -> Z) (interp : PyStr.Interpreter)
         (parse_datetime : string -> result Z)
         (t : RelToken) (n : Z) (w : World),
    token_value interp t n ->
    representable t n (utcnow_at (S (reads w))) (utcnow_at (reads w)) = true ->
    exists start end_,
      resolve_range utcnow_at interp parse_datetime (token_text t) w
      = (Ok (start, end_), after_reads w)
      /\ (start < end_
          <-> utcnow_at (S (reads w)) - utcnow_at (reads w)
              < fst (token_span t n) - snd (token_span t n))
      /\ (t = Hours "24" ->
          start = utcnow_at (S (reads w)) - 24 * PyTime.US_PER_HOUR
          /\ end_ = utcnow_at (reads w)).
Proof.
  intros utcnow_at interp parse_datetime t n w Hv Hr.
  pose proof (resolve_relative utcnow_at interp parse_datetime t n w Hv) as H.
  rewrite Hr in H.
  eexists; eexists; split; [exact H |]. split; [lia |].
  intros ->. cbn [token_text token_span fst snd].
  cbn [token_value token_number] in Hv.
  rewrite int_short in Hv by reflexivity.
  assert (n = 24) by (cbv in Hv; congruence). subst n.
  split; [reflexivity | lia].
Qed.

Lemma relative_token_start_before_end_witness :
  exists start end_,
    resolve_range clock0 interp0 parse0 "24h" w0 = (Ok (start, end_), after_reads w0)
    /\ start < end_.
Proof.
  destruct (relative_token_start_before_end clock0 interp0 parse0 (Hours "24") 24 w0
                                            eq_refl eq_refl)
    as [start [end_ [H [Hiff _]]]].
  exists start, end_. split; [exact H |].
  apply Hiff. cbv. reflexivity.
Defined.

(** ** Defaults, failures and the connection *)

Section CallFacts.

Variable utcnow_at : nat -> Z.
Variable interp : PyStr.Interpreter.
Variable store_range : Query -> result (list Row).
Variable parse_datetime : string -> result Z.

Let resolve := resolve_range utcnow_at interp parse_datetime.
Let points := get_point_values utcnow_at interp store_range parse_datetime.

Ltac step_lift :=
  match goal with
  | |- context [bind (lift ?r) _ _] =>
      destruct r; [rewrite bind_lift_ok | rewrite bind_lift_raise]
  end.

(** Whatever the token, the parser reads the clock twice and touches no
    connection. *)
Lemma resolve_world (trange : string) (w : World) :
  snd (resolve trange w) = after_reads w.
Proof.
  unfold resolve, resolve_range. rewrite !(utcnow_bind utcnow_at).
  cbn [reads next_conn open_conns]. cbv beta. fold (after_reads w).
  repeat match goal with
         | |- context [if ?b then _ else _] => destruct b
         | |- context [match PyStr.int ?o ?x with _ => _ end] => destruct (PyStr.int o x)
         end;
    repeat step_lift; try reflexivity.
  destruct (PyStr.split "," trange) as [|seg0 [|seg1 segs]];
    cbn [hd]; repeat step_lift; reflexivity.
Qed.


(** The query part opens nothing; it closes [conn] exactly when it returns. *)
Lemma query_points_world (conn : nat) (d : PointView) (date_trunc value_func : string)
      (ts_as_datetime : bool) (range : Z * Z) (w : World) :
  match query_points store_range conn d date_trunc value_func ts_as_datetime range w with
  | (Ok data, w') =>
      exists rows decoded,
        store_range (point_query d date_trunc value_func (fst range) (snd range)) = Ok rows
        /\ fetch_all (String.eqb "Bool" (kind d)) ts_as_datetime rows = Ok decoded
        /\ data = rev decoded
        /\ w' = mkWorld (reads w) (next_conn w)
                        (filter (fun c => negb (Nat.eqb c conn)) (open_conns w))
  | (Raise _, w') => w' = w
  end.
Proof.
  unfold query_points. destruct range as [start end_]. cbn [fst snd].
  destruct (store_range (point_query d date_trunc value_func start end_))
    as [rows|e] eqn:Hrows;
    [rewrite bind_lift_ok | rewrite bind_lift_raise; reflexivity].
  destruct (fetch_all (String.eqb "Bool" (kind d)) ts_as_datetime rows)
    as [decoded|e] eqn:Hdec;
    [rewrite bind_lift_ok | rewrite bind_lift_raise; reflexivity].
  cbv [bind connection_close ret]. exists rows, decoded. auto.
Qed.

End CallFacts.



(** C7, as stated, fails: when the date text is refused, and when the store
    refuses the query, the call raises and connection 0, which it opened, is
    still open. *)
Lemma connection_left_open_counterexample :
  (let (r, w) := get_point_values clock0 interp0 store0 parse0 d0 "minute" "avg"
                                  (Some "not a date") false w0 in
   r = Raise ParserError /\ In 0%nat (open_conns w))
  /\ (let (r, w) := get_point_values clock0 interp0 store_down parse0 d0 "minute" "avg"
                                     (Some "24h") false w0 in
      r = Raise StoreError /\ In 0%nat (open_conns w)).
Proof. split; (split; [reflexivity | left; reflexivity]). Qed.

(** C7, amended.  A call of [get_point_values] opens one connection and
    closes it when it returns: afterwards exactly the connections that were
    open before are open.  When the call raises (the range token is
    refused, a bound overflows, the query fails, a row cannot be decoded) the
    connection it opened stays open. *)
Theorem connection_closed_on_return :
  forall (utcnow_at : nat -> Z) (interp : PyStr.Interpreter) (store_range : Query -> result (list Row))
         (parse_datetime : string -> result Z)
         (d : PointView) (date_trunc value_func : string) (trange : option string)
         (ts_as_datetime : bool) (w : World),
    match get_point_values utcnow_at interp store_range parse_datetime
                           d date_trunc value_func trange ts_as_datetime w with
    | (Ok _, w') =>
        open_conns w'
        = filter (fun c => negb (Nat.eqb c (next_conn w))) (open_conns w)
        /\ ~ In (next_conn w) (open_conns w')
    | (Raise _, w') =>
        open_conns w' = next_conn w :: open_conns w
    end.
Proof.
  intros.
  pose proof (resolve_world utcnow_at interp parse_datetime (valid_trange trange)
                            (after_connect w)) as Hw.
  destruct (resolve_range utcnow_at interp parse_datetime (valid_trange trange)
                          (after_connect w)) as [[range|e] w1] eqn:Hres;
    cbn [snd] in Hw; subst w1.
  - rewrite (get_point_values_range _ _ _ _ _ _ _ _ _ _ _ _ Hres).
    pose proof (query_points_world store_range (next_conn w) d
                  (valid_date_trunc date_trunc) value_func ts_as_datetime range
                  (after_reads (after_connect w))) as Hq.
    destruct (query_points store_range (next_conn w) d (valid_date_trunc date_trunc)
                value_func ts_as_datetime range (after_reads (after_connect w)))
      as [[data|e] w2].
    + destruct Hq as [rows [decoded [_ [_ [_ ->]]]]].
      cbn [open_conns after_reads after_connect filter].
      rewrite Nat.eqb_refl. cbn [negb]. split; [reflexivity |].
      intros Hin. apply filter_In in Hin. destruct Hin as [_ Hin].
      rewrite Nat.eqb_refl in Hin. discriminate.
    + subst w2. reflexivity.
  - rewrite (get_point_values_range_raise _ _ _ _ _ _ _ _ _ _ _ _ Hres). reflexivity.
Qed.

(** ** Decoding and ordering of the rows *)

Lemma eq_str_t_not_0 (v : PyVal) :
  eq_str v "t" || negb (eq_str v "0") = negb (eq_str v "0").
Proof.
  destruct v as [|s| |]; try reflexivity. simpl.
  destruct (String.eqb_spec s "t") as [->|]; reflexivity.
Qed.

Lemma decode_row_bool (ts_as_datetime : bool) (r : Row) (s : Stamp) (v : PyVal) :
  decode_row true ts_as_datetime r = Ok (s, v) -> bool_decoded r v.
Proof.
  unfold decode_row, bool_decoded. rewrite eq_str_t_not_0.
  destruct (truthy (r1 r) && negb (eq_str (r1 r) "0")).
  - destruct ts_as_datetime;
      [destruct (PyTime.utcfromtimestamp (r0 r / 1000)) |]; congruence.
  - destruct (py_round (r2 r)) as [v'|]; [| discriminate].
    destruct ts_as_datetime;
      [destruct (PyTime.utcfromtimestamp (r0 r / 1000)) |]; congruence.
Qed.

Lemma decode_row_key (is_bool ts_as_datetime : bool) (r : Row) (x : Stamp * PyVal) :
  decode_row is_bool ts_as_datetime r = Ok x ->
  pair_key x = if ts_as_datetime then whole_second (r0 r) else r0 r.
Proof.
  unfold decode_row.
  destruct (if is_bool then _ else _) as [v|]; [| discriminate].
  destruct ts_as_datetime.
  - unfold PyTime.utcfromtimestamp. fold (whole_second (r0 r)).
    destruct (PyTime.in_range (whole_second (r0 r))); [| discriminate].
    intros H. injection H as H. rewrite <- H. reflexivity.
  - intros H. injection H as H. rewrite <- H. reflexivity.
Qed.

Lemma fetch_all_rows (is_bool ts_as_datetime : bool) (rows : list Row) :
  forall data,
    fetch_all is_bool ts_as_datetime rows = Ok data ->
    Forall2 (fun r x => decode_row is_bool ts_as_datetime r = Ok x) rows data.
Proof.
  induction rows as [|r rest IH]; simpl; intros data H.
  - injection H as <-. constructor.
  - destruct (decode_row is_bool ts_as_datetime r) as [x|] eqn:Hx; [| discriminate].
    destruct (fetch_all is_bool ts_as_datetime rest) as [xs|]; [| discriminate].
    injection H as <-. constructor; auto.
Qed.

Lemma fetch_all_keys (is_bool ts_as_datetime : bool) (rows : list Row) (data : list (Stamp * PyVal)) :
  fetch_all is_bool ts_as_datetime rows = Ok data ->
  map pair_key data
  = map (fun r => if ts_as_datetime then whole_second (r0 r) else r0 r) rows.
Proof.
  intros H. apply fetch_all_rows in H.
  induction H as [|r x rows data Hx _ IH]; simpl; [reflexivity |].
  rewrite (decode_row_key _ _ _ _ Hx), IH. reflexivity.
Qed.

Lemma StronglySorted_snoc {A} (R : A -> A -> Prop) (l : list A) (x : A) :
  StronglySorted R l -> Forall (fun y => R y x) l -> StronglySorted R (l ++ [x]).
Proof.
  induction 1 as [|a l Hl IH Ha]; intros Hx; simpl.
  - repeat constructor.
  - inversion Hx; subst. constructor; [auto |].
    apply Forall_app. split; [assumption | repeat constructor; assumption].
Qed.

Lemma StronglySorted_rev {A} (R : A -> A -> Prop) (l : list A) :
  StronglySorted R l -> StronglySorted (fun a b => R b a) (rev l).
Proof.
  induction 1 as [|a l Hl IH Ha]; simpl; [constructor |].
  apply StronglySorted_snoc; [assumption |].
  apply Forall_rev. assumption.
Qed.

Lemma StronglySorted_map {A B} (R : A -> A -> Prop) (R' : B -> B -> Prop)
      (f : A -> B) (l : list A) :
  (forall a b, R a b -> R' (f a) (f b)) ->
  StronglySorted R l -> StronglySorted R' (map f l).
Proof.
  intros Hf. induction 1 as [|a l Hl IH Ha]; simpl; constructor; [assumption |].
  apply Forall_map. eapply Forall_impl; [| exact Ha]. intros b. apply Hf.
Qed.

Lemma whole_second_mono (a b : Z) : a > b -> whole_second a >= whole_second b.
Proof.
  intros H. unfold whole_second, PyTime.US_PER_SECOND.
  assert (b / 1000 <= a / 1000) by (apply Z.div_le_mono; lia). lia.
Qed.

Lemma sorted_rev_lt (l : list Z) :
  StronglySorted Z.lt (rev l) <-> StronglySorted Z.gt l.
Proof.
  split; intros H; apply StronglySorted_rev in H.
  - rewrite rev_involutive in H.
    apply (StronglySorted_map _ Z.gt (fun x => x)) in H;
      [now rewrite map_id in H | intros a b Hab; lia].
  - apply (StronglySorted_map _ Z.lt (fun x => x)) in H;
      [now rewrite map_id in H | intros a b Hab; lia].
Qed.

(** Among timestamps that strictly descend, the whole seconds strictly
    descend exactly when no two timestamps share a second. *)
Lemma seconds_descending (l : list Z) :
  StronglySorted Z.gt l ->
  StronglySorted Z.gt (map whole_second l) <-> NoDup (map (fun ts => ts / 1000) l).
Proof.
  induction 1 as [|a l Hl IH Ha]; cbn [map].
  - split; constructor.
  - rewrite Forall_forall in Ha. split; intros H; inversion H; subst.
    + constructor; [| apply IH; assumption].
      intros Hin. apply in_map_iff in Hin. destruct Hin as [y [Hy Hin]].
      match goal with
      | Hall : Forall _ (map whole_second l) |- _ =>
          rewrite Forall_forall in Hall;
          specialize (Hall (whole_second y) (in_map whole_second l y Hin))
      end.
      unfold whole_second in *. rewrite Hy in *. lia.
    + constructor; [apply IH; assumption |].
      apply Forall_forall. intros k Hk. apply in_map_iff in Hk.
      destruct Hk as [y [<- Hin]].
      assert (y / 1000 <= a / 1000)
        by (apply Z.div_le_mono; [lia | specialize (Ha y Hin); lia]).
      assert (a / 1000 <> y / 1000).
      { intros E. match goal with Hn : ~ In _ _ |- _ => apply Hn end.
        rewrite E. apply (in_map (fun ts => ts / 1000) l y Hin). }
      unfold whole_second, PyTime.US_PER_SECOND. lia.
Qed.

(** Timestamps that are whole seconds and strictly descend share no
    second. *)
Lemma whole_seconds_distinct (l : list Z) :
  StronglySorted Z.gt l -> Forall (fun ts => ts mod 1000 = 0) l ->
  NoDup (map (fun ts => ts / 1000) l).
Proof.
  induction 1 as [|a l Hl IH Ha]; cbn [map]; intros Hw; [constructor |].
  inversion Hw as [|? ? Hwa Hwl]; subst.
  constructor; [| apply IH; assumption].
  intros Hin. apply in_map_iff in Hin. destruct Hin as [y [Hy Hin]].
  rewrite Forall_forall in Ha, Hwl.
  specialize (Ha y Hin). specialize (Hwl y Hin).
  pose proof (Z.div_mod a 1000). pose proof (Z.div_mod y 1000). lia.
Qed.

(** When the returned timestamps strictly ascend. *)
Lemma returned_strictly (is_bool ts_as_datetime : bool) (rows : list Row)
      (data : list (Stamp * PyVal)) :
  fetch_all is_bool ts_as_datetime rows = Ok data ->
  StronglySorted Z.gt (map r0 rows) ->
  StronglySorted Z.lt (map pair_key (rev data))
  <-> ts_as_datetime = false \/ NoDup (map (fun r => r0 r / 1000) rows).
Proof.
  intros Hf Hs. rewrite map_rev, (fetch_all_keys _ _ _ _ Hf), sorted_rev_lt.
  destruct ts_as_datetime.
  - replace (map (fun r => whole_second (r0 r)) rows)
      with (map whole_second (map r0 rows)) by (rewrite map_map; reflexivity).
    replace (map (fun r => r0 r / 1000) rows)
      with (map (fun ts => ts / 1000) (map r0 rows)) by (rewrite map_map; reflexivity).
    rewrite (seconds_descending _ Hs). intuition discriminate.
  - intuition.
Qed.

(** The returned list read backwards has the keys of the fetched rows. *)
Lemma returned_keys (is_bool ts_as_datetime : bool) (rows : list Row)
      (data : list (Stamp * PyVal)) :
  fetch_all is_bool ts_as_datetime rows = Ok data ->
  StronglySorted Z.gt (map r0 rows) ->
  (ts_as_datetime = false -> StronglySorted Z.lt (map pair_key (rev data)))
  /\ StronglySorted Z.le (map pair_key (rev data)).
Proof.
  intros Hf Hs. rewrite map_rev, (fetch_all_keys _ _ _ _ Hf). split.
  - intros ->. rewrite <- map_rev.
    rewrite map_rev. apply (StronglySorted_rev Z.gt) in Hs.
    eapply StronglySorted_map in Hs; [| intros a b Hab; exact (proj1 (Z.gt_lt_iff b a) Hab)].
    rewrite map_id in Hs. exact Hs.
  - replace (map (fun r => if ts_as_datetime then whole_second (r0 r) else r0 r) rows)
      with (map (fun ts => if ts_as_datetime then whole_second ts else ts) (map r0 rows))
      by (rewrite map_map; reflexivity).
    apply (StronglySorted_map _ Z.ge (fun ts => if ts_as_datetime then whole_second ts else ts)) in Hs.
    + apply StronglySorted_rev in Hs.
      eapply StronglySorted_map in Hs; [| intros a b Hab; exact (proj1 (Z.ge_le_iff b a) Hab)].
      rewrite map_id in Hs. exact Hs.
    + intros a b Hab. destruct ts_as_datetime; [apply whole_second_mono; exact Hab | lia].
Qed.

(** C3, as stated, fails: the empty representative is a string that is not
    ["0"], yet its row decodes to the rounded aggregate 2, not to 1. *)
Lemma bool_decoding_counterexample :
  let r := mkRow 1000 (PStr "") (PFloat (24 # 10)) in
  decode_row true false r = Ok (Millis 1000, PInt 2)
  /\ ~ bool_decoded_as_specified r (PInt 2)
  /\ get_point_values clock0 interp0 store_bool parse0 d_bool "minute" "avg" None false w0
     = (Ok [(Millis 1000, PInt 2); (Millis 2000, PInt 2); (Millis 3000, PInt 1)],
        mkWorld 2 1 []).
Proof.
  split; [reflexivity |]. split; [| reflexivity].
  unfold bool_decoded_as_specified. simpl. discriminate.
Qed.

(** C3, amended.  For a point of kind Bool, every returned pair is the
    decoding of the fetched row at the mirrored position, and its value is 1
    when the representative is true (neither NULL nor empty) and is not the
    literal ["0"], which includes ["t"]; otherwise it is the rounded numeric
    aggregate.  Representative ["t"] decodes to 1; representative ["0"] with
    aggregate 2.4 decodes to 2. *)
Theorem bool_rows_decoded :
  forall (utcnow_at : nat -> Z) (interp : PyStr.Interpreter) (store_range : Query -> result (list Row))
         (parse_datetime : string -> result Z)
         (d : PointView) (date_trunc value_func : string) (trange : option string)
         (ts_as_datetime : bool) (w w' : World) (out : list (Stamp * PyVal)),
    kind d = "Bool" ->
    get_point_values utcnow_at interp store_range parse_datetime
                     d date_trunc value_func trange ts_as_datetime w = (Ok out, w') ->
    (exists start end_ rows,
        store_range (SelectBool (valid_date_trunc date_trunc) value_func (topic d)
                                start end_) = Ok rows
        /\ Forall2 (fun r x => bool_decoded r (snd x)) rows (rev out))
    /\ (forall ts agg, bool_decoded (mkRow ts (PStr "t") agg) (PInt 1))
    /\ (forall ts, bool_decoded (mkRow ts (PStr "0") (PFloat (24 # 10))) (PInt 2)).
Proof.
  intros utcnow_at interp store_range parse_datetime d date_trunc value_func trange
         ts_as_datetime w w' out Hkind Hrun.
  split; [| split; intros; reflexivity].
  destruct (resolve_range utcnow_at interp parse_datetime (valid_trange trange)
                          (after_connect w)) as [[range|e] w1] eqn:Hres.
  - rewrite (get_point_values_range _ _ _ _ _ _ _ _ _ _ _ _ Hres) in Hrun.
    pose proof (query_points_world store_range (next_conn w) d
                  (valid_date_trunc date_trunc) value_func ts_as_datetime range w1) as Hq.
    rewrite Hrun in Hq. destruct Hq as [rows [decoded [Hrows [Hdec [-> _]]]]].
    exists (fst range), (snd range), rows. split.
    + rewrite <- Hrows. unfold point_query. rewrite Hkind. reflexivity.
    + rewrite rev_involutive. rewrite Hkind in Hdec. cbn in Hdec.
      apply fetch_all_rows in Hdec.
      eapply Forall2_impl; [| exact Hdec].
      intros r [s v] Hx. eapply decode_row_bool. exact Hx.
  - rewrite (get_point_values_range_raise _ _ _ _ _ _ _ _ _ _ _ _ Hres) in Hrun.
    discriminate.
Qed.

Lemma bool_rows_decoded_witness :
  exists start end_ rows,
    store_bool (SelectBool "minute" "avg" (topic d_bool) start end_) = Ok rows
    /\ Forall2 (fun r x => bool_decoded r (snd x)) rows
               (rev [(Millis 1000, PInt 2); (Millis 2000, PInt 2); (Millis 3000, PInt 1)]).
Proof.
  exact (proj1 (bool_rows_decoded clock0 interp0 store_bool parse0 d_bool "minute" "avg" None
                                  false w0 (mkWorld 2 1 []) _ eq_refl eq_refl)).
Defined.

(** C6, as stated, fails: with [ts_as_datetime] set, two rows of the same
    second, delivered newest first, come back with equal timestamps. *)
Lemma ascending_counterexample :
  StronglySorted Z.gt (map r0 [mkRow 1500 (PStr "a") PNone; mkRow 1000 (PStr "b") PNone])
  /\ let out := [(Datetime (whole_second 1000), PStr "b");
                 (Datetime (whole_second 1500), PStr "a")] in
     get_point_values clock0 interp0 store_same_second parse0 d0 "minute" "avg" None true w0
     = (Ok out, mkWorld 2 1 [])
     /\ ~ StronglySorted Z.lt (map pair_key out).
Proof.
  split; [repeat constructor |]. split; [reflexivity |].
  intros H. inversion H as [|a l _ Hall]; subst.
  inversion Hall as [|b l' Hlt _]; subst. revert Hlt. cbv. discriminate.
Qed.

(** C6, amended.  What [get_point_values] returns is the reversal of the
    pairs it collected, one per fetched row, in fetch order; its timestamps
    are those of the rows read backwards, each as stored or, when
    [ts_as_datetime] is set, cut to its whole second.  For a store result
    strictly descending by timestamp the returned pairs are non-decreasing
    by timestamp, and they are strictly ascending exactly when
    [ts_as_datetime] is false or no two rows fall in the same whole second;
    so they are whenever every row's timestamp is a whole second, as the
    buckets of [DATE_TRUNC] are. *)
Theorem returned_in_chronological_order :
  forall (utcnow_at : nat -> Z) (interp : PyStr.Interpreter)
         (store_range : Query -> result (list Row))
         (parse_datetime : string -> result Z)
         (d : PointView) (date_trunc value_func : string) (trange : option string)
         (ts_as_datetime : bool) (w w' : World) (out : list (Stamp * PyVal)),
    get_point_values utcnow_at interp store_range parse_datetime
                     d date_trunc value_func trange ts_as_datetime w = (Ok out, w') ->
    exists start end_ rows collected,
      store_range (point_query d (valid_date_trunc date_trunc) value_func start end_)
      = Ok rows
      /\ fetch_all (String.eqb "Bool" (kind d)) ts_as_datetime rows = Ok collected
      /\ out = rev collected
      /\ map pair_key out
         = rev (map (fun r => if ts_as_datetime then whole_second (r0 r) else r0 r) rows)
      /\ (StronglySorted Z.gt (map r0 rows) ->
          StronglySorted Z.le (map pair_key out)
          /\ (ts_as_datetime = false -> StronglySorted Z.lt (map pair_key out))
          /\ (StronglySorted Z.lt (map pair_key out)
              <-> ts_as_datetime = false \/ NoDup (map (fun r => r0 r / 1000) rows))
          /\ (Forall (fun r => r0 r mod 1000 = 0) rows ->
              StronglySorted Z.lt (map pair_key out))).
Proof.
  intros utcnow_at interp store_range parse_datetime d date_trunc value_func trange
         ts_as_datetime w w' out Hrun.
  destruct (resolve_range utcnow_at interp parse_datetime (valid_trange trange)
                          (after_connect w)) as [[range|e] w1] eqn:Hres.
  - rewrite (get_point_values_range _ _ _ _ _ _ _ _ _ _ _ _ Hres) in Hrun.
    pose proof (query_points_world store_range (next_conn w) d
                  (valid_date_trunc date_trunc) value_func ts_as_datetime range w1) as Hq.
    rewrite Hrun in Hq. destruct Hq as [rows [decoded [Hrows [Hdec [-> _]]]]].
    exists (fst range), (snd range), rows, decoded.
    split; [assumption |]. split; [assumption |]. split; [reflexivity |].
    split; [rewrite map_rev, (fetch_all_keys _ _ _ _ Hdec); reflexivity |].
    intros Hs. destruct (returned_keys _ _ _ _ Hdec Hs) as [Hlt Hle].
    pose proof (returned_strictly _ _ _ _ Hdec Hs) as Hiff.
    split; [exact Hle |]. split; [exact Hlt |]. split; [exact Hiff |].
    intros Hw. apply Hiff. right.
    replace (map (fun r => r0 r / 1000) rows)
      with (map (fun ts => ts / 1000) (map r0 rows)) by (rewrite map_map; reflexivity).
    apply whole_seconds_distinct; [exact Hs |].
    apply Forall_map. exact Hw.
  - rewrite (get_point_values_range_raise _ _ _ _ _ _ _ _ _ _ _ _ Hres) in Hrun.
    discriminate.
Qed.

Lemma returned_in_chronological_order_witness :
  exists start end_ rows collected,
    store_same_second (point_query d0 "minute" "avg" start end_) = Ok rows
    /\ fetch_all false false rows = Ok collected
    /\ [(Millis 1000, PStr "b"); (Millis 1500, PStr "a")] = rev collected
    /\ [1000; 1500] = rev (map (fun r => r0 r) rows)
    /\ (StronglySorted Z.gt (map r0 rows) ->
        StronglySorted Z.le [1000; 1500]
        /\ (false = false -> StronglySorted Z.lt [1000; 1500])
        /\ (StronglySorted Z.lt [1000; 1500]
            <-> false = false \/ NoDup (map (fun r => r0 r / 1000) rows))
        /\ (Forall (fun r => r0 r mod 1000 = 0) rows ->
            StronglySorted Z.lt [1000; 1500])).
Proof.
  exact (returned_in_chronological_order clock0 interp0 store_same_second parse0 d0 "minute"
           "avg" None false w0 (mkWorld 2 1 []) _ eq_refl).
Defined.

(** ** Points without a reading *)

Section CurrentValueFacts.

Variable store_latest : string -> result (option (Z * option string)).
Variable isoformat : Z -> string.
Variable strftime : Z -> string.
Variable format_1f : option string -> option string.
Variable format_html : string -> result string.

Let value_dict := get_current_value_dict store_latest isoformat strftime format_1f.
Let value := get_current_value store_latest isoformat strftime format_1f format_html.
Let add_value := add_current_value store_latest isoformat strftime format_1f format_html.
Let add_values := add_current_values store_latest isoformat strftime format_1f format_html.

Lemma value_dict_no_reading (point : PointView) (connection : option nat) (w : World) :
  store_latest (topic point) = Ok None ->
  fst (value_dict point connection w) = Ok None.
Proof.
  intros H. unfold value_dict, get_current_value_dict.
  destruct connection as [c|]; cbv [bind ret lift get_crate_connection connection_close];
    rewrite H; reflexivity.
Qed.

(** With a connection supplied the decorator leaves the world as it is. *)
Lemma value_dict_given_world (point : PointView) (c : nat) (w : World) :
  snd (value_dict point (Some c) w) = w.
Proof.
  unfold value_dict, get_current_value_dict.
  cbv [bind ret lift get_crate_connection connection_close].
  destruct (store_latest (topic point)) as [[[ts sv]|]|e]; try reflexivity.
  destruct (format_epoch isoformat strftime ts); [| reflexivity].
  destruct (String.eqb (kind point) "Bool"); [reflexivity |].
  destruct (unit_truthy (unit point)); reflexivity.
Qed.

Lemma value_no_reading (point : PointView) (c : nat) (raw : bool) (w : World) :
  store_latest (topic point) = Ok None ->
  value point (Some c) raw w = (Ok None, w).
Proof.
  intros H. unfold value, get_current_value.
  pose proof (value_dict_no_reading point (Some c) w H) as Hd.
  pose proof (value_dict_given_world point c w) as Hw.
  unfold value_dict in Hd, Hw. unfold bind.
  destruct (get_current_value_dict store_latest isoformat strftime format_1f
                                   point (Some c) w) as [r w1].
  cbn [fst snd] in Hd, Hw. subst. reflexivity.
Qed.

Lemma add_value_no_reading (c : nat) (raw : bool) (d : PointView) (w : World) :
  store_latest (topic d) = Ok None ->
  add_value c raw d w = (Ok (set_current_value d (no_data_marker raw)), w).
Proof.
  intros H. unfold add_value, add_current_value, bind.
  pose proof (value_no_reading d c raw w H) as Hv. unfold value in Hv.
  rewrite Hv. reflexivity.
Qed.

Lemma for_each_rows {A B} (f : A -> M B) (l : list A) :
  forall w out w',
    for_each f l w = (Ok out, w') ->
    Forall2 (fun a b => exists w1 w2, f a w1 = (Ok b, w2)) l out.
Proof.
  induction l as [|a r IH]; simpl; intros w out w' H.
  - injection H as <- _. constructor.
  - unfold bind in H. destruct (f a w) as [[b|e] w1] eqn:Ha; [| discriminate].
    destruct (for_each f r w1) as [[bs|e] w2] eqn:Hr; [| discriminate].
    injection H as <- _. constructor; [eauto | eapply IH; eassumption].
Qed.

Lemma for_each_no_reading (c : nat) (raw : bool) (data : list PointView) (w : World) :
  Forall (fun d => store_latest (topic d) = Ok None) data ->
  for_each (add_value c raw) data w
  = (Ok (map (fun d => set_current_value d (no_data_marker raw)) data), w).
Proof.
  induction 1 as [|d r Hd _ IH]; simpl; [reflexivity |].
  unfold bind. rewrite (add_value_no_reading c raw d w Hd), IH. reflexivity.
Qed.

End CurrentValueFacts.

(** C9. For a point whose topic has no row in the store,
    [get_current_value_dict] returns [None] and does not raise, whether it
    opens its own connection or is given one; [get_current_value] passes the
    [None] on; and [add_current_values] stores the explicit marker in
    [current_value]: the empty dict when [raw] is set, the text ['N/A']
    otherwise.  A list in which no point has a reading is decorated without
    any failure. *)
Theorem no_reading_is_reported_as_no_data :
  forall (store_latest : string -> result (option (Z * option string)))
         (isoformat strftime : Z -> string)
         (format_1f : option string -> option string)
         (format_html : string -> result string)
         (point : PointView) (connection : option nat) (raw : bool) (w : World),
    store_latest (topic point) = Ok None ->
    fst (get_current_value_dict store_latest isoformat strftime format_1f
                                point connection w) = Ok None
    /\ fst (get_current_value store_latest isoformat strftime format_1f format_html
                              point connection raw w) = Ok None
    /\ (forall data out w',
           In point data ->
           add_current_values store_latest isoformat strftime format_1f format_html
                              data raw w = (Ok out, w') ->
           In (set_current_value point (no_data_marker raw)) out)
    /\ (forall data,
           Forall (fun d => store_latest (topic d) = Ok None) data ->
           fst (add_current_values store_latest isoformat strftime format_1f format_html
                                   data raw w)
           = Ok (map (fun d => set_current_value d (no_data_marker raw)) data)).
Proof.
  intros store_latest isoformat strftime format_1f format_html point connection raw w H.
  pose proof (value_dict_no_reading store_latest isoformat strftime format_1f
                                    point connection w H) as Hd.
  split; [exact Hd |]. split; [| split].
  - unfold get_current_value, bind.
    destruct (get_current_value_dict store_latest isoformat strftime format_1f
                                     point connection w) as [r w1].
    cbn [fst] in Hd. subst r. reflexivity.
  - intros data out w' Hin Hrun.
    unfold add_current_values in Hrun. unfold bind at 1 in Hrun.
    cbv [get_crate_connection] in Hrun. cbv beta iota in Hrun.
    unfold bind at 1 in Hrun.
    destruct (for_each _ data _) as [[d2|e] w1] eqn:Hfe; [| discriminate].
    cbv [bind connection_close ret] in Hrun. injection Hrun as <- _.
    apply for_each_rows in Hfe.
    clear - Hfe Hin H. induction Hfe as [|a b l l' Hab _ IH]; [contradiction |].
    destruct Hin as [-> | Hin]; [left | right; auto].
    destruct Hab as [w1 [w2 Hab]].
    rewrite (add_value_no_reading store_latest isoformat strftime format_1f format_html
               _ raw point w1 H) in Hab.
    congruence.
  - intros data Hall. unfold add_current_values. unfold bind at 1.
    cbv [get_crate_connection]. cbv beta iota. unfold bind at 1.
    rewrite (for_each_no_reading store_latest isoformat strftime format_1f format_html
               _ raw data _ Hall).
    reflexivity.
Qed.

Lemma no_reading_is_reported_as_no_data_witness :
  fst (get_current_value_dict latest_none iso0 fmt0 float0 d0 None w0) = Ok None
  /\ fst (add_current_values latest_none iso0 fmt0 float0 html0 [d0; d_bool] false w0)
     = Ok [set_current_value d0 CvNA; set_current_value d_bool CvNA].
Proof.
  pose proof (no_reading_is_reported_as_no_data latest_none iso0 fmt0 float0 html0
                d0 None false w0 eq_refl) as [H1 [_ [_ H4]]].
  split; [exact H1 |].
  apply (H4 [d0; d_bool]). repeat constructor.
Defined.

(** ** The role resolver *)

Lemma str_in_In (x : string) (l : list string) : str_in x l = true <-> In x l.
Proof.
  unfold str_in. rewrite existsb_exists. split.
  - intros [y [Hy E]]. apply String.eqb_eq in E. now subst.
  - intros H. exists x. split; [assumption | apply String.eqb_refl].
Qed.

Lemma candidates_spec (objects : list PointView) (equipment_id_ : string)
      (t : RoleQuery) (p : PointView) :
  In p (candidates objects equipment_id_ t)
  <-> In p objects
      /\ equipment_id p = equipment_id_
      /\ (forall tag, In tag (has t) -> In tag (m_tags p))
      /\ (forall ex tag, exclude t = Some ex -> In tag ex -> ~ In tag (m_tags p)).
Proof.
  unfold candidates, role_points.
  assert (Hc : forall tags, m_tags_contains tags p = true
                            <-> forall tag, In tag tags -> In tag (m_tags p)).
  { intros tags. unfold m_tags_contains. rewrite forallb_forall.
    split; intros H tag Htag; apply str_in_In; auto. }
  assert (Ho : forall tags, negb (m_tags_overlap tags p) = true
                            <-> forall tag, In tag tags -> ~ In tag (m_tags p)).
  { intros tags. unfold m_tags_overlap. rewrite negb_true_iff.
    split.
    - intros H tag Htag Hin.
      assert (existsb (fun t0 => str_in t0 (m_tags p)) tags = true)
        by (apply existsb_exists; exists tag; split; [assumption | now apply str_in_In]).
      congruence.
    - intros H. destruct (existsb _ tags) eqn:E; [| reflexivity].
      apply existsb_exists in E. destruct E as [tag [Htag Hin]].
      apply str_in_In in Hin. exfalso. eapply H; eassumption. }
  destruct (exclude t) as [ex|].
  - rewrite !filter_In, String.eqb_eq, Hc, Ho. split.
    + intros [[[H1 H2] H3] H4]. repeat split; auto. intros ex' tag [= <-]. auto.
    + intros [H1 [H2 [H3 H4]]]. repeat split; auto. intros tag. now apply H4.
  - rewrite !filter_In, String.eqb_eq, Hc. split.
    + intros [[H1 H2] H3]. repeat split; auto. discriminate.
    + intros [H1 [H2 [H3 _]]]. auto.
Qed.

(** The first element of the sorted list is an element with the least key. *)
Lemma stable_sort_head {A} (key : A -> nat) (l : list A) :
  l <> [] ->
  exists p0 rest,
    stable_sort (fun a b => (key a <=? key b)%nat) l = p0 :: rest
    /\ In p0 l
    /\ forall x, In x l -> (key p0 <= key x)%nat.
Proof.
  induction l as [|x r IH]; [congruence |]. intros _. simpl.
  destruct r as [|y r'].
  - exists x, []. simpl. repeat split; auto. intros z [<- | []]. lia.
  - destruct IH as [h [rest [Hs [Hin Hmin]]]]; [discriminate |].
    rewrite Hs. simpl.
    destruct (Nat.leb_spec (key x) (key h)) as [Hle | Hgt].
    + exists x, (h :: rest). repeat split; auto.
      intros z [<- | Hz]; [lia |]. specialize (Hmin z Hz). lia.
    + exists h, (insert_sorted (fun a b => (key a <=? key b)%nat) x rest).
      repeat split; auto. intros z [<- | Hz]; [lia | auto].
Qed.

Lemma dict_get_set_same {V} (k : string) (v : V) (d : list (string * V)) :
  dict_get k (dict_set k v d) = Some v.
Proof.
  induction d as [|[k' v'] r IH]; simpl.
  - now rewrite String.eqb_refl.
  - destruct (String.eqb k' k) eqn:E; simpl.
    + now rewrite String.eqb_refl.
    + now rewrite E.
Qed.

Lemma dict_get_set_other {V} (k k0 : string) (v : V) (d : list (string * V)) :
  k0 <> k -> dict_get k0 (dict_set k v d) = dict_get k0 d.
Proof.
  intros Hne. induction d as [|[k' v'] r IH]; simpl.
  - destruct (String.eqb_spec k k0); [congruence | reflexivity].
  - destruct (String.eqb_spec k' k) as [-> | Hk]; simpl.
    + destruct (String.eqb_spec k k0); [congruence | reflexivity].
    + destruct (String.eqb k' k0); [reflexivity | exact IH].
Qed.

Section RoleFacts.

Variable store_latest : string -> result (option (Z * option string)).
Variable isoformat : Z -> string.
Variable strftime : Z -> string.
Variable format_1f : option string -> option string.
Variable format_html : string -> result string.

Let add_value := add_current_value store_latest isoformat strftime format_1f format_html.
Let add_values := add_current_values store_latest isoformat strftime format_1f format_html.
Let role := ahu_role store_latest isoformat strftime format_1f format_html.
Let roles := get_ahu_current_values store_latest isoformat strftime format_1f format_html.

(** A decorated point is the point itself with [current_value] set. *)
Lemma add_value_shape (c : nat) (raw : bool) (d b : PointView) (w w' : World) :
  add_value c raw d w = (Ok b, w') -> exists cv, b = set_current_value d cv.
Proof.
  unfold add_value, add_current_value, bind. intros H.
  destruct (get_current_value _ _ _ _ _ d (Some c) raw w) as [[cv|e] w1];
    [| discriminate].
  cbv [ret] in H. injection H as <- _. eauto.
Qed.

Lemma add_values_one (raw : bool) (p : PointView) (out : list PointView) (w w' : World) :
  add_values [p] raw w = (Ok out, w') -> exists cv, out = [set_current_value p cv].
Proof.
  unfold add_values, add_current_values. intros Hrun.
  unfold bind at 1 in Hrun. cbv [get_crate_connection] in Hrun.
  cbv beta iota in Hrun. unfold bind at 1 in Hrun.
  destruct (for_each _ [p] _) as [[d2|e] w1] eqn:Hfe; [| discriminate].
  cbv [bind connection_close ret] in Hrun. injection Hrun as <- _.
  apply for_each_rows in Hfe. inversion Hfe as [|a b l l' Hab Hrest]; subst.
  inversion Hrest; subst. destruct Hab as [w2 [w3 Hab]].
  apply add_value_shape in Hab. destruct Hab as [cv ->]. eauto.
Qed.

(** The point the loop body keeps for a role with candidates [cand]. *)
Lemma selected_head (cand : list PointView) :
  cand <> [] ->
  exists p0 rest,
    (if (1 <? List.length cand)%nat then stable_sort tag_count_le cand else cand)
    = p0 :: rest
    /\ fewest_tags p0 cand.
Proof.
  intros Hne. destruct (1 <? List.length cand)%nat eqn:Hlen.
  - destruct (stable_sort_head (fun x => List.length (m_tags x)) cand Hne)
      as [p0 [rest [Hs [Hin Hmin]]]].
    exists p0, rest. split; [exact Hs | split; assumption].
  - apply Nat.ltb_ge in Hlen. destruct cand as [|a [|b r]]; [congruence | | simpl in Hlen; lia].
    exists a, []. split; [reflexivity |]. split; [now left |].
    intros x [<- | []]. lia.
Qed.

(** One turn of the loop over the catalog. *)
Lemma ahu_role_step (dp : list PointView) (results r1 : list (string * PointView))
      (n : string) (t : RoleQuery) (w w1 : World) :
  role dp results (n, t) w = (Ok r1, w1) ->
  (forall k, k <> n -> dict_get k r1 = dict_get k results)
  /\ role_outcome (role_points dp t) (dict_get n results) (dict_get n r1).
Proof.
  unfold role, ahu_role. intros H.
  destruct (role_points dp t) as [|a l] eqn:Hc.
  - cbv [ret] in H. injection H as <- _. split; [reflexivity | reflexivity].
  - destruct (selected_head (a :: l)) as [p0 [rest [Hs Hf]]]; [discriminate |].
    rewrite Hs in H. unfold bind in H.
    destruct (add_current_values _ _ _ _ _ [p0] true w) as [[out|e] w2] eqn:Hadd;
      [| discriminate].
    apply add_values_one in Hadd. destruct Hadd as [cv ->].
    cbv [ret] in H. injection H as <- _. split.
    + intros k Hk. now apply dict_get_set_other.
    + simpl. exists p0, cv. split; [apply dict_get_set_same | exact Hf].
Qed.

(** The loop over a catalog whose role names are distinct. *)
Lemma fold_roles (dp : list PointView) (cat : list (string * RoleQuery)) :
  NoDup (map fst cat) ->
  forall results r w w',
    fold_m (role dp) results cat w = (Ok r, w') ->
    (forall k, ~ In k (map fst cat) -> dict_get k r = dict_get k results)
    /\ (forall n t, In (n, t) cat ->
                    role_outcome (role_points dp t) (dict_get n results) (dict_get n r)).
Proof.
  induction cat as [|[n0 t0] rest IH]; intros Hnd results r w w' H.
  - simpl in H. cbv [ret] in H. injection H as <- _. split; [intros; reflexivity | intros n t Hin; destruct Hin].
  - cbn [fold_m] in H. unfold bind at 1 in H.
    destruct (role dp results (n0, t0) w) as [[r1|e] w1] eqn:Hstep; [| discriminate].
    apply ahu_role_step in Hstep. destruct Hstep as [Hother Hhere].
    inversion Hnd as [|? ? Hnotin Hnd']; subst.
    destruct (IH Hnd' _ _ _ _ H) as [Hkeep Hout]. split.
    + intros k Hk. simpl in Hk. rewrite Hkeep by tauto. apply Hother.
      intros ->. apply Hk. now left.
    + intros n t [[= <- <-] | Hin].
      * rewrite (Hkeep n0 Hnotin). exact Hhere.
      * assert (Hne : n <> n0).
        { intros ->. apply Hnotin. change n0 with (fst (n0, t)). now apply in_map. }
        specialize (Hout n t Hin). rewrite (Hother n Hne) in Hout. exact Hout.
Qed.

Lemma q_names_distinct : NoDup (map fst q).
Proof.
  simpl. repeat constructor; simpl; intuition discriminate.
Qed.

(** With no reading anywhere, the resolver does not raise. *)
Lemma fold_roles_no_reading (dp : list PointView) (cat : list (string * RoleQuery)) :
  (forall p, store_latest (topic p) = Ok None) ->
  forall results w, exists r w', fold_m (role dp) results cat w = (Ok r, w').
Proof.
  intros Hnone. induction cat as [|[n0 t0] rest IH]; intros results w.
  - simpl. cbv [ret]. eauto.
  - cbn [fold_m]. unfold bind at 1.
    assert (Hstep : exists r1 w1, role dp results (n0, t0) w = (Ok r1, w1)).
    { unfold role, ahu_role. destruct (role_points dp t0) as [|a l] eqn:Hc.
      - cbv [ret]. eauto.
      - destruct (selected_head (a :: l)) as [p0 [rest0 [Hs _]]]; [discriminate |].
        rewrite Hs. unfold bind, add_current_values. unfold bind.
        cbv [get_crate_connection]. cbv beta iota.
        rewrite (for_each_no_reading store_latest isoformat strftime format_1f
                   format_html _ true [p0] _ (Forall_cons _ (Hnone p0) (Forall_nil _))).
        cbv [connection_close ret map]. eauto. }
    destruct Hstep as [r1 [w1 ->]]. apply IH.
Qed.

End RoleFacts.

(** C2. For every set of points, every equipment and every role [(n, t)] of
    the catalog [q], a run of [get_ahu_current_values] that returns has
    treated the role as follows.  The candidates are the points of the
    equipment whose [m_tags] include every tag of [has t] and none of the tags
    of [exclude t].  With no candidate the result has no entry under [n];
    with exactly one candidate the entry under [n] is that point (decorated
    with its current value); with candidates the entry is a candidate with
    the fewest [m_tags]. *)
Theorem role_selected_by_tags_then_fewest :
  forall (store_latest : string -> result (option (Z * option string)))
         (isoformat strftime : Z -> string)
         (format_1f : option string -> option string)
         (format_html : string -> result string)
         (objects : list PointView) (equipment_id_ : string)
         (w w' : World) (results : list (string * PointView)),
    get_ahu_current_values store_latest isoformat strftime format_1f format_html
                           objects equipment_id_ w = (Ok results, w') ->
    forall n t, In (n, t) q ->
      let cand := candidates objects equipment_id_ t in
      (forall p, In p cand
                 <-> In p objects
                     /\ equipment_id p = equipment_id_
                     /\ (forall tag, In tag (has t) -> In tag (m_tags p))
                     /\ (forall ex tag, exclude t = Some ex -> In tag ex ->
                                        ~ In tag (m_tags p)))
      /\ (cand = [] -> dict_get n results = None)
      /\ (forall p, cand = [p] ->
                    exists cv, dict_get n results = Some (set_current_value p cv))
      /\ (cand <> [] ->
          exists p0 cv, dict_get n results = Some (set_current_value p0 cv)
                        /\ fewest_tags p0 cand).
Proof.
  intros store_latest isoformat strftime format_1f format_html objects equipment_id_
         w w' results Hrun n t Hin cand.
  unfold get_ahu_current_values in Hrun.
  destruct (fold_roles store_latest isoformat strftime format_1f format_html
              _ q q_names_distinct _ _ _ _ Hrun) as [_ Hout].
  specialize (Hout n t Hin). fold (candidates objects equipment_id_ t) in Hout.
  fold cand in Hout. split; [intros p; apply candidates_spec |].
  unfold role_outcome in Hout. cbn [dict_get] in Hout.
  split; [| split].
  - intros E. rewrite E in Hout. exact Hout.
  - intros p E. rewrite E in Hout. destruct Hout as [p0 [cv [Hget [Hp0 _]]]].
    destruct Hp0 as [<- | []]. eauto.
  - intros Hne. destruct cand as [|a l]; [congruence |]. exact Hout.
Qed.

Lemma role_selected_by_tags_then_fewest_witness :
  candidates ahu_points "ahu1"
             (mkRole ["air"; "his"; "point"; "sensor"; "temp"; "return"] None)
  = [p_seven; p_six]
  /\ exists p0 cv,
      dict_get "Return Air Temp" [("Return Air Temp", set_current_value p_six reading_72)]
      = Some (set_current_value p0 cv)
      /\ fewest_tags p0 [p_seven; p_six].
Proof.
  split; [reflexivity |].
  refine (proj2 (proj2 (proj2
    (role_selected_by_tags_then_fewest latest_72 iso0 fmt0 float0 html0
       ahu_points "ahu1" w0 (mkWorld 0 1 [])
       [("Return Air Temp", set_current_value p_six reading_72)] _
       "Return Air Temp"
       (mkRole ["air"; "his"; "point"; "sensor"; "temp"; "return"] None) _))) _).
  - vm_compute. reflexivity.
  - simpl. right. left. reflexivity.
  - discriminate.
Defined.

(** The spec's example: of two candidates with six and seven tags the one
    with six is stored, whichever comes first in the table. *)
Example tie_break_six_before_seven :
  fst (get_ahu_current_values latest_72 iso0 fmt0 float0 html0
                              [p_six; p_seven; p_other] "ahu1" w0)
  = Ok [("Return Air Temp", set_current_value p_six reading_72)]
  /\ fst (get_ahu_current_values latest_72 iso0 fmt0 float0 html0
                                 [p_seven; p_six; p_other] "ahu1" w0)
     = Ok [("Return Air Temp", set_current_value p_six reading_72)].
Proof. split; vm_compute; reflexivity. Qed.

(** ** Sorting *)

Section SortFacts.

Context {A : Type}.
Variable le : A -> A -> bool.
Hypothesis le_total : forall a b, le a b = true \/ le b a = true.
Hypothesis le_trans : forall a b c, le a b = true -> le b c = true -> le a c = true.

Lemma insert_sorted_perm (x : A) (l : list A) :
  Permutation (insert_sorted le x l) (x :: l).
Proof.
  induction l as [|y r IH]; simpl; [reflexivity |].
  destruct (le x y); [reflexivity |].
  rewrite IH. apply perm_swap.
Qed.

Lemma stable_sort_perm (l : list A) : Permutation (stable_sort le l) l.
Proof.
  induction l as [|x r IH]; simpl; [reflexivity |].
  rewrite insert_sorted_perm. now constructor.
Qed.

Lemma insert_sorted_sorted (x : A) (l : list A) :
  StronglySorted (fun a b => le a b = true) l ->
  StronglySorted (fun a b => le a b = true) (insert_sorted le x l).
Proof.
  induction 1 as [|y r Hr IH Hy]; simpl.
  - repeat constructor.
  - destruct (le x y) eqn:Hxy.
    + constructor; [now constructor |]. constructor; [exact Hxy |].
      eapply Forall_impl; [| exact Hy]. intros z Hz. eapply le_trans; eassumption.
    + constructor; [exact IH |].
      apply (Permutation_Forall (Permutation_sym (insert_sorted_perm x r))).
      constructor; [| exact Hy].
      destruct (le_total x y) as [H | H]; [congruence | exact H].
Qed.

Lemma stable_sort_sorted (l : list A) :
  StronglySorted (fun a b => le a b = true) (stable_sort le l).
Proof.
  induction l as [|x r IH]; simpl; [constructor | now apply insert_sorted_sorted].
Qed.

Hypothesis le_antisym : forall a b, le a b = true -> le b a = true -> a = b.

(** A set has one sorted listing without repetition. *)
Lemma sorted_unique (l1 l2 : list A) :
  StronglySorted (fun a b => le a b = true) l1 ->
  StronglySorted (fun a b => le a b = true) l2 ->
  NoDup l1 -> NoDup l2 ->
  (forall x, In x l1 <-> In x l2) ->
  l1 = l2.
Proof.
  intros S1. revert l2. induction S1 as [|a r1 Hr1 IH Ha]; intros l2 S2 N1 N2 Hsame.
  - destruct l2 as [|b r2]; [reflexivity |].
    exfalso. apply (proj2 (Hsame b)). now left.
  - destruct l2 as [|b r2]; [exfalso; apply (proj1 (Hsame a)); now left |].
    apply StronglySorted_inv in S2. destruct S2 as [Hr2 Hb].
    inversion N1 as [|? ? Na N1']; subst. inversion N2 as [|? ? Nb N2']; subst.
    rewrite Forall_forall in Ha, Hb.
    assert (Hab : a = b).
    { destruct (proj1 (Hsame a) (or_introl eq_refl)) as [E | Ha2]; [now symmetry |].
      destruct (proj2 (Hsame b) (or_introl eq_refl)) as [E | Hb1]; [exact E |].
      apply le_antisym; auto. }
    subst b. f_equal. apply IH; auto.
    intros x. split; intros Hx.
    + destruct (proj1 (Hsame x) (or_intror Hx)) as [E | H]; [subst; contradiction | exact H].
    + destruct (proj2 (Hsame x) (or_intror Hx)) as [E | H]; [subst; contradiction | exact H].
Qed.

End SortFacts.

(** [String.leb], the order of [sorted] on [str], is transitive. *)
Lemma string_leb_trans (a b c : string) :
  String.leb a b = true -> String.leb b c = true -> String.leb a c = true.
Proof.
  unfold String.leb. revert b c.
  induction a as [|x a' IH]; intros [|y b'] [|z c']; simpl; try easy.
  unfold Ascii.compare.
  destruct (N.compare_spec (N_of_ascii x) (N_of_ascii y)) as [Exy | Lxy | Gxy];
    destruct (N.compare_spec (N_of_ascii y) (N_of_ascii z)) as [Eyz | Lyz | Gyz];
    destruct (N.compare_spec (N_of_ascii x) (N_of_ascii z)) as [Exz | Lxz | Gxz];
    try easy; try lia.
  apply IH.
Qed.

Lemma sorted_header (l : list string) :
  NoDup l ->
  listed_ascending (stable_sort String.leb l)
  /\ forall x, In x (stable_sort String.leb l) <-> In x l.
Proof.
  intros Hnd. pose proof (stable_sort_perm String.leb l) as Hp. split; [split |].
  - apply stable_sort_sorted; [apply String.leb_total | apply string_leb_trans].
  - eapply Permutation_NoDup; [apply Permutation_sym; exact Hp | exact Hnd].
  - intros x. split; apply Permutation_in; [exact Hp | now apply Permutation_sym].
Qed.

Lemma listed_ascending_unique (l1 l2 : list string) :
  listed_ascending l1 -> listed_ascending l2 -> (forall x, In x l1 <-> In x l2) -> l1 = l2.
Proof.
  intros [S1 N1] [S2 N2] H.
  eapply sorted_unique; eauto using String.leb_antisym.
Qed.

(** ** The tag report *)

Lemma append_new_In (xs h : list string) (x : string) :
  In x (append_new xs h) <-> In x xs \/ In x h.
Proof.
  revert h. induction xs as [|y r IH]; intros h; simpl; [tauto |].
  rewrite IH. destruct (str_in y h) eqn:E.
  - apply str_in_In in E. split; [tauto |]. intros [[<- | H] | H]; auto.
  - rewrite in_app_iff. simpl. tauto.
Qed.

Lemma append_new_NoDup (xs h : list string) : NoDup h -> NoDup (append_new xs h).
Proof.
  revert h. induction xs as [|y r IH]; intros h Hnd; simpl; [exact Hnd |].
  apply IH. destruct (str_in y h) eqn:E; [exact Hnd |].
  apply NoDup_app; [exact Hnd | repeat constructor; intros [] |].
  intros x Hx [<- | []]. apply str_in_In in Hx. congruence.
Qed.

Lemma nonempty_nil {A} (l : list A) : nonempty l = false -> l = [].
Proof. destruct l; [reflexivity | discriminate]. Qed.

Lemma collect_topic_header (h : list string) (tt : list (string * TopicTags))
      (tp : Topic) :
  NoDup h ->
  NoDup (fst (collect_topic (h, tt) tp))
  /\ forall x, In x (fst (collect_topic (h, tt) tp)) <-> In x h \/ observed x [tp].
Proof.
  intros Hnd. unfold collect_topic, observed.
  destruct (related_point tp) as [p|] eqn:Hp; cbn [fst].
  - split.
    + destruct (nonempty (kv_tags p)), (nonempty (m_tags p));
        repeat apply append_new_NoDup; exact Hnd.
    + intros x.
      assert (Hobs : (exists tp0 p0, In tp0 [tp] /\ related_point tp0 = Some p0
                        /\ (In x (map fst (kv_tags p0)) \/ In x (m_tags p0)))
                     <-> In x (map fst (kv_tags p)) \/ In x (m_tags p)).
      { split.
        - intros [tp0 [p0 [[<- | []] [E H]]]]. congruence.
        - intros H. exists tp, p. simpl. auto. }
      rewrite Hobs.
      destruct (nonempty (kv_tags p)) eqn:Ekv, (nonempty (m_tags p)) eqn:Em;
        rewrite ?append_new_In;
        try (apply nonempty_nil in Ekv; rewrite Ekv);
        try (apply nonempty_nil in Em; rewrite Em); simpl; tauto.
  - split; [exact Hnd |]. intros x. split; [tauto |].
    intros [H | [tp0 [p0 [[<- | []] [E _]]]]]; [exact H | congruence].
Qed.

Lemma observed_cons (x : string) (tp : Topic) (topics : list Topic) :
  observed x (tp :: topics) <-> observed x [tp] \/ observed x topics.
Proof.
  unfold observed. split.
  - intros [tp0 [p [[E | Hin] H]]]; [left | right]; exists tp0, p; simpl; tauto.
  - intros [[tp0 [p [[E | []] H]]] | [tp0 [p [Hin H]]]]; exists tp0, p; simpl; tauto.
Qed.

Lemma fold_collect_header (topics : list Topic) :
  forall h tt,
    NoDup h ->
    NoDup (fst (fold_left collect_topic topics (h, tt)))
    /\ forall x, In x (fst (fold_left collect_topic topics (h, tt)))
                 <-> In x h \/ observed x topics.
Proof.
  induction topics as [|tp r IH]; intros h tt Hnd; cbn [fold_left].
  - cbn [fst]. split; [exact Hnd |]. intros x. split; [tauto |].
    intros [H | [tp0 [p [[] _]]]]. exact H.
  - destruct (collect_topic_header h tt tp Hnd) as [Hnd1 Hin1].
    destruct (collect_topic (h, tt) tp) as [h1 tt1] eqn:E. cbn [fst] in Hnd1, Hin1.
    destruct (IH h1 tt1 Hnd1) as [Hnd2 Hin2]. split; [exact Hnd2 |].
    intros x. rewrite (observed_cons x tp r), Hin2, Hin1. tauto.
Qed.

Lemma observed_perm (x : string) (t1 t2 : list Topic) :
  Permutation t1 t2 -> observed x t1 -> observed x t2.
Proof.
  intros Hp [tp [p [Hin H]]]. exists tp, p. split; [| exact H].
  eapply Permutation_in; eassumption.
Qed.

(** The header of the report over [topics], without its first column. *)
Lemma report_header_spec (topics : list Topic) :
  exists h,
    snd (get_topics_tags_report topics) = "topic" :: h
    /\ listed_ascending h
    /\ forall x, In x h <-> observed x topics.
Proof.
  unfold get_topics_tags_report.
  destruct (fold_collect_header topics [] [] (NoDup_nil _)) as [Hnd Hin].
  destruct (fold_left collect_topic topics ([], [])) as [h0 tt0]. cbn [fst snd] in *.
  destruct (sorted_header h0 Hnd) as [Hasc Hsame].
  exists (stable_sort String.leb h0). split; [reflexivity |]. split; [exact Hasc |].
  intros x. rewrite Hsame, Hin. simpl. tauto.
Qed.

(** C8. The header returned by [get_topics_tags_report] is ["topic"] followed
    by a list that is in ascending order of [str], has no repetition, and
    whose members are exactly the keys of [kv_tags] and the members of
    [m_tags] of the related points of the topics.  Two topic lists in which
    the same tags are observed, in whatever order the topics come, give the
    same header. *)
Theorem header_is_sorted_union_of_tags :
  forall topics : list Topic,
    (exists h,
        snd (get_topics_tags_report topics) = "topic" :: h
        /\ listed_ascending h
        /\ forall x, In x h <-> observed x topics)
    /\ forall topics' : list Topic,
        (forall x, observed x topics <-> observed x topics') ->
        snd (get_topics_tags_report topics') = snd (get_topics_tags_report topics).
Proof.
  intros topics. split; [apply report_header_spec |].
  intros topics' Hsame.
  destruct (report_header_spec topics) as [h [-> [Hasc Hin]]].
  destruct (report_header_spec topics') as [h' [-> [Hasc' Hin']]].
  f_equal. apply listed_ascending_unique; [assumption | assumption |].
  intros x. rewrite Hin, Hin'. symmetry. apply Hsame.
Qed.

Lemma header_is_sorted_union_of_tags_witness :
  snd (get_topics_tags_report [topic_B; topic_C; topic_A])
  = snd (get_topics_tags_report [topic_A; topic_B]).
Proof.
  apply (proj2 (header_is_sorted_union_of_tags [topic_A; topic_B])
               [topic_B; topic_C; topic_A]).
  intros x. split; intros [tp [p [Hin H]]]; exists tp, p; (split; [| exact H]).
  - simpl in Hin. simpl. tauto.
  - simpl in Hin. destruct Hin as [<- | [<- | [<- | []]]]; simpl; auto.
    destruct H as [H _]. discriminate H.
Defined.

Lemma dict_get_set_inv {V} (k n : string) (v v' : V) (d : list (string * V)) :
  dict_get k (dict_set n v d) = Some v' ->
  (k = n /\ v' = v) \/ dict_get k d = Some v'.
Proof.
  destruct (String.eqb_spec k n) as [-> | Hne].
  - rewrite dict_get_set_same. intros [= <-]. now left.
  - rewrite dict_get_set_other by exact Hne. now right.
Qed.

Lemma collect_topic_tags (h : list string) (tt : list (string * TopicTags))
      (tp : Topic) (k : string) (v : TopicTags) :
  dict_get k (snd (collect_topic (h, tt) tp)) = Some v ->
  dict_get k tt = Some v
  \/ (tags_stored v = true /\ t_topic tp = k /\ tagged tp).
Proof.
  unfold collect_topic, tagged.
  destruct (related_point tp) as [p|]; cbn [snd]; [| now left].
  fold (has_tags p). destruct (has_tags p) eqn:Ht; [| now left].
  intros H. apply dict_get_set_inv in H. destruct H as [[-> ->] | H]; [right | now left].
  split; [| split; [reflexivity | eauto]].
  unfold tags_stored, has_tags in *. cbn [tt_kv_tags tt_m_tags].
  destruct (kv_tags p), (m_tags p); simpl in *; congruence.
Qed.

Lemma fold_collect_tags (topics : list Topic) :
  forall h tt k v,
    dict_get k (snd (fold_left collect_topic topics (h, tt))) = Some v ->
    dict_get k tt = Some v
    \/ (tags_stored v = true
        /\ exists tp, In tp topics /\ t_topic tp = k /\ tagged tp).
Proof.
  induction topics as [|tp r IH]; intros h tt k v H; cbn [fold_left] in H.
  - now left.
  - destruct (collect_topic (h, tt) tp) as [h1 tt1] eqn:E.
    destruct (IH _ _ _ _ H) as [H1 | [Hs [tp' [Hin Htp']]]].
    + pose proof (collect_topic_tags h tt tp k v) as Hc. rewrite E in Hc.
      destruct (Hc H1) as [H0 | [Hs [Hk Ht]]]; [now left | right].
      split; [exact Hs |]. exists tp. simpl. auto.
    + right. split; [exact Hs |]. exists tp'. simpl. tauto.
Qed.

Lemma report_row_length (h : list string) (tt : list (string * TopicTags)) (tp : Topic) :
  (forall v, dict_get (t_topic tp) tt = Some v -> tags_stored v = true) ->
  List.length (report_row h tt tp) = S (List.length h).
Proof.
  intros Hok. unfold report_row.
  destruct (dict_get (t_topic tp) tt) as [v|].
  - specialize (Hok v eq_refl). unfold tags_stored in Hok.
    destruct (tt_kv_tags v) as [kv|], (tt_m_tags v) as [m|];
      try rewrite Hok; simpl; rewrite ?length_map, ?repeat_length; reflexivity.
  - simpl. now rewrite repeat_length.
Qed.

Lemma report_row_blank (h : list string) (tt : list (string * TopicTags)) (tp : Topic) :
  dict_get (t_topic tp) tt = None ->
  report_row h tt tp = t_topic tp :: repeat "" (List.length h).
Proof. unfold report_row. intros ->. reflexivity. Qed.

Lemma NoDup_map_injective {A B} (f : A -> B) (l : list A) (a b : A) :
  NoDup (map f l) -> In a l -> In b l -> f a = f b -> a = b.
Proof.
  induction l as [|x r IH]; simpl; [tauto |].
  intros Hnd Ha Hb E. inversion Hnd as [|? ? Hx Hr]; subst.
  destruct Ha as [<- | Ha], Hb as [<- | Hb]; auto.
  - exfalso. apply Hx. rewrite E. now apply in_map.
  - exfalso. apply Hx. rewrite <- E. now apply in_map.
Qed.

Lemma untagged_not_tagged (tp : Topic) : untagged tp -> ~ tagged tp.
Proof.
  unfold untagged, tagged. intros Hu [p [E Ht]]. rewrite E in Hu. congruence.
Qed.

(** C10. The report has one row per topic, and every row has exactly as many
    entries as the header.  When the topic names are distinct (the name is
    the key of the table), the row of a topic that has no related point, or
    whose point has no tag, is its name followed by the empty string in each
    of the other columns. *)
Theorem report_rows_match_header :
  forall topics : list Topic,
    let rows := fst (get_topics_tags_report topics) in
    let header := snd (get_topics_tags_report topics) in
    List.length rows = List.length topics
    /\ (forall row, In row rows -> List.length row = List.length header)
    /\ (NoDup (map t_topic topics) ->
        forall i tp,
          nth_error topics i = Some tp ->
          untagged tp ->
          nth_error rows i
          = Some (t_topic tp :: repeat "" (List.length header - 1))).
Proof.
  intros topics. unfold get_topics_tags_report.
  pose proof (fold_collect_tags topics [] []) as Htags.
  destruct (fold_left collect_topic topics ([], [])) as [h0 tt0].
  cbn [fst snd] in *. split; [apply length_map |]. split.
  - intros row Hrow. apply in_map_iff in Hrow. destruct Hrow as [tp [<- Hin]].
    simpl. apply report_row_length. intros v Hv.
    destruct (Htags _ _ Hv) as [H | [H _]]; [discriminate | exact H].
  - intros Hnd i tp Hi Hun.
    rewrite nth_error_map, Hi. simpl. f_equal. rewrite Nat.sub_0_r.
    apply report_row_blank.
    destruct (dict_get (t_topic tp) tt0) as [v|] eqn:Hv; [| reflexivity].
    exfalso. destruct (Htags _ _ Hv) as [H | [_ [tp' [Hin [Hname Ht]]]]]; [discriminate |].
    assert (tp' = tp).
    { eapply NoDup_map_injective; eauto. eapply nth_error_In; eassumption. }
    subst tp'. exact (untagged_not_tagged tp Hun Ht).
Qed.

Lemma report_rows_match_header_witness :
  nth_error (fst (get_topics_tags_report [topic_A; topic_B; topic_C; topic_D])) 2
  = Some ["C"; ""; ""]
  /\ nth_error (fst (get_topics_tags_report [topic_A; topic_B; topic_C; topic_D])) 3
     = Some ["D"; ""; ""].
Proof.
  pose proof (proj2 (proj2
    (report_rows_match_header [topic_A; topic_B; topic_C; topic_D]))) as H.
  assert (Hnd : NoDup (map t_topic [topic_A; topic_B; topic_C; topic_D])).
  { simpl. repeat constructor; simpl; intuition discriminate. }
  split.
  - exact (H Hnd 2%nat topic_C eq_refl I).
  - exact (H Hnd 3%nat topic_D eq_refl eq_refl).
Defined.

(** Two rows of the table under one name: the name is not a key, and the row
    of the topic without a point shows the tags stored under the name. *)
Example same_name_rows :
  fst (get_topics_tags_report [topic_A; mkTopic "A" None])
  = [["A"; "X"]; ["A"; "X"]].
Proof. reflexivity. Qed.

(** * Further properties of [utils.py] *)

(** ** [format_epoch] and [get_current_value_dict] *)



Lemma bool_text_test (s : string) :
  String.eqb s "t" || negb (String.eqb s "0") = negb (String.eqb s "0").
Proof.
  destruct (String.eqb_spec s "t") as [-> | _]; [reflexivity |].
  reflexivity.
Qed.

(** X2. For a point of kind Bool that has a reading,
    [get_current_value_dict] returns a dict whose ['value'] is [False] only
    when the stored text is ["0"]: any other text and NULL give [True].  The
    dict carries the timestamp of the reading and never a ['unit']. *)
Theorem bool_value_false_only_for_zero :
  forall (store_latest : string -> result (option (Z * option string)))
         (isoformat strftime : Z -> string)
         (format_1f : option string -> option string)
         (point : PointView) (connection : option nat) (w : World) (d : ValueDict),
    kind point = "Bool" ->
    fst (get_current_value_dict store_latest isoformat strftime format_1f
                                point connection w) = Ok (Some d) ->
    exists ts sv,
      store_latest (topic point) = Ok (Some (ts, sv))
      /\ v_value d = DBool (negb (opt_eqb sv "0"))
      /\ v_epoch d = ts
      /\ v_unit d = None.
Proof.
  intros store_latest isoformat strftime format_1f point connection w d Hkind.
  unfold get_current_value_dict.
  destruct connection as [c|];
    cbv [bind ret lift get_crate_connection connection_close];
    (destruct (store_latest (topic point)) as [[[ts sv]|]|e]; cbn [fst];
     [| discriminate | discriminate]);
    (destruct (format_epoch isoformat strftime ts) as [t|e]; cbn [fst];
     [| discriminate]);
    rewrite Hkind; cbn [String.eqb Ascii.eqb Bool.eqb fst];
    intros [= <-]; exists ts, sv; cbn [v_value v_epoch v_unit];
    (split; [reflexivity |]); (split; [| split; reflexivity]);
    (destruct sv as [s|]; [cbn [opt_eqb]; now rewrite bool_text_test | reflexivity]).
Qed.

Lemma bool_value_false_only_for_zero_witness :
  exists ts sv,
    latest_72 (topic d_bool) = Ok (Some (ts, sv))
    /\ DBool true = DBool (negb (opt_eqb sv "0"))
    /\ 1000 = ts
    /\ @None string = None.
Proof.
  exact (bool_value_false_only_for_zero latest_72 iso0 fmt0 float0 d_bool None w0
           (mkValueDict (DBool true) 1000 "" "" None) eq_refl eq_refl).
Defined.

(** X3. [get_current_value_dict] never closes a connection it was given:
    the call leaves the world as it was.  When it opens its own connection,
    the connection is closed as soon as the query has returned, with or
    without a row and before the timestamp is formatted; when the query
    raises, the connection stays open. *)
Theorem value_dict_connection :
  forall (store_latest : string -> result (option (Z * option string)))
         (isoformat strftime : Z -> string)
         (format_1f : option string -> option string)
         (point : PointView) (w : World),
    (forall c, snd (get_current_value_dict store_latest isoformat strftime format_1f
                                           point (Some c) w) = w)
    /\ match store_latest (topic point) with
       | Raise e =>
           get_current_value_dict store_latest isoformat strftime format_1f
                                  point None w = (Raise e, after_connect w)
       | Ok _ =>
           snd (get_current_value_dict store_latest isoformat strftime format_1f
                                       point None w) = after_call w
       end.
Proof.
  intros store_latest isoformat strftime format_1f point w. split.
  - intros c. apply value_dict_given_world.
  - unfold get_current_value_dict.
    cbv [bind ret lift get_crate_connection connection_close].
    destruct (store_latest (topic point)) as [[[ts sv]|]|e]; cbn [snd].
    + assert (Hw : mkWorld (reads w) (S (next_conn w))
                     (filter (fun c' => negb (Nat.eqb c' (next_conn w)))
                             (next_conn w :: open_conns w)) = after_call w).
      { unfold after_call. cbn [filter]. now rewrite Nat.eqb_refl. }
      cbn [reads next_conn open_conns]. rewrite Hw.
      destruct (format_epoch isoformat strftime ts); [| reflexivity].
      destruct (String.eqb (kind point) "Bool"); [reflexivity |].
      destruct (unit_truthy (unit point)); reflexivity.
    + cbn [reads next_conn open_conns filter]. rewrite Nat.eqb_refl. reflexivity.
    + reflexivity.
Qed.

(** ** [get_current_value] and [add_current_values] *)

Section DecorationFacts.

Variable store_latest : string -> result (option (Z * option string)).
Variable isoformat : Z -> string.
Variable strftime : Z -> string.
Variable format_1f : option string -> option string.
Variable format_html : string -> result string.

Let value := get_current_value store_latest isoformat strftime format_1f format_html.
Let add_value := add_current_value store_latest isoformat strftime format_1f format_html.
Let add_values := add_current_values store_latest isoformat strftime format_1f format_html.

(** With a connection supplied, [get_current_value] leaves the world as it
    is; what it returns with [raw] is a dict, without [raw] a rendered text. *)
Lemma value_given (point : PointView) (c : nat) (raw : bool) (w : World) :
  snd (value point (Some c) raw w) = w
  /\ forall cv, fst (value point (Some c) raw w) = Ok (Some cv) ->
                if raw then exists d, cv = CvDict d else exists s, cv = CvHtml s.
Proof.
  unfold value, get_current_value. unfold bind.
  pose proof (value_dict_given_world store_latest isoformat strftime format_1f
                                     point c w) as Hw.
  destruct (get_current_value_dict store_latest isoformat strftime format_1f
                                   point (Some c) w) as [[[d|]|e] w1];
    cbn [snd] in Hw; subst w1.
  - destruct raw.
    + cbv [ret]. cbn [fst snd]. split; [reflexivity |]. intros cv [= <-]. eauto.
    + destruct (String.eqb (kind point) "Bool");
        [| destruct (unit_truthy (unit point))];
        unfold bind, lift, ret;
        match goal with |- context [format_html ?x] => destruct (format_html x) end;
        cbn [fst snd]; (split; [reflexivity |]); intros cv H;
        try discriminate; injection H as <-; eauto.
  - cbv [ret]. cbn [fst snd]. split; [reflexivity | discriminate].
  - cbn [fst snd]. split; [reflexivity | discriminate].
Qed.

Lemma add_value_given (c : nat) (raw : bool) (d : PointView) (w : World) :
  snd (add_value c raw d w) = w
  /\ forall b, fst (add_value c raw d w) = Ok b ->
               exists cv, b = set_current_value d cv /\ stored_value raw cv.
Proof.
  unfold add_value, add_current_value, bind.
  destruct (value_given d c raw w) as [Hw Hcv]. unfold value in Hw, Hcv.
  destruct (get_current_value store_latest isoformat strftime format_1f format_html
                              d (Some c) raw w) as [[cv|e] w1];
    cbn [fst snd] in *; subst w1; (split; [reflexivity |]); [| discriminate].
  intros b [= <-]. eexists. split; [reflexivity |].
  destruct cv as [cv|]; [specialize (Hcv cv eq_refl) |].
  - unfold stored_value. destruct raw.
    + destruct Hcv as [d' ->]. cbn. eauto.
    + destruct Hcv as [s ->]. cbn [cv_falsy].
      destruct s as [|a s']; cbn; [now right | left].
      eexists. split; [reflexivity | discriminate].
  - unfold stored_value. destruct raw; cbn; now right.
Qed.

(** A loop whose body leaves the world as it is leaves it as it is, whether
    it ends or raises. *)
Lemma for_each_world {A B} (f : A -> M B) (l : list A) :
  (forall a w, snd (f a w) = w) ->
  forall w, snd (for_each f l w) = w.
Proof.
  intros Hf. induction l as [|a r IH]; intros w; cbn [for_each]; [reflexivity |].
  unfold bind at 1. specialize (Hf a w).
  destruct (f a w) as [[b|e] w1]; cbn [snd] in Hf; subst w1; [| reflexivity].
  unfold bind at 1. specialize (IH w).
  destruct (for_each f r w) as [[bs|e] w1]; cbn [snd] in IH; subst w1; reflexivity.
Qed.

Lemma for_each_each {A B} (f : A -> M B) (P : A -> B -> Prop) (l : list A) :
  (forall a w b, fst (f a w) = Ok b -> P a b) ->
  forall w out, fst (for_each f l w) = Ok out -> Forall2 P l out.
Proof.
  intros Hf. induction l as [|a r IH]; intros w out; cbn [for_each].
  - intros [= <-]. constructor.
  - unfold bind at 1. specialize (Hf a w).
    destruct (f a w) as [[b|e] w1]; cbn [fst] in *; [| discriminate].
    unfold bind at 1. specialize (IH w1).
    destruct (for_each f r w1) as [[bs|e] w2]; cbn [fst] in *; [| discriminate].
    intros [= <-]. constructor; auto.
Qed.

Lemma add_values_outcome (data : list PointView) (raw : bool) (w : World) :
  match add_values data raw w with
  | (Ok out, w') =>
      Forall2 (fun d b => exists cv, b = set_current_value d cv /\ stored_value raw cv)
              data out
      /\ w' = after_call w
  | (Raise _, w') => w' = after_connect w
  end.
Proof.
  unfold add_values, add_current_values. unfold bind at 1.
  cbv [get_crate_connection]. cbv beta iota. fold (after_connect w).
  unfold bind at 1.
  pose proof (for_each_world (add_value (next_conn w) raw) data
                (fun a w0 => proj1 (add_value_given (next_conn w) raw a w0))
                (after_connect w)) as Hw.
  pose proof (for_each_each (add_value (next_conn w) raw)
                (fun d b => exists cv, b = set_current_value d cv /\ stored_value raw cv)
                data
                (fun a w0 => proj2 (add_value_given (next_conn w) raw a w0))
                (after_connect w)) as Hout.
  unfold add_value in Hw, Hout.
  destruct (for_each _ data (after_connect w)) as [[out|e] w1];
    cbn [fst snd] in *; subst w1; [| reflexivity].
  cbv [bind connection_close ret]. split; [now apply Hout |].
  unfold after_call, after_connect. cbn [reads next_conn open_conns filter].
  now rewrite Nat.eqb_refl.
Qed.

End DecorationFacts.

(** X4. [add_current_values] returns one point per point given, in the same
    order, each the given point with only [current_value] set; the value set
    is never empty text: with [raw] a dict (the reading, or [{}]), without it
    a rendered text that is not empty, or ['N/A'].  The whole list shares
    one connection, closed on return and left open when a lookup raises. *)
Theorem add_current_values_decorates_each :
  forall (store_latest : string -> result (option (Z * option string)))
         (isoformat strftime : Z -> string)
         (format_1f : option string -> option string)
         (format_html : string -> result string)
         (data : list PointView) (raw : bool) (w : World),
    match add_current_values store_latest isoformat strftime format_1f format_html
                             data raw w with
    | (Ok out, w') =>
        Forall2 (fun d b => exists cv, b = set_current_value d cv /\ stored_value raw cv)
                data out
        /\ w' = after_call w
    | (Raise _, w') => w' = after_connect w
    end.
Proof. intros. apply add_values_outcome. Qed.

(** An empty rendering is replaced by the marker. *)
Example empty_rendering_is_no_data :
  fst (add_current_values latest_72 iso0 fmt0 float0 (fun _ => Ok "") [d0] false w0)
  = Ok [set_current_value d0 CvNA].
Proof. vm_compute. reflexivity. Qed.

(** ** The keys of [get_ahu_current_values] *)

Lemma dict_set_fresh {V} (k : string) (v : V) (d : list (string * V)) :
  ~ In k (map fst d) -> dict_set k v d = (d ++ [(k, v)])%list.
Proof.
  induction d as [|[k' v'] r IH]; intros Hk; simpl; [reflexivity |].
  destruct (String.eqb_spec k' k) as [-> | Hne].
  - exfalso. apply Hk. now left.
  - rewrite IH; [reflexivity |]. intros Hin. apply Hk. now right.
Qed.

Section RoleKeyFacts.

Variable store_latest : string -> result (option (Z * option string)).
Variable isoformat : Z -> string.
Variable strftime : Z -> string.
Variable format_1f : option string -> option string.
Variable format_html : string -> result string.

Let role := ahu_role store_latest isoformat strftime format_1f format_html.

(** What one turn of the loop does to [results]. *)
Lemma ahu_role_shape (dp : list PointView) (results r1 : list (string * PointView))
      (n : string) (t : RoleQuery) (w w1 : World) :
  role dp results (n, t) w = (Ok r1, w1) ->
  if nonempty (role_points dp t)
  then exists p0 cv,
      In p0 (role_points dp t) /\ stored_value true cv
      /\ r1 = dict_set n (set_current_value p0 cv) results
  else r1 = results.
Proof.
  unfold role, ahu_role. intros H.
  destruct (role_points dp t) as [|a l] eqn:Hc; cbn [nonempty].
  - cbv [ret] in H. now injection H as <- _.
  - destruct (selected_head (a :: l)) as [p0 [rest [Hs [Hin _]]]]; [discriminate |].
    rewrite Hs in H. unfold bind in H.
    pose proof (add_values_outcome store_latest isoformat strftime format_1f
                  format_html [p0] true w) as Hadd.
    destruct (add_current_values _ _ _ _ _ [p0] true w) as [[out|e] w2];
      [| discriminate].
    destruct Hadd as [Hout _].
    inversion Hout as [|x b l1 l2 [cv [-> Hcv]] Hrest]; subst.
    inversion Hrest; subst.
    cbv [ret] in H. injection H as <- _. exists p0, cv. auto.
Qed.

Lemma fold_role_keys (dp : list PointView) (Q : PointView -> Prop)
      (cat : list (string * RoleQuery)) :
  (forall p0 cv, In p0 dp -> stored_value true cv -> Q (set_current_value p0 cv)) ->
  (forall t p, In p (role_points dp t) -> In p dp) ->
  NoDup (map fst cat) ->
  forall results r w w',
    (forall k, In k (map fst cat) -> ~ In k (map fst results)) ->
    fold_m (role dp) results cat w = (Ok r, w') ->
    map fst r
    = (map fst results
       ++ map fst (filter (fun nt => nonempty (role_points dp (snd nt))) cat))%list
    /\ (Forall (fun np => Q (snd np)) results -> Forall (fun np => Q (snd np)) r).
Proof.
  intros HQ Hincl.
  induction cat as [|[n0 t0] rest IH]; intros Hnd results r w w' Hfresh H.
  - cbn [fold_m] in H. cbv [ret] in H. injection H as <- _.
    cbn. rewrite app_nil_r. auto.
  - cbn [fold_m] in H. unfold bind at 1 in H.
    destruct (role dp results (n0, t0) w) as [[r1|e] w1] eqn:Hstep; [| discriminate].
    apply ahu_role_shape in Hstep.
    inversion Hnd as [|? ? Hnotin Hnd']; subst.
    cbn [filter snd].
    destruct (nonempty (role_points dp t0)).
    + destruct Hstep as [p0 [cv [Hin [Hcv ->]]]].
      rewrite dict_set_fresh in H by (apply Hfresh; now left).
      assert (Hfresh' : forall k, In k (map fst rest) ->
                ~ In k (map fst (results ++ [(n0, set_current_value p0 cv)])%list)).
      { intros k Hk. rewrite map_app, in_app_iff. cbn. intros [Hin' | [<- | []]].
        - apply (Hfresh k); [now right | exact Hin'].
        - contradiction. }
      destruct (IH Hnd' _ _ _ _ Hfresh' H) as [Hkeys Hall].
      split.
      * rewrite Hkeys, map_app. cbn. now rewrite <- app_assoc.
      * intros Hres. apply Hall. apply Forall_app. split; [exact Hres |].
        constructor; [| constructor]. cbn. apply HQ; eauto.
    + subst r1. apply (IH Hnd' _ _ _ _ (fun k Hk => Hfresh k (or_intror Hk)) H).
Qed.

End RoleKeyFacts.

(** X5. The dict returned by [get_ahu_current_values] has exactly the roles
    of the catalog that have a candidate, in the order of the catalog, each
    once.  Every value is a point of the equipment asked for, whose
    [current_value] is a raw dict: the reading, or [{}] when there is none. *)
Theorem ahu_result_keys :
  forall (store_latest : string -> result (option (Z * option string)))
         (isoformat strftime : Z -> string)
         (format_1f : option string -> option string)
         (format_html : string -> result string)
         (objects : list PointView) (equipment_id_ : string)
         (w w' : World) (results : list (string * PointView)),
    get_ahu_current_values store_latest isoformat strftime format_1f format_html
                           objects equipment_id_ w = (Ok results, w') ->
    map fst results
    = map fst (filter (fun nt => nonempty (candidates objects equipment_id_ (snd nt))) q)
    /\ Forall (fun np => equipment_id (snd np) = equipment_id_
                         /\ exists cv, current_value (snd np) = Some cv
                                       /\ stored_value true cv) results.
Proof.
  intros store_latest isoformat strftime format_1f format_html objects equipment_id_
         w w' results Hrun.
  unfold get_ahu_current_values in Hrun.
  pose (dp := filter (fun p => String.eqb (equipment_id p) equipment_id_) objects).
  fold dp in Hrun.
  destruct (fold_role_keys store_latest isoformat strftime format_1f format_html dp
              (fun p => equipment_id p = equipment_id_
                        /\ exists cv, current_value p = Some cv /\ stored_value true cv)
              q) with (results := @nil (string * PointView)) (r := results)
                      (w := w) (w' := w') as [Hkeys Hall].
  - intros p0 cv Hin Hcv. cbn. split; [| eauto].
    apply filter_In in Hin. destruct Hin as [_ E]. now apply String.eqb_eq.
  - intros t p Hin. unfold role_points in Hin.
    destruct (exclude t);
      [apply filter_In in Hin; destruct Hin as [Hin _] |];
      apply filter_In in Hin; destruct Hin as [Hin _]; exact Hin.
  - apply q_names_distinct.
  - intros k _ [].
  - exact Hrun.
  - split; [exact Hkeys | apply Hall; constructor].
Qed.

Lemma ahu_result_keys_witness :
  map fst [("Return Air Temp", set_current_value p_six reading_72)]
  = map fst (filter (fun nt => nonempty (candidates ahu_points "ahu1" (snd nt))) q).
Proof.
  refine (proj1 (ahu_result_keys latest_72 iso0 fmt0 float0 html0 ahu_points "ahu1"
                   w0 (mkWorld 0 1 []) _ _)).
  vm_compute. reflexivity.
Defined.

(** ** More on [get_point_values] *)

(** When an earlier rule of the grammar matches, the bounds do not depend on
    the date parser, and a failure is that of [int] or of the date
    arithmetic. *)
Lemma resolve_without_parser (utcnow_at : nat -> Z) (interp : PyStr.Interpreter)
      (parse1 parse2 : string -> result Z) (trange : string) (w : World) :
  explicit_form trange = false ->
  resolve_range utcnow_at interp parse1 trange w = resolve_range utcnow_at interp parse2 trange w
  /\ forall e, fst (resolve_range utcnow_at interp parse1 trange w) = Raise e ->
               e = ValueError \/ e = OverflowError.
Proof.
  unfold explicit_form. intros Hex.
  unfold resolve_range. rewrite !(utcnow_bind utcnow_at).
  cbn [reads next_conn open_conns]. cbv beta.
  unfold PyTime.timedelta_days, PyTime.timedelta_hours, PyTime.timedelta_minutes,
    PyTime.timedelta, PyTime.sub.
  repeat match goal with
         | |- context [if String.eqb ?a trange then _ else _] =>
             destruct (String.eqb a trange)
         | |- context [if PyStr.ends_with ?n ?s trange then _ else _] =>
             destruct (PyStr.ends_with n s trange)
         end;
    try discriminate Hex;
    repeat (cbv [bind lift ret raise]; cbv beta iota;
            match goal with
            | |- context [match PyStr.int ?o ?x with _ => _ end] => destruct (PyStr.int o x)
            | |- context [if ?b then Ok ?x else Raise ?e] => destruct b
            end);
    cbv [bind lift ret raise]; cbn [fst];
    (split; [reflexivity
            | intros e He; first [discriminate He | injection He as <-; auto]]).
Qed.

Lemma length_string_of_list_ascii (l : list ascii) :
  String.length (string_of_list_ascii l) = List.length l.
Proof.
  rewrite <- length_list_ascii, list_ascii_of_string_of_list_ascii. reflexivity.
Qed.

(** A suffix rule fires only on a text that is longer than its suffix. *)
Lemma ends_with_split (k : nat) (suf s : string) :
  PyStr.ends_with k suf s = true -> exists pre, pre <> "" /\ s = pre ++ suf.
Proof.
  unfold PyStr.ends_with. intros H. apply andb_true_iff in H. destruct H as [Hlen Heq].
  apply Nat.ltb_lt in Hlen. apply String.eqb_eq in Heq.
  exists (PyStr.drop_last_n k s). split.
  - intros E. apply (f_equal String.length) in E. revert E.
    unfold PyStr.drop_last_n. rewrite length_string_of_list_ascii, length_firstn.
    unfold PyStr.len in Hlen. rewrite length_list_ascii. simpl. lia.
  - rewrite Heq. unfold PyStr.drop_last_n, PyStr.last_n.
    rewrite <- string_of_list_ascii_app, firstn_skipn.
    symmetry. apply string_of_list_ascii_of_string.
Qed.

(** The tokens that an earlier rule of the grammar takes, by their shape. *)
Lemma relative_form_spec (trange : string) :
  explicit_form trange = false <-> relative_form trange.
Proof.
  unfold explicit_form, relative_form. split.
  - intros H.
    destruct (String.eqb_spec "today" trange) as [E | _];
      [left; symmetry; exact E |].
    destruct (String.eqb_spec "yesterday" trange) as [E | _];
      [right; left; symmetry; exact E |].
    right; right.
    destruct (PyStr.ends_with 7 " months" trange) eqn:E1;
      [destruct (ends_with_split _ _ _ E1) as [pre [Hp ->]];
       exists pre, " months"; split; [exact Hp | split; [simpl; tauto | reflexivity]] |].
    destruct (PyStr.ends_with 6 " month" trange) eqn:E2;
      [destruct (ends_with_split _ _ _ E2) as [pre [Hp ->]];
       exists pre, " month"; split; [exact Hp | split; [simpl; tauto | reflexivity]] |].
    destruct (PyStr.ends_with 5 " days" trange) eqn:E3;
      [destruct (ends_with_split _ _ _ E3) as [pre [Hp ->]];
       exists pre, " days"; split; [exact Hp | split; [simpl; tauto | reflexivity]] |].
    destruct (PyStr.ends_with 1 "h" trange) eqn:E4;
      [destruct (ends_with_split _ _ _ E4) as [pre [Hp ->]];
       exists pre, "h"; split; [exact Hp | split; [simpl; tauto | reflexivity]] |].
    destruct (PyStr.ends_with 1 "m" trange) eqn:E5;
      [destruct (ends_with_split _ _ _ E5) as [pre [Hp ->]];
       exists pre, "m"; split; [exact Hp | split; [simpl; tauto | reflexivity]] |].
    discriminate H.
  - intros [-> | [-> | [pre [suf [Hp [Hin ->]]]]]]; [reflexivity | reflexivity |].
    cbn [In] in Hin.
    destruct Hin as [<- | [<- | [<- | [<- | [<- | []]]]]];
      match goal with
      | |- context [pre ++ ?suf] =>
          pose proof (ends_with_hit pre suf Hp) as E; cbn [String.length] in E;
          rewrite E; cbn [negb]; rewrite ?andb_false_r; reflexivity
      end.
Qed.

(** X6. A range token of one of the seven relative forms (one of the two
    words, or a text that is not empty followed by [" months"], [" month"],
    [" days"], ["h"] or ["m"]) is never handed to the date parser:
    [get_point_values] gives the same outcome whatever the parser would
    answer.  So a date text such as ["3pm"] is read as a number of minutes
    and raises [ValueError].  These forms are exactly the tokens that a rule
    before the explicit-date rule takes; the suffixes [" months"],
    [" days"], ["h"] and ["m"] alone are not among them and go to the date
    parser, and [" month"] alone is read as hours. *)
Theorem relative_tokens_bypass_the_parser :
  forall (utcnow_at : nat -> Z) (interp : PyStr.Interpreter)
         (store_range : Query -> result (list Row))
         (parse1 parse2 : string -> result Z)
         (d : PointView) (date_trunc value_func : string) (trange : option string)
         (ts_as_datetime : bool) (w : World),
    (relative_form (valid_trange trange) ->
     get_point_values utcnow_at interp store_range parse1
                      d date_trunc value_func trange ts_as_datetime w
     = get_point_values utcnow_at interp store_range parse2
                        d date_trunc value_func trange ts_as_datetime w)
    /\ (explicit_form (valid_trange trange) = false
        <-> relative_form (valid_trange trange))
    /\ Forall (fun suf => explicit_form suf = true) [" months"; " days"; "h"; "m"]
    /\ (explicit_form " month" = false
        /\ fst (resolve_range utcnow_at interp parse1 " month" w) = Raise ValueError).
Proof.
  intros utcnow_at interp store_range parse1 parse2 d date_trunc value_func trange
         ts_as_datetime w.
  split; [| split; [apply relative_form_spec | split; [repeat constructor |]]].
  - intros Hrel. apply relative_form_spec in Hrel.
    unfold get_point_values. unfold bind.
    cbv [get_crate_connection]. cbv beta iota.
    now rewrite (proj1 (resolve_without_parser utcnow_at interp parse1 parse2 _ _ Hrel)).
  - split; [reflexivity |].
    unfold resolve_range. rewrite !(utcnow_bind utcnow_at).
    cbn [reads next_conn open_conns]. cbv beta.
    change (String.eqb "today" " month") with false.
    change (String.eqb "yesterday" " month") with false.
    change (PyStr.ends_with 7 " months" " month") with false.
    change (PyStr.ends_with 6 " month" " month") with false.
    change (PyStr.ends_with 5 " days" " month") with false.
    change (PyStr.ends_with 1 "h" " month") with true.
    cbv beta iota.
    change (PyStr.drop_last_n 1 " month") with " mont".
    assert (E : PyStr.int interp " mont" = None).
    { rewrite int_short by reflexivity. reflexivity. }
    rewrite E. reflexivity.
Qed.

Lemma relative_tokens_bypass_the_parser_witness :
  relative_form "3pm"
  /\ get_point_values clock0 interp0 store0 parse0 d0 "minute" "avg" (Some "3pm") false w0
     = get_point_values clock0 interp0 store0 (fun _ => Ok 0) d0 "minute" "avg"
                        (Some "3pm") false w0.
Proof.
  assert (H : relative_form "3pm").
  { right; right. exists "3p", "m". split; [discriminate |]. split; [| reflexivity].
    simpl. tauto. }
  split; [exact H |].
  exact (proj1 (relative_tokens_bypass_the_parser clock0 interp0 store0 parse0
                  (fun _ => Ok 0) d0 "minute" "avg" (Some "3pm") false w0) H).
Defined.

Example three_pm_is_not_a_date :
  fst (get_point_values clock0 interp0 store0 (fun _ => Ok 0) d0 "minute" "avg"
                        (Some "3pm") false w0)
  = Raise ValueError.
Proof. vm_compute. reflexivity. Qed.

Lemma decode_row_plain (ts_as_datetime : bool) (r : Row) (x : Stamp * PyVal) :
  decode_row false ts_as_datetime r = Ok x ->
  x = (stamp_of ts_as_datetime (r0 r), r1 r).
Proof.
  unfold decode_row, stamp_of, PyTime.utcfromtimestamp. fold (whole_second (r0 r)).
  destruct ts_as_datetime.
  - destruct (PyTime.in_range (whole_second (r0 r))); [| discriminate].
    intros H. injection H as H. now rewrite <- H.
  - intros H. injection H as H. now rewrite <- H.
Qed.

Lemma fetch_all_plain (ts_as_datetime : bool) (rows : list Row) :
  forall data,
    fetch_all false ts_as_datetime rows = Ok data ->
    data = map (fun r => (stamp_of ts_as_datetime (r0 r), r1 r)) rows.
Proof.
  induction rows as [|r rest IH]; cbn [fetch_all map]; intros data H.
  - now injection H as <-.
  - destruct (decode_row false ts_as_datetime r) as [x|e] eqn:Hx; [| discriminate].
    destruct (fetch_all false ts_as_datetime rest) as [xs|e]; [| discriminate].
    injection H as <-. rewrite (decode_row_plain _ _ _ Hx), (IH xs eq_refl).
    reflexivity.
Qed.

(** X7. For a point that is not of kind Bool, [get_point_values] returns
    one pair per row of the query, in the reverse of the order in which the
    query delivered the rows, and each value is the row's value exactly as
    the store delivered it: nothing is rounded, converted or dropped.  The timestamp is the
    stored one, or its whole second as a datetime when [ts_as_datetime] is
    set. *)
Theorem plain_rows_returned_as_stored :
  forall (utcnow_at : nat -> Z) (interp : PyStr.Interpreter) (store_range : Query -> result (list Row))
         (parse_datetime : string -> result Z)
         (d : PointView) (date_trunc value_func : string) (trange : option string)
         (ts_as_datetime : bool) (w w' : World) (out : list (Stamp * PyVal)),
    String.eqb "Bool" (kind d) = false ->
    get_point_values utcnow_at interp store_range parse_datetime
                     d date_trunc value_func trange ts_as_datetime w = (Ok out, w') ->
    exists start end_ rows,
      store_range (point_query d (valid_date_trunc date_trunc) value_func start end_)
      = Ok rows
      /\ out = rev (map (fun r => (stamp_of ts_as_datetime (r0 r), r1 r)) rows).
Proof.
  intros utcnow_at interp store_range parse_datetime d date_trunc value_func trange
         ts_as_datetime w w' out Hkind Hrun.
  destruct (resolve_range utcnow_at interp parse_datetime (valid_trange trange)
                          (after_connect w)) as [[range|e] w1] eqn:Hres.
  - rewrite (get_point_values_range _ _ _ _ _ _ _ _ _ _ _ _ Hres) in Hrun.
    pose proof (query_points_world store_range (next_conn w) d
                  (valid_date_trunc date_trunc) value_func ts_as_datetime range w1) as Hq.
    rewrite Hrun in Hq. destruct Hq as [rows [decoded [Hrows [Hdec [-> _]]]]].
    exists (fst range), (snd range), rows. split; [exact Hrows |].
    rewrite Hkind in Hdec. now rewrite (fetch_all_plain _ _ _ Hdec).
  - rewrite (get_point_values_range_raise _ _ _ _ _ _ _ _ _ _ _ _ Hres) in Hrun.
    discriminate.
Qed.

Lemma plain_rows_returned_as_stored_witness :
  exists start end_ rows,
    store_same_second (point_query d0 "minute" "avg" start end_) = Ok rows
    /\ [(Millis 1000, PStr "b"); (Millis 1500, PStr "a")]
       = rev (map (fun r => (stamp_of false (r0 r), r1 r)) rows).
Proof.
  exact (plain_rows_returned_as_stored clock0 interp0 store_same_second parse0 d0 "minute" "avg"
           None false w0 (mkWorld 2 1 []) _ eq_refl eq_refl).
Defined.

(** ** The cells of the tag report *)

Lemma dict_get_keys {V} (x : string) (d : list (string * V)) :
  str_in x (map fst d) = match dict_get x d with Some _ => true | None => false end.
Proof.
  unfold str_in. induction d as [|[k v] r IH]; cbn; [reflexivity |].
  rewrite (String.eqb_sym x k). destruct (String.eqb k x); [reflexivity | exact IH].
Qed.

Lemma report_cell_spec (p : PointView) (x : string) :
  report_cell (kv_tags p) (m_tags p) x = cell_of p x.
Proof.
  unfold report_cell, cell_of. rewrite dict_get_keys.
  destruct (dict_get x (kv_tags p)) as [v|] eqn:E.
  - destruct (kv_tags p); [discriminate E | reflexivity].
  - rewrite andb_false_r.
    destruct (m_tags p) as [|a l] eqn:Em; [reflexivity |]. reflexivity.
Qed.

(** What the first loop stores for a point that has tags. *)
Lemma collect_topic_own (h : list string) (tt : list (string * TopicTags))
      (tp : Topic) (p : PointView) :
  related_point tp = Some p -> has_tags p = true ->
  dict_get (t_topic tp) (snd (collect_topic (h, tt) tp))
  = Some (mkTopicTags (if nonempty (kv_tags p) then Some (kv_tags p) else None)
                      (if nonempty (m_tags p) then Some (m_tags p) else None)).
Proof.
  intros Hp Ht. unfold collect_topic. rewrite Hp. cbn [snd].
  fold (has_tags p). rewrite Ht. apply dict_get_set_same.
Qed.

Lemma collect_topic_other (h : list string) (tt : list (string * TopicTags))
      (tp : Topic) (k : string) :
  k <> t_topic tp ->
  dict_get k (snd (collect_topic (h, tt) tp)) = dict_get k tt.
Proof.
  intros Hk. unfold collect_topic.
  destruct (related_point tp) as [p|]; cbn [snd]; [| reflexivity].
  destruct (nonempty (kv_tags p) || nonempty (m_tags p)); [| reflexivity].
  now apply dict_get_set_other.
Qed.

Lemma fold_collect_keep (topics : list Topic) :
  forall h tt k,
    ~ In k (map t_topic topics) ->
    dict_get k (snd (fold_left collect_topic topics (h, tt))) = dict_get k tt.
Proof.
  induction topics as [|tp r IH]; intros h tt k Hk; cbn [fold_left]; [reflexivity |].
  pose proof (collect_topic_other h tt tp k) as Ho.
  destruct (collect_topic (h, tt) tp) as [h1 tt1]. cbn [snd] in Ho.
  rewrite IH by (intros Hin; apply Hk; now right).
  apply Ho. intros ->. apply Hk. now left.
Qed.

Lemma fold_collect_own (topics : list Topic) :
  forall h tt tp p,
    NoDup (map t_topic topics) -> In tp topics ->
    related_point tp = Some p -> has_tags p = true ->
    dict_get (t_topic tp) (snd (fold_left collect_topic topics (h, tt)))
    = Some (mkTopicTags (if nonempty (kv_tags p) then Some (kv_tags p) else None)
                        (if nonempty (m_tags p) then Some (m_tags p) else None)).
Proof.
  induction topics as [|tp0 r IH]; intros h tt tp p Hnd Hin Hp Ht; [destruct Hin |].
  cbn [fold_left]. inversion Hnd as [|? ? Hnotin Hnd']; subst.
  destruct Hin as [-> | Hin].
  - pose proof (collect_topic_own h tt tp p Hp Ht) as Ho.
    destruct (collect_topic (h, tt) tp) as [h1 tt1]. cbn [snd] in Ho.
    now rewrite fold_collect_keep.
  - destruct (collect_topic (h, tt) tp0) as [h1 tt1]. now apply IH.
Qed.

Lemma report_row_tagged (h : list string) (tt : list (string * TopicTags))
      (tp : Topic) (p : PointView) :
  has_tags p = true ->
  dict_get (t_topic tp) tt
  = Some (mkTopicTags (if nonempty (kv_tags p) then Some (kv_tags p) else None)
                      (if nonempty (m_tags p) then Some (m_tags p) else None)) ->
  report_row h tt tp = t_topic tp :: map (cell_of p) h.
Proof.
  intros Ht Hget. unfold report_row. rewrite Hget. cbn [tt_kv_tags tt_m_tags].
  unfold has_tags in Ht.
  destruct (kv_tags p) as [|a l] eqn:Ekv, (m_tags p) as [|b l'] eqn:Em;
    cbn [nonempty orb] in *; try discriminate Ht;
    cbn [app]; f_equal; apply map_ext; intros x;
    rewrite <- report_cell_spec, Ekv, Em; reflexivity.
Qed.

(** X8. In the tag report over topics with distinct names, the row of a
    topic whose related point has tags is the topic name followed by one
    cell per column of the header: the value of the [kv_tags] key of that
    name if the point has one, else ["X"] if the name is one of its
    [m_tags], else the empty string.  A key wins over a marker of the same
    name. *)
Theorem report_cells :
  forall (topics : list Topic) (i : nat) (tp : Topic) (p : PointView),
    NoDup (map t_topic topics) ->
    nth_error topics i = Some tp ->
    related_point tp = Some p ->
    has_tags p = true ->
    nth_error (fst (get_topics_tags_report topics)) i
    = Some (t_topic tp :: map (cell_of p) (tl (snd (get_topics_tags_report topics)))).
Proof.
  intros topics i tp p Hnd Hi Hp Ht. unfold get_topics_tags_report.
  pose proof (fold_collect_own topics [] [] tp p Hnd (nth_error_In _ _ Hi) Hp Ht) as Hown.
  destruct (fold_left collect_topic topics ([], [])) as [h0 tt0].
  cbn [fst snd tl] in *. rewrite nth_error_map, Hi. cbn [option_map]. f_equal.
  now apply report_row_tagged.
Qed.

Lemma report_cells_witness :
  nth_error (fst (get_topics_tags_report [topic_A; topic_B; topic_C; topic_D])) 1
  = Some ["B"; "Room 1"; ""].
Proof.
  refine (report_cells [topic_A; topic_B; topic_C; topic_D] 1 topic_B
                       (pt "B" [] [("dis", "Room 1")]) _ eq_refl eq_refl eq_refl).
  simpl. repeat constructor; simpl; intuition discriminate.
Defined.

(** A name that is both a key and a marker shows the value of the key. *)
Example key_wins_over_marker :
  fst (get_topics_tags_report
         [mkTopic "T" (Some (pt "T" ["site"] [("site", "Main")]))])
  = [["T"; "Main"]].
Proof. reflexivity. Qed.

(** ** [charts_for_points] *)

Lemma connections_returned_refl (w : World) : connections_returned 0 w w.
Proof.
  unfold connections_returned. split; [lia |]. split; [apply incl_refl |].
  intros c Hc. lia.
Qed.

Lemma after_call_returned (w : World) : connections_returned 1 w (after_call w).
Proof.
  unfold connections_returned, after_call. cbn [next_conn open_conns].
  split; [lia |]. split.
  - intros c Hc. apply filter_In in Hc. tauto.
  - intros c Hle Hc. apply filter_In in Hc. destruct Hc as [_ Hne].
    assert (c = next_conn w) as -> by lia.
    rewrite Nat.eqb_refl in Hne. discriminate.
Qed.

Lemma connections_returned_trans (j k : nat) (w w1 w2 : World) :
  connections_returned j w w1 -> connections_returned k w1 w2 ->
  connections_returned (j + k) w w2.
Proof.
  unfold connections_returned. intros [Hn1 [Hi1 Hc1]] [Hn2 [Hi2 Hc2]].
  split; [lia |]. split; [eapply incl_tran; eassumption |].
  intros c Hc Hin.
  destruct (Nat.lt_ge_cases c (next_conn w1)) as [Hlt | Hge].
  - apply (Hc1 c); [lia | apply Hi2; exact Hin].
  - apply (Hc2 c); [lia | exact Hin].
Qed.

Section ChartFacts.

Variable store_latest : string -> result (option (Z * option string)).
Variable isoformat : Z -> string.
Variable strftime : Z -> string.
Variable format_1f : option string -> option string.
Variable reverse_point_data_json : string -> result string.

Let step := chart_step store_latest isoformat strftime format_1f reverse_point_data_json.

(** One turn of the loop that does not raise. *)
Lemma chart_step_outcome (charts charts' : list Chart) (i i' : nat)
      (point : ChartPoint) (w w' : World) :
  step (charts, i) point w = (Ok (charts', i'), w') ->
  w' = after_call w
  /\ if has_reading store_latest point
     then exists c, charts' = (charts ++ [c])%list /\ i' = S i
                    /\ c_index c = S i /\ c_point c = point /\ chart_of_point c
     else charts' = charts /\ i' = i.
Proof.
  unfold step, chart_step, get_current_value_dict, has_reading.
  cbv [bind ret lift get_crate_connection connection_close].
  cbn [reads next_conn open_conns filter]. rewrite Nat.eqb_refl. cbn [negb].
  fold (after_call w). rewrite (String.eqb_sym "Bool").
  destruct (store_latest (topic (cp_point point))) as [[[ts sv]|]|e];
    [| intros [= <- <- <-]; auto | discriminate].
  destruct (format_epoch isoformat strftime ts) as [t|e]; [| discriminate].
  destruct (String.eqb (kind (cp_point point)) "Bool") eqn:Hk;
    destruct (unit_truthy (unit (cp_point point))) eqn:Hu;
    destruct (reverse_point_data_json (entity_id (cp_point point))) as [url|e];
    try discriminate;
    cbv beta iota zeta;
    intros H; injection H as <- <- <-; (split; [reflexivity |]);
    eexists; do 4 (split; [reflexivity |]);
    unfold chart_of_point, chart_unit, chart_title;
    cbn [c_unit c_title c_isBool c_point_id c_equipment_id c_site_id c_point];
    rewrite Hk;
    destruct (unit (cp_point point)) as [[|a u]|]; try discriminate Hu;
    repeat split; reflexivity.
Qed.

Lemma chart_fold (points : list ChartPoint) :
  forall charts0 i0 charts i w w',
    fold_m step (charts0, i0) points w = (Ok (charts, i), w') ->
    connections_returned (List.length points) w w'
    /\ exists new,
        charts = (charts0 ++ new)%list
        /\ i = (i0 + List.length new)%nat
        /\ map c_index new = seq (S i0) (List.length new)
        /\ map c_point new = filter (has_reading store_latest) points
        /\ Forall chart_of_point new.
Proof.
  induction points as [|point rest IH]; intros charts0 i0 charts i w w' H.
  - cbn [fold_m] in H. cbv [ret] in H. injection H as <- <- <-.
    split; [apply connections_returned_refl |].
    exists []. rewrite app_nil_r. cbn. auto with arith.
  - cbn [fold_m] in H. unfold bind at 1 in H.
    destruct (step (charts0, i0) point w) as [[[charts1 i1]|e] w1] eqn:Hstep;
      [| discriminate].
    apply chart_step_outcome in Hstep. destruct Hstep as [-> Hstep].
    destruct (IH _ _ _ _ _ _ H) as [Hconn [new [-> [-> [Hidx [Hpts Hall]]]]]].
    split.
    { apply (connections_returned_trans 1 (List.length rest) w (after_call w) w');
        [apply after_call_returned | exact Hconn]. }
    cbn [filter]. destruct (has_reading store_latest point).
    + destruct Hstep as [c [-> [-> [Hc [Hp Hok]]]]].
      exists (c :: new). rewrite <- app_assoc. cbn [app List.length map seq].
      split; [reflexivity |]. split; [lia |].
      rewrite Hc, Hp, Hidx, Hpts. auto.
    + destruct Hstep as [-> ->]. exists new. auto.
Qed.

End ChartFacts.

(** X9. The charts returned by [charts_for_points] are those of the points
    that have a reading, in the order of the points, numbered 1, 2, 3, ...
    without a gap: a point without a reading is skipped and takes no number.
    Each chart carries the identifiers of its point; its unit is ['on/off']
    for a Bool point whatever the unit of the point, while its title still
    ends with the unit of the point. *)
Theorem charts_numbered_in_order :
  forall (store_latest : string -> result (option (Z * option string)))
         (isoformat strftime : Z -> string)
         (format_1f : option string -> option string)
         (reverse_point_data_json : string -> result string)
         (points : list ChartPoint) (w w' : World) (charts : list Chart),
    charts_for_points store_latest isoformat strftime format_1f
                      reverse_point_data_json points w = (Ok charts, w') ->
    map c_index charts = seq 1 (List.length charts)
    /\ map c_point charts = filter (has_reading store_latest) points
    /\ Forall chart_of_point charts.
Proof.
  intros store_latest isoformat strftime format_1f reverse_point_data_json
         points w w' charts H.
  unfold charts_for_points in H. unfold bind in H.
  destruct (fold_m _ ([], 0%nat) points w) as [[[charts1 i1]|e] w1] eqn:Hfold;
    [| discriminate].
  cbv [ret] in H. cbn [fst] in H. injection H as <- <-.
  apply chart_fold in Hfold.
  destruct Hfold as [_ [new [-> [_ [Hidx [Hpts Hall]]]]]]. cbn [app]. auto.
Qed.

(** X10. A call of [charts_for_points] that returns has opened one
    connection for each point given, with or without a reading, and has
    closed every one of them: no connection it opened is open afterwards. *)
Theorem charts_use_one_connection_per_point :
  forall (store_latest : string -> result (option (Z * option string)))
         (isoformat strftime : Z -> string)
         (format_1f : option string -> option string)
         (reverse_point_data_json : string -> result string)
         (points : list ChartPoint) (w w' : World) (charts : list Chart),
    charts_for_points store_latest isoformat strftime format_1f
                      reverse_point_data_json points w = (Ok charts, w') ->
    connections_returned (List.length points) w w'.
Proof.
  intros store_latest isoformat strftime format_1f reverse_point_data_json
         points w w' charts H.
  unfold charts_for_points in H. unfold bind in H.
  destruct (fold_m _ ([], 0%nat) points w) as [[[charts1 i1]|e] w1] eqn:Hfold;
    [| discriminate].
  cbv [ret] in H. injection H as _ <-.
  apply chart_fold in Hfold. tauto.
Qed.

Lemma charts_numbered_in_order_witness :
  map c_index [chart_fan] = seq 1 (List.length [chart_fan])
  /\ map c_point [chart_fan] = filter (has_reading latest_fan) chart_points
  /\ Forall chart_of_point [chart_fan].
Proof.
  refine (charts_numbered_in_order latest_fan iso0 fmt0 float0 url0 chart_points
            w0 (mkWorld 0 2 []) [chart_fan] _).
  vm_compute. reflexivity.
Defined.

Lemma charts_use_one_connection_per_point_witness :
  connections_returned 2 w0 (mkWorld 0 2 []).
Proof.
  refine (charts_use_one_connection_per_point latest_fan iso0 fmt0 float0 url0
            chart_points w0 (mkWorld 0 2 []) [chart_fan] _).
  vm_compute. reflexivity.
Defined.

(** ** [get_tags_list] and [get_related_model_id] *)

Lemma flat_map_pairs {E A} (keys : E -> list A) (l : list E) :
  map snd (flat_map (fun e => map (pair e) (keys e)) l) = flat_map keys l.
Proof.
  induction l as [|e r IH]; cbn [flat_map]; [reflexivity |].
  rewrite map_app, IH, map_map. cbn [snd]. now rewrite map_id.
Qed.

Section TagFacts.

Variable tag_rows : string -> result (list TagRow).
Variable get_ref_entity_for : string -> option string -> result (option string).

Let tag_of := get_tag tag_rows.
Let kv_of := kv_item tag_rows get_ref_entity_for.
Let m_of := m_item tag_rows.

Lemma append_each_ok {A} (f : A -> M TagItem) (l : list A) :
  forall acc w r w',
    append_each f acc l w = (Ok r, w') ->
    exists items,
      r = (acc ++ items)%list
      /\ Forall2 (fun a t => exists w1 w2, f a w1 = (Ok t, w2)) l items.
Proof.
  unfold append_each.
  induction l as [|a rest IH]; intros acc w r w' H; cbn [fold_m] in H.
  - cbv [ret] in H. injection H as <- _. exists []. rewrite app_nil_r. auto.
  - unfold bind at 1 in H. unfold bind at 1 in H.
    destruct (f a w) as [[t|e] w1] eqn:Hf; [| discriminate].
    cbv [ret] in H. destruct (IH _ _ _ _ H) as [items [-> Hall]].
    exists (t :: items). rewrite <- app_assoc. split; [reflexivity |].
    constructor; eauto.
Qed.

(** Either loop of [get_tags_list]: one entry per key of each row, in
    order. *)
Lemma tags_loop_ok {A} (g : EntityRow -> bool) (keys : EntityRow -> list A)
      (f : EntityRow -> A -> M TagItem) (tags : list EntityRow) :
  (forall e, g e = false -> keys e = []) ->
  forall acc w r w',
    fold_m (fun tags_list tag =>
              if g tag then append_each (f tag) tags_list (keys tag)
              else ret tags_list) acc tags w = (Ok r, w') ->
    exists items,
      r = (acc ++ items)%list
      /\ Forall2 (fun ek t => exists w1 w2, f (fst ek) (snd ek) w1 = (Ok t, w2))
                 (flat_map (fun e => map (pair e) (keys e)) tags) items.
Proof.
  intros Hg. induction tags as [|e rest IH]; intros acc w r w' H; cbn [fold_m] in H.
  - cbv [ret] in H. injection H as <- _. exists []. rewrite app_nil_r. cbn. auto.
  - unfold bind at 1 in H. cbn [flat_map].
    destruct (g e) eqn:Hge.
    + destruct (append_each (f e) acc (keys e) w) as [[r1|x] w1] eqn:Happ;
        [| discriminate].
      apply append_each_ok in Happ. destruct Happ as [items1 [-> H1]].
      destruct (IH _ _ _ _ H) as [items2 [-> H2]].
      exists (items1 ++ items2)%list. rewrite app_assoc. split; [reflexivity |].
      apply Forall2_app; [| exact H2].
      clear - H1. induction H1; cbn; constructor; auto.
    + rewrite (Hg e Hge). cbn [map app]. cbv [ret] in H. eauto.
Qed.

Lemma get_tag_outcome (tag : string) (w : World) :
  tag_of tag w
  = (match tag_rows tag with
     | Ok [] => Ok None
     | Ok (r :: _) => Ok (Some r)
     | Raise e => Raise e
     end, w).
Proof.
  unfold tag_of, get_tag. cbv [bind lift ret].
  destruct (tag_rows tag) as [[|r rest]|e]; reflexivity.
Qed.

Lemma kv_item_ok (kv : list (string * option string)) (key : string)
      (t : TagItem) (w w' : World) :
  kv_of kv key w = (Ok t, w') ->
  item_tag t = key /\ is_kv t = true /\ described tag_rows t
  /\ match t with
     | KvItem _ value _ kind _ slug =>
         value = hs_get key kv
         /\ match slug with
            | Some _ => kind = Some "Ref" /\ opt_truthy value = true
                        /\ get_ref_entity_for key value = Ok slug
            | None => True
            end
     | MItem _ _ _ => True
     end.
Proof.
  unfold kv_of, kv_item. unfold bind at 1.
  pose proof (get_tag_outcome key w) as Ht. unfold tag_of in Ht. rewrite Ht. clear Ht.
  fold (hs_get key kv). unfold described.
  destruct (tag_rows key) as [[|r rest]|e] eqn:Hrows; [| | discriminate].
  - cbn [opt_eqb String.eqb Ascii.eqb Bool.eqb andb]. cbv [ret].
    intros [= <- _]. cbn [item_tag item_description item_details is_kv].
    rewrite Hrows. auto.
  - destruct (opt_eqb (tag_kind r) "Ref") eqn:Hk; cbn [andb].
    + destruct (opt_truthy (hs_get key kv)) eqn:Hv.
      * cbv [bind lift ret].
        destruct (get_ref_entity_for key (hs_get key kv)) as [slug|e] eqn:Href;
          [| discriminate].
        intros [= <- _]. cbn [item_tag item_description item_details is_kv].
        rewrite Hrows. repeat split; auto.
        destruct slug; [| exact I]. repeat split; auto.
        destruct (tag_kind r) as [k|]; [| discriminate].
        cbn in Hk. apply String.eqb_eq in Hk. now subst.
      * cbv [ret]. intros [= <- _].
        cbn [item_tag item_description item_details is_kv]. rewrite Hrows. auto.
    + cbv [ret]. intros [= <- _].
      cbn [item_tag item_description item_details is_kv]. rewrite Hrows. auto.
Qed.

Lemma m_item_ok (tag : string) (t : TagItem) (w w' : World) :
  m_of tag w = (Ok t, w') ->
  item_tag t = tag /\ is_kv t = false /\ described tag_rows t.
Proof.
  unfold m_of, m_item. unfold bind at 1.
  pose proof (get_tag_outcome tag w) as Ht. unfold tag_of in Ht. rewrite Ht. clear Ht.
  unfold described.
  destruct (tag_rows tag) as [[|r rest]|e] eqn:Hrows; [| | discriminate];
    cbv [ret]; intros [= <- _];
    cbn [item_tag item_description item_details is_kv]; rewrite Hrows; auto.
Qed.

Lemma tags_list_outcome (tags : list EntityRow) (w w' : World) (out : list TagItem) :
  get_tags_list tag_rows get_ref_entity_for tags w = (Ok out, w') ->
  exists kvs ms,
    out = (kvs ++ ms)%list
    /\ map item_tag kvs = flat_map (fun e => map fst (er_kv_tags e)) tags
    /\ map item_tag ms = flat_map er_m_tags tags
    /\ Forall (fun t => is_kv t = true /\ described tag_rows t
                        /\ kv_entry get_ref_entity_for tags t) kvs
    /\ Forall (fun t => is_kv t = false /\ described tag_rows t) ms.
Proof.
  unfold get_tags_list. unfold bind at 1. intros H.
  match type of H with
  | context [fold_m ?body [] tags w] =>
      destruct (fold_m body [] tags w) as [[r1|e] w1] eqn:H1; [| discriminate]
  end.
  apply (tags_loop_ok (fun e => nonempty (er_kv_tags e))
           (fun e => map fst (er_kv_tags e))
           (fun e => kv_item tag_rows get_ref_entity_for (er_kv_tags e))) in H1;
    [| intros e He; destruct (er_kv_tags e); [reflexivity | discriminate]].
  apply (tags_loop_ok (fun e => nonempty (er_m_tags e)) er_m_tags
           (fun _ => m_item tag_rows)) in H;
    [| intros e He; destruct (er_m_tags e); [reflexivity | discriminate]].
  destruct H1 as [kvs [-> Hkv]]. destruct H as [ms [-> Hm]]. cbn [app].
  exists kvs, ms. split; [reflexivity |].
  assert (Hkv' : Forall2 (fun ek t =>
                   In (fst ek) tags /\ In (snd ek) (map fst (er_kv_tags (fst ek)))
                   -> item_tag t = snd ek
                      /\ is_kv t = true /\ described tag_rows t
                      /\ kv_entry get_ref_entity_for tags t)
                 (flat_map (fun e => map (pair e) (map fst (er_kv_tags e))) tags) kvs).
  { eapply Forall2_impl; [| exact Hkv]. intros [e key] t [wa [wb Hrun]] [Hin Hkey].
    cbn [fst snd] in *. apply kv_item_ok in Hrun.
    destruct Hrun as [Htag [Hk [Hd Hrest]]]. repeat split; auto.
    destruct t as [tag value details kind descr slug|]; [| discriminate].
    cbn [item_tag] in Htag. subst tag. cbn [kv_entry]. destruct Hrest as [Hv Hs]. split; [| exact Hs].
    exists e. auto. }
  assert (Hpairs : forall ek,
             In ek (flat_map (fun e => map (pair e) (map fst (er_kv_tags e))) tags) ->
             In (fst ek) tags /\ In (snd ek) (map fst (er_kv_tags (fst ek)))).
  { intros [e key] Hin. apply in_flat_map in Hin. destruct Hin as [e' [He' Hin]].
    apply in_map_iff in Hin. destruct Hin as [k [[= <- <-] Hk]]. auto. }
  assert (Hm' : Forall2 (fun ek t => item_tag t = snd ek
                                     /\ is_kv t = false /\ described tag_rows t)
                        (flat_map (fun e => map (pair e) (er_m_tags e)) tags) ms).
  { eapply Forall2_impl; [| exact Hm]. intros [e tag] t [wa [wb Hrun]].
    cbn [fst snd] in *. now apply m_item_ok in Hrun. }
  clear Hkv Hm. split; [| split; [| split]].
  - rewrite <- flat_map_pairs.
    revert Hkv' Hpairs. generalize (flat_map (fun e => map (pair e) (map fst (er_kv_tags e))) tags).
    intros l H. induction H as [|ek t l' kvs' Hx _ IH]; intros Hp; [reflexivity |].
    cbn [map]. rewrite IH by (intros x Hx'; apply Hp; now right).
    f_equal. apply Hx. apply Hp. now left.
  - rewrite <- flat_map_pairs.
    induction Hm' as [|ek t l' ms' Hx _ IH]; [reflexivity |].
    cbn [map]. rewrite IH. f_equal. apply Hx.
  - revert Hkv' Hpairs. generalize (flat_map (fun e => map (pair e) (map fst (er_kv_tags e))) tags).
    intros l H. induction H as [|ek t l' kvs' Hx _ IH]; intros Hp; constructor.
    + apply Hx. apply Hp. now left.
    + apply IH. intros x Hx'. apply Hp. now right.
  - induction Hm' as [|ek t l' ms' Hx _ IH]; constructor; tauto.
Qed.

End TagFacts.

(** X11. [get_tags_list] returns one entry for each key of [kv_tags] of each
    row, in the order of the rows and of their keys, followed by one entry
    for each member of [m_tags] of each row, in order: all key entries come
    before all marker entries, and a row without tags contributes none. *)
Theorem tags_list_order :
  forall (tag_rows : string -> result (list TagRow))
         (get_ref_entity_for : string -> option string -> result (option string))
         (tags : list EntityRow) (w w' : World) (out : list TagItem),
    get_tags_list tag_rows get_ref_entity_for tags w = (Ok out, w') ->
    exists kvs ms,
      out = (kvs ++ ms)%list
      /\ map item_tag kvs = flat_map (fun e => map fst (er_kv_tags e)) tags
      /\ Forall (fun t => is_kv t = true) kvs
      /\ map item_tag ms = flat_map er_m_tags tags
      /\ Forall (fun t => is_kv t = false) ms.
Proof.
  intros tag_rows get_ref_entity_for tags w w' out H.
  apply tags_list_outcome in H.
  destruct H as [kvs [ms [-> [Hk [Hm [Hkv Hms]]]]]].
  exists kvs, ms. repeat split; auto.
  - eapply Forall_impl; [| exact Hkv]. intros t Ht. apply Ht.
  - eapply Forall_impl; [| exact Hms]. intros t Ht. apply Ht.
Qed.

Lemma tags_list_order_witness :
  exists kvs ms,
    tags_list0 = (kvs ++ ms)%list
    /\ map item_tag kvs = flat_map (fun e => map fst (er_kv_tags e)) [entity0]
    /\ Forall (fun t => is_kv t = true) kvs
    /\ map item_tag ms = flat_map er_m_tags [entity0]
    /\ Forall (fun t => is_kv t = false) ms.
Proof.
  refine (tags_list_order tag_table0 ref_entity0 [entity0] w0 w0 tags_list0 _).
  vm_compute. reflexivity.
Defined.

(** X12. Every entry of [get_tags_list] carries the description and details
    of the first [Tag] row for its name; for a name without a [Tag] row the
    description is the name itself and the details are empty.  The entry of
    a key holds the value the key has in its row, and has a ['slug'] only
    when the tag is of kind ['Ref'], the value is not empty and the lookup
    of the referenced entity found one. *)
Theorem tags_list_entries :
  forall (tag_rows : string -> result (list TagRow))
         (get_ref_entity_for : string -> option string -> result (option string))
         (tags : list EntityRow) (w w' : World) (out : list TagItem),
    get_tags_list tag_rows get_ref_entity_for tags w = (Ok out, w') ->
    Forall (fun t => described tag_rows t /\ kv_entry get_ref_entity_for tags t) out.
Proof.
  intros tag_rows get_ref_entity_for tags w w' out H.
  apply tags_list_outcome in H.
  destruct H as [kvs [ms [-> [_ [_ [Hkv Hms]]]]]].
  apply Forall_app. split.
  - eapply Forall_impl; [| exact Hkv]. intros t [_ Ht]. exact Ht.
  - eapply Forall_impl; [| exact Hms]. intros t [Hk Hd].
    split; [exact Hd |]. destruct t; [discriminate | exact I].
Qed.

Lemma tags_list_entries_witness :
  Forall (fun t => described tag_table0 t /\ kv_entry ref_entity0 [entity0] t) tags_list0.
Proof.
  refine (tags_list_entries tag_table0 ref_entity0 [entity0] w0 w0 tags_list0 _).
  vm_compute. reflexivity.
Defined.

Lemma first_model_ref_spec (rows : list EntityRow) :
  match first_model_ref rows with
  | Some v =>
      PyStr.truthy v = true
      /\ exists pre row post,
          rows = (pre ++ row :: post)%list
          /\ hs_get "modelRef" (er_kv_tags row) = Some v
          /\ Forall no_model_ref pre
  | None => Forall no_model_ref rows
  end.
Proof.
  induction rows as [|row rest IH]; cbn [first_model_ref]; [constructor |].
  assert (Hskip : no_model_ref row ->
                  match first_model_ref rest with
                  | Some v =>
                      PyStr.truthy v = true
                      /\ exists pre row0 post,
                          (row :: rest) = (pre ++ row0 :: post)%list
                          /\ hs_get "modelRef" (er_kv_tags row0) = Some v
                          /\ Forall no_model_ref pre
                  | None => Forall no_model_ref (row :: rest)
                  end).
  { intros Hno. destruct (first_model_ref rest) as [v|].
    - destruct IH as [Hv [pre [row0 [post [-> [Hget Hpre]]]]]]. split; [exact Hv |].
      exists (row :: pre), row0, post. auto.
    - auto. }
  unfold no_model_ref, hs_get in *.
  destruct (nonempty (er_kv_tags row)) eqn:Hne.
  - destruct (dict_get "modelRef" (er_kv_tags row)) as [v|] eqn:Hget.
    + destruct (opt_truthy v) eqn:Hv; [| now apply Hskip].
      destruct v as [s|]; [| discriminate]. split; [exact Hv |].
      exists [], row, rest. rewrite Hget. auto.
    + now apply Hskip.
  - destruct (er_kv_tags row); [| discriminate]. now apply Hskip.
Qed.

(** X13. [get_related_model_id] returns the ['modelRef'] of the first row
    that has one that is not empty, and [None] when no row has: a row
    without tags, without the key or with an empty value is passed over, and
    the missing key never surfaces as an error.  Only a failure of the query
    itself makes the call raise. *)
Theorem related_model_is_first_reference :
  forall (entity_rows : string -> result (list EntityRow))
         (entity_id_ : string) (w : World),
    match entity_rows entity_id_ with
    | Raise e => get_related_model_id entity_rows entity_id_ w = (Raise e, w)
    | Ok rows =>
        exists r,
          get_related_model_id entity_rows entity_id_ w = (Ok r, w)
          /\ match r with
             | Some v =>
                 PyStr.truthy v = true
                 /\ exists pre row post,
                     rows = (pre ++ row :: post)%list
                     /\ hs_get "modelRef" (er_kv_tags row) = Some v
                     /\ Forall no_model_ref pre
             | None => Forall no_model_ref rows
             end
    end.
Proof.
  intros entity_rows entity_id_ w.
  unfold get_related_model_id, get_tags_for_topic. cbv [bind lift ret].
  destruct (entity_rows entity_id_) as [rows|e]; [| reflexivity].
  exists (first_model_ref rows). split; [reflexivity | apply first_model_ref_spec].
Qed.

Example model_ref_skips_rows :
  first_model_ref [mkEntityRow "a" [] []; mkEntityRow "b" [("dis", Some "x")] [];
                   mkEntityRow "c" [("modelRef", Some "")] [];
                   mkEntityRow "d" [("modelRef", Some "m1")] []]
  = Some "m1".
Proof. reflexivity. Qed.

(** ** [get_equipment_metrics] *)

Lemma m_tags_contains_spec (tags : list string) (p : PointView) :
  m_tags_contains tags p = true <-> forall tag, In tag tags -> In tag (m_tags p).
Proof.
  unfold m_tags_contains. rewrite forallb_forall.
  split; intros H tag Htag; apply str_in_In; auto.
Qed.

Lemma condition_points_spec (objects : list PointView) (equipmen_ref : string)
      (c : Condition) (p : PointView) :
  In p (condition_points objects equipmen_ref c)
  <-> In p objects /\ answers equipmen_ref c p.
Proof.
  unfold condition_points, answers.
  destruct (m_tags_exclude c) as [ex|].
  - rewrite !filter_In, String.eqb_eq, m_tags_contains_spec, negb_true_iff.
    split.
    + intros [[[H1 H2] H3] H4]. repeat split; auto.
      intros ex' [= <-] Hall. apply m_tags_contains_spec in Hall. congruence.
    + intros [H1 [H2 [H3 H4]]]. repeat split; auto.
      destruct (m_tags_contains ex p) eqn:E; [| reflexivity].
      exfalso. apply (H4 ex eq_refl). now apply m_tags_contains_spec.
  - rewrite !filter_In, String.eqb_eq, m_tags_contains_spec. split.
    + intros [[H1 H2] H3]. repeat split; auto. discriminate.
    + intros [H1 [H2 [H3 _]]]. auto.
Qed.

Lemma fold_left_append {A B} (f : A -> list B) (l : list A) :
  forall acc, fold_left (fun acc a => (acc ++ f a)%list) l acc
              = (acc ++ flat_map f l)%list.
Proof.
  induction l as [|a r IH]; intros acc; cbn [fold_left flat_map].
  - now rewrite app_nil_r.
  - now rewrite IH, app_assoc.
Qed.

Lemma equipment_metrics_flat (objects : list PointView) (equipmen_ref : string) :
  get_equipment_metrics objects equipmen_ref
  = flat_map (fun c => map (fun p => mkMetric (metric c) (topic p))
                           (condition_points objects equipmen_ref c)) conditions.
Proof.
  unfold get_equipment_metrics.
  exact (fold_left_append
           (fun c => map (fun p => mkMetric (metric c) (topic p))
                         (condition_points objects equipmen_ref c)) conditions []).
Qed.

Lemma equipment_metrics_In (objects : list PointView) (equipmen_ref : string)
      (m : Metric) :
  In m (get_equipment_metrics objects equipmen_ref)
  <-> exists c p,
      In c conditions /\ In p objects /\ answers equipmen_ref c p
      /\ m = mkMetric (metric c) (topic p).
Proof.
  rewrite equipment_metrics_flat, in_flat_map. split.
  - intros [c [Hc Hm]]. apply in_map_iff in Hm. destruct Hm as [p [<- Hp]].
    apply condition_points_spec in Hp. exists c, p. tauto.
  - intros [c [p [Hc [Hp [Ha ->]]]]]. exists c. split; [exact Hc |].
    apply (in_map (fun p0 => mkMetric (metric c) (topic p0))).
    apply condition_points_spec. auto.
Qed.

(** X14. [get_equipment_metrics] lists a metric for a topic exactly when
    some point of the equipment with that topic carries every tag of one of
    the six conditions and, for a condition with an exclusion, not all of
    the excluded tags.  Every such point is listed, not only the first of a
    condition, in the order of the conditions. *)
Theorem equipment_metrics_membership :
  forall (objects : list PointView) (equipmen_ref : string),
    (forall m,
        In m (get_equipment_metrics objects equipmen_ref)
        <-> exists c p,
            In c conditions /\ In p objects /\ answers equipmen_ref c p
            /\ m = mkMetric (metric c) (topic p))
    /\ map mt_metric (get_equipment_metrics objects equipmen_ref)
       = flat_map (fun c => map (fun _ => metric c)
                                (condition_points objects equipmen_ref c)) conditions.
Proof.
  intros objects equipmen_ref. split; [apply equipment_metrics_In |].
  rewrite equipment_metrics_flat.
  induction conditions as [|c r IH]; cbn [flat_map map]; [reflexivity |].
  rewrite map_app, IH, map_map. reflexivity.
Qed.

(** X15. A point of the equipment with the tags temp, zone, air, his and
    point is listed as [ZoneTempSP] when it also carries sp and as
    [ZoneTemp] when it does not; when the points of the equipment have
    distinct topics, its topic is never listed under the other of the two
    metrics. *)
Theorem zone_temperature_split :
  forall (objects : list PointView) (equipmen_ref : string) (p : PointView),
    In p objects ->
    equipment_id p = equipmen_ref ->
    (forall tag, In tag ["temp"; "zone"; "air"; "his"; "point"] -> In tag (m_tags p)) ->
    let sp := str_in "sp" (m_tags p) in
    In (mkMetric (if sp then "ZoneTempSP" else "ZoneTemp") (topic p))
       (get_equipment_metrics objects equipmen_ref)
    /\ (NoDup (map topic (filter (fun x => String.eqb (equipment_id x) equipmen_ref)
                                 objects)) ->
        ~ In (mkMetric (if sp then "ZoneTemp" else "ZoneTempSP") (topic p))
             (get_equipment_metrics objects equipmen_ref)).
Proof.
  intros objects equipmen_ref p Hin Heq Hbase sp. split.
  - apply equipment_metrics_In. subst sp.
    destruct (str_in "sp" (m_tags p)) eqn:Hsp.
    + exists (mkCondition "ZoneTempSP" ["temp"; "zone"; "air"; "sp"; "his"; "point"] None), p.
      split; [cbn; tauto |]. split; [exact Hin |]. split; [| reflexivity].
      unfold answers. cbn [cond_m_tags m_tags_exclude]. split; [exact Heq |].
      split; [| discriminate].
      intros tag Htag. cbn in Htag.
      destruct Htag as [<- | [<- | [<- | [<- | [<- | [<- | []]]]]]];
        try (apply Hbase; cbn; tauto). now apply str_in_In.
    + exists (mkCondition "ZoneTemp" ["temp"; "zone"; "air"; "his"; "point"] (Some ["sp"])), p.
      split; [cbn; tauto |]. split; [exact Hin |]. split; [| reflexivity].
      unfold answers. cbn [cond_m_tags m_tags_exclude]. split; [exact Heq |].
      split; [exact Hbase |].
      intros ex [= <-] Hall.
      assert (Hs : str_in "sp" (m_tags p) = true)
        by (apply str_in_In; apply Hall; now left).
      congruence.
  - intros Hnd Hm. apply equipment_metrics_In in Hm.
    destruct Hm as [c [p' [Hc [Hin' [[Heq' [Hhas Hex]] Hm]]]]].
    injection Hm as Hname Htopic.
    assert (p' = p).
    { symmetry. apply (NoDup_map_injective topic _ p p' Hnd);
        [apply filter_In; split; [exact Hin | now apply String.eqb_eq]
        | apply filter_In; split; [exact Hin' | now apply String.eqb_eq]
        | exact Htopic]. }
    subst p' sp.
    destruct (str_in "sp" (m_tags p)) eqn:Hsp.
    + (* listed as ZoneTemp although it carries sp *)
      cbn in Hc.
      destruct Hc as [<- | [<- | [<- | [<- | [<- | [<- | []]]]]]];
        try discriminate Hname.
      apply (Hex ["sp"] eq_refl). intros tag [<- | []]. now apply str_in_In.
    + cbn in Hc.
      destruct Hc as [<- | [<- | [<- | [<- | [<- | [<- | []]]]]]];
        try discriminate Hname.
      assert (Hs : str_in "sp" (m_tags p) = true)
        by (apply str_in_In; apply Hhas; cbn; tauto).
      congruence.
Qed.

Lemma zone_temperature_split_witness :
  In (mkMetric "ZoneTempSP" "ahu1/zone_temp_sp")
     (get_equipment_metrics [p_zone; p_zone_sp; p_other] "ahu1")
  /\ ~ In (mkMetric "ZoneTemp" "ahu1/zone_temp_sp")
          (get_equipment_metrics [p_zone; p_zone_sp; p_other] "ahu1").
Proof.
  pose proof (zone_temperature_split [p_zone; p_zone_sp; p_other] "ahu1" p_zone_sp)
    as H.
  cbn zeta in H. destruct H as [H1 H2].
  - cbn. tauto.
  - reflexivity.
  - intros tag Htag. cbn in Htag. cbn.
    destruct Htag as [<- | [<- | [<- | [<- | [<- | []]]]]]; tauto.
  - split; [exact H1 |]. apply H2. cbn.
    repeat constructor; cbn; intuition discriminate.
Defined.

(** ** [cleanup_id] *)

Lemma replace_char_absent (a b : ascii) (s : string) :
  a <> b -> has_char a (replace_char a b s) = false.
Proof.
  intros Hab. induction s as [|c r IH]; cbn [replace_char has_char]; [reflexivity |].
  rewrite IH, orb_false_r.
  destruct (Ascii.eqb_spec c a) as [-> | Hc].
  - apply Ascii.eqb_neq. congruence.
  - now apply Ascii.eqb_neq.
Qed.

Lemma replace_char_length (a b : ascii) (s : string) :
  String.length (replace_char a b s) = String.length s.
Proof. induction s as [|c r IH]; cbn; congruence. Qed.

Lemma replace_char_same (a b : ascii) (s : string) :
  has_char a s = false -> replace_char a b s = s.
Proof.
  induction s as [|c r IH]; cbn [replace_char has_char]; [reflexivity |].
  intros H. apply orb_false_iff in H. destruct H as [Hc Hr].
  now rewrite Hc, IH.
Qed.

(** X16. The identifier returned by [cleanup_id] never contains a slash and
    is as long as the one given: every slash has become a dash and nothing
    else has changed.  An identifier without a slash, the empty one and
    [None] are returned as they are, so cleaning twice is cleaning once. *)
Theorem cleanup_id_removes_slashes :
  forall id : option string,
    match id, cleanup_id id with
    | Some s, Some s' =>
        has_char "/" s' = false
        /\ String.length s' = String.length s
        /\ (has_char "/" s = false -> s' = s)
        /\ cleanup_id (Some s') = Some s'
    | None, None => True
    | _, _ => False
    end.
Proof.
  intros [s|]; [| exact I].
  unfold cleanup_id. cbn [opt_truthy option_map].
  destruct (PyStr.truthy s) eqn:Ht.
  - assert (Hno : has_char "/" (replace_char "/" "-" s) = false)
      by (apply replace_char_absent; discriminate).
    repeat split; auto using replace_char_length, replace_char_same.
    destruct (PyStr.truthy (replace_char "/" "-" s));
      [rewrite (replace_char_same _ _ _ Hno) |]; reflexivity.
  - destruct s; [| discriminate]. repeat split; auto.
Qed.

Example cleanup_id_example :
  cleanup_id (Some "campus/b1/ahu1") = Some "campus-b1-ahu1".
Proof. reflexivity. Qed.

(** ** [get_bacnet_trending_data] *)

Lemma append_new_prefix (xs h : list string) :
  exists t, append_new xs h = (h ++ t)%list.
Proof.
  revert h. induction xs as [|x r IH]; intros h; cbn [append_new].
  - exists []. now rewrite app_nil_r.
  - destruct (str_in x h).
    + apply IH.
    + destruct (IH (h ++ [x])%list) as [t ->]. exists (x :: t).
      now rewrite <- app_assoc.
Qed.

Lemma bacnet_header_fold (rows : list BacnetRow) :
  forall h0,
    NoDup h0 ->
    let header :=
      fold_left (fun header row =>
                   if nonempty (br_bacnet_fields row)
                   then append_new (map fst (br_bacnet_fields row)) header
                   else header) rows h0 in
    (exists t, header = (h0 ++ t)%list)
    /\ NoDup header
    /\ forall x, In x header
                 <-> In x h0
                     \/ exists row, In row rows /\ In x (map fst (br_bacnet_fields row)).
Proof.
  induction rows as [|row rest IH]; intros h0 Hnd; cbn [fold_left].
  - split; [exists []; now rewrite app_nil_r |]. split; [exact Hnd |].
    intros x. split; [tauto |]. intros [H | [row [[] _]]]. exact H.
  - set (h1 := if nonempty (br_bacnet_fields row)
               then append_new (map fst (br_bacnet_fields row)) h0 else h0).
    assert (H1 : (exists t, h1 = (h0 ++ t)%list) /\ NoDup h1
                 /\ forall x, In x h1 <-> In x h0 \/ In x (map fst (br_bacnet_fields row))).
    { unfold h1. destruct (br_bacnet_fields row) as [|f fs] eqn:Ef; cbn [nonempty].
      - split; [exists []; now rewrite app_nil_r |]. split; [exact Hnd |].
        intros x. cbn. tauto.
      - split; [apply append_new_prefix |]. split; [now apply append_new_NoDup |].
        intros x. rewrite append_new_In. tauto. }
    destruct H1 as [[t1 Ht1] [Hnd1 Hin1]].
    destruct (IH h1 Hnd1) as [[t2 Ht2] [Hnd2 Hin2]].
    split; [exists (t1 ++ t2)%list; rewrite Ht2, Ht1; now rewrite app_assoc |].
    split; [exact Hnd2 |].
    intros x. rewrite Hin2, Hin1. split.
    + intros [[H | H] | [r [Hr Hx]]]; [now left | right; exists row; cbn; auto |].
      right. exists r. cbn. auto.
    + intros [H | [r [[<- | Hr] Hx]]]; [tauto | tauto |]. right. exists r. auto.
Qed.

(** X20. The header of [get_bacnet_trending_data] starts with the two fixed
    columns, has no column twice, and has after them exactly the keys of the
    [bacnet_fields] of the rows that are not the name of a fixed column: a
    field named like a fixed column gets no column of its own. *)
Theorem bacnet_header_columns :
  forall rows : list BacnetRow,
    exists h,
      fst (get_bacnet_trending_data rows) = "Point Name" :: "Volttron Point Name" :: h
      /\ NoDup (fst (get_bacnet_trending_data rows))
      /\ forall x,
          In x h
          <-> x <> "Point Name" /\ x <> "Volttron Point Name"
              /\ exists row, In row rows /\ In x (map fst (br_bacnet_fields row)).
Proof.
  intros rows. unfold get_bacnet_trending_data, bacnet_header. cbn [fst].
  destruct (bacnet_header_fold rows ["Point Name"; "Volttron Point Name"])
    as [[t Ht] [Hnd Hin]].
  { repeat constructor; cbn; intuition discriminate. }
  cbv zeta in Ht, Hnd, Hin. rewrite Ht in *. cbn [app] in *.
  exists t. split; [reflexivity |]. split; [exact Hnd |].
  intros x. specialize (Hin x). cbn [In] in Hin.
  inversion Hnd as [|a l Ha Hnd1]; subst. inversion Hnd1 as [|b l' Hb Hnd2]; subst.
  cbn [In] in Ha. split.
  - intros Hx. split; [intros ->; tauto |]. split; [intros ->; tauto |].
    destruct (proj1 Hin (or_intror (or_intror Hx))) as [[E | [E | []]] | H];
      [subst; tauto | subst; tauto | exact H].
  - intros [H1 [H2 Hrow]].
    destruct (proj2 Hin (or_intror Hrow)) as [E | [E | H]]; congruence || exact H.
Qed.

Lemma nth_error_skipn_map {A B} (f : A -> B) (pre : list B) (l : list A) (j : nat) (a : A) :
  (List.length pre <= j)%nat ->
  nth_error l j = Some a ->
  nth_error (pre ++ map f (skipn (List.length pre) l))%list j = Some (f a).
Proof.
  intros Hle Hj. rewrite nth_error_app2 by exact Hle.
  rewrite nth_error_map, nth_error_skipn.
  replace (List.length pre + (j - List.length pre))%nat with j by lia.
  now rewrite Hj.
Qed.

(** X21. [get_bacnet_trending_data] returns one data row per row given.  A
    data row starts with the topic and the ['dis'] tag (empty when there is
    none).  For a row with [bacnet_fields] it has as many cells as the
    header, each further cell holding the field of its column, or the empty
    string when the row has no such field or an empty one; a row without
    [bacnet_fields] has the first two cells only and is not padded. *)
Theorem bacnet_data_rows :
  forall (rows : list BacnetRow),
    let header := fst (get_bacnet_trending_data rows) in
    let data := snd (get_bacnet_trending_data rows) in
    List.length data = List.length rows
    /\ forall i row,
        nth_error rows i = Some row ->
        exists data_row,
          nth_error data i = Some data_row
          /\ nth_error data_row 0 = Some (br_topic row)
          /\ nth_error data_row 1 = Some (text_or_blank (hs_get "dis" (br_kv_tags row)))
          /\ if nonempty (br_bacnet_fields row)
             then List.length data_row = List.length header
                  /\ forall j key,
                      (2 <= j)%nat ->
                      nth_error header j = Some key ->
                      nth_error data_row j
                      = Some (text_or_blank (hs_get key (br_bacnet_fields row)))
             else List.length data_row = 2%nat.
Proof.
  intros rows header data. subst header data.
  destruct (bacnet_header_fold rows ["Point Name"; "Volttron Point Name"])
    as [[t Ht] _].
  { repeat constructor; cbn; intuition discriminate. }
  cbv zeta in Ht.
  unfold get_bacnet_trending_data. cbn [fst snd]. fold (bacnet_header rows) in Ht.
  split; [apply length_map |].
  intros i row Hi. exists (bacnet_data_row (bacnet_header rows) row).
  split; [rewrite nth_error_map, Hi; reflexivity |].
  unfold bacnet_data_row.
  assert (Hdis : (if nonempty (br_kv_tags row)
                     && opt_truthy (hs_get "dis" (br_kv_tags row))
                  then text_or_blank (hs_get "dis" (br_kv_tags row)) else "")
                 = text_or_blank (hs_get "dis" (br_kv_tags row))).
  { destruct (br_kv_tags row) as [|a l]; [reflexivity |]. cbn [nonempty andb].
    unfold text_or_blank. destruct (opt_truthy _); reflexivity. }
  rewrite Hdis. cbn [app].
  destruct (nonempty (br_bacnet_fields row)).
  - split; [reflexivity |]. split; [reflexivity |]. split.
    + cbn [List.length]. rewrite length_map, length_skipn, Ht.
      cbn [app List.length]. lia.
    + intros j key Hj Hkey.
      exact (nth_error_skipn_map
               (fun key => text_or_blank (hs_get key (br_bacnet_fields row)))
               [br_topic row; text_or_blank (hs_get "dis" (br_kv_tags row))]
               (bacnet_header rows) j key Hj Hkey).
  - split; [reflexivity |]. split; reflexivity.
Qed.

Example bacnet_short_row :
  get_bacnet_trending_data
    [mkBacnetRow "t1" [("dis", Some "Fan")] [("units", Some "rpm"); ("Point Name", Some "x")];
     mkBacnetRow "t2" [] []]
  = (["Point Name"; "Volttron Point Name"; "units"],
     [["t1"; "Fan"; "rpm"]; ["t2"; ""]]).
Proof. reflexivity. Qed.

(** ** [get_site_addr_loc] *)

Lemma concat_cons_nonempty (sep x : string) (l : list string) :
  l <> [] -> String.concat sep (x :: l) = x ++ sep ++ String.concat sep l.
Proof. destruct l; [congruence | reflexivity]. Qed.

Lemma truthy_app (a b : string) : PyStr.truthy a = true -> PyStr.truthy (a ++ b) = true.
Proof. destruct a; [discriminate | reflexivity]. Qed.

(** Joining texts that are not empty one by one is joining them with the
    separator. *)
Lemma add_parts_concat (parts : list string) :
  Forall (fun p => PyStr.truthy p = true) parts ->
  forall acc,
    PyStr.truthy acc = true ->
    fold_left add_part parts acc = String.concat ", " (acc :: parts).
Proof.
  induction 1 as [|p ps Hp _ IH]; intros acc Hacc; cbn [fold_left]; [reflexivity |].
  rewrite IH.
  - unfold add_part. rewrite Hacc.
    rewrite (concat_cons_nonempty ", " acc (p :: ps)) by discriminate.
    destruct ps as [|q qs].
    + cbn [String.concat]. now rewrite append_assoc.
    + rewrite (concat_cons_nonempty ", " _ (q :: qs)) by discriminate.
      rewrite (concat_cons_nonempty ", " p (q :: qs)) by discriminate.
      now rewrite !append_assoc.
  - unfold add_part. rewrite Hacc. apply truthy_app. now apply truthy_app.
Qed.

Lemma add_parts_from_empty (parts : list string) :
  Forall (fun p => PyStr.truthy p = true) parts ->
  fold_left add_part parts "" = String.concat ", " parts.
Proof.
  intros H. destruct H as [|p ps Hp Hps]; [reflexivity |].
  cbn [fold_left]. unfold add_part at 2. cbn [PyStr.truthy append].
  now apply add_parts_concat.
Qed.

Lemma address_parts_truthy (tags : list (string * option string)) :
  Forall (fun p => PyStr.truthy p = true) (address_parts tags).
Proof.
  unfold address_parts. apply Forall_forall. intros p Hp.
  apply in_map_iff in Hp. destruct Hp as [[tag v] [<- Hin]].
  apply filter_In in Hin. destruct Hin as [_ H].
  apply andb_true_iff in H. destruct H as [H _].
  apply andb_true_iff in H. destruct H as [_ H]. cbn [snd] in *.
  destruct v as [s|]; [exact H | discriminate].
Qed.

Lemma dict_get_absent {V} (k : string) (d : list (string * V)) :
  ~ In k (map fst d) -> dict_get k d = None.
Proof.
  induction d as [|[k' v] r IH]; cbn; [reflexivity |]. intros H.
  destruct (String.eqb_spec k' k) as [-> | _]; [tauto |]. apply IH. tauto.
Qed.

(** One turn of the loop over the tags. *)
Lemma addr_step_spec (st : AddrState) (tag : string) (v : option string) :
  show_google_map (addr_step st (tag, v))
  = show_google_map st || (String.eqb tag "geoStreet" && opt_truthy v)
  /\ site_address (addr_step st (tag, v))
     = (if str_in tag allowed_tags && opt_truthy v && negb (String.eqb tag "geoAddr")
        then add_part (site_address st) (match v with Some s => s | None => "" end)
        else site_address st)
  /\ geo_addr (addr_step st (tag, v))
     = (if String.eqb tag "geoAddr" && opt_truthy v then v else geo_addr st).
Proof.
  unfold addr_step, add_part.
  destruct (String.eqb_spec tag "geoAddr") as [-> | Hga].
  - cbn [str_in allowed_tags existsb String.eqb Ascii.eqb Bool.eqb orb andb negb].
    destruct (opt_truthy v); cbn [show_google_map site_address geo_addr];
      rewrite ?orb_false_r; auto.
  - destruct (String.eqb_spec tag "geoStreet") as [-> | Hst].
    + cbn [str_in allowed_tags existsb String.eqb Ascii.eqb Bool.eqb orb andb negb].
      destruct (opt_truthy v); cbn [show_google_map site_address geo_addr];
        rewrite ?orb_false_r, ?orb_true_r; auto.
    + cbn [andb negb]. rewrite orb_false_r, andb_true_r.
      destruct (str_in tag allowed_tags && opt_truthy v);
        cbn [show_google_map site_address geo_addr]; auto.
Qed.

(** The loop over the tags, from any state. *)
Lemma addr_loop (tags : list (string * option string)) :
  forall st,
    let st' := fold_left addr_step tags st in
    show_google_map st' = show_google_map st || has_street tags
    /\ site_address st' = fold_left add_part (address_parts tags) (site_address st)
    /\ (NoDup (map fst tags) ->
        geo_addr st' = if opt_truthy (hs_get "geoAddr" tags)
                       then hs_get "geoAddr" tags else geo_addr st).
Proof.
  induction tags as [|[tag v] rest IH]; intros st; cbn [fold_left].
  - cbn. rewrite orb_false_r. auto.
  - destruct (IH (addr_step st (tag, v))) as [Hshow [Haddr Hgeo]].
    destruct (addr_step_spec st tag v) as [Hs1 [Ha1 Hg1]].
    cbv zeta. rewrite Hshow, Haddr, Hs1, Ha1. clear Hshow Haddr Hs1 Ha1.
    split; [| split].
    + unfold has_street. cbn [existsb fst snd]. now rewrite orb_assoc.
    + unfold address_parts. cbn [filter fst snd].
      destruct (str_in tag allowed_tags && opt_truthy v
                && negb (String.eqb tag "geoAddr")); reflexivity.
    + intros Hnd. inversion Hnd as [|? ? Hnot Hnd']; subst.
      rewrite (Hgeo Hnd'), Hg1. unfold hs_get. cbn [dict_get].
      destruct (String.eqb_spec tag "geoAddr") as [-> | Hne]; cbn [andb].
      * rewrite (dict_get_absent _ _ Hnot). cbn [opt_truthy]. reflexivity.
      * reflexivity.
Qed.

(** X17. The address [get_site_addr_loc] looks up is made of the values, in
    the order of the dict and joined by [", "], of the tags geoCity,
    geoCountry, geoPostalCode, geoState and geoStreet that are not empty.
    With a street this is the address and [geoAddr] is not used; without a
    street, [geoAddr], when there is one, is added at the end; with neither
    there is nothing to look up. *)
Theorem site_address_composition :
  forall tags : list (string * option string),
    NoDup (map fst tags) ->
    let st := compose_address tags in
    let ga := hs_get "geoAddr" tags in
    if has_street tags then
      show_google_map st = true
      /\ site_address st = String.concat ", " (address_parts tags)
    else if opt_truthy ga then
      show_google_map st = true
      /\ site_address st
         = String.concat ", " (address_parts tags
                               ++ [match ga with Some s => s | None => "" end])
    else
      show_google_map st = false
      /\ site_address st = String.concat ", " (address_parts tags).
Proof.
  intros tags Hnd.
  cbv zeta. unfold compose_address.
  assert (Hloop : (if nonempty tags
                   then fold_left addr_step tags (mkAddrState false None "")
                   else mkAddrState false None "")
                  = fold_left addr_step tags (mkAddrState false None ""))
    by (destruct tags; reflexivity).
  rewrite Hloop. clear Hloop.
  destruct (addr_loop tags (mkAddrState false None "")) as [Hshow [Haddr Hgeo]].
  cbv zeta in Hshow, Haddr, Hgeo. specialize (Hgeo Hnd).
  cbn [show_google_map site_address geo_addr orb] in Hshow, Haddr, Hgeo.
  rewrite (add_parts_from_empty _ (address_parts_truthy tags)) in Haddr.
  set (st := fold_left addr_step tags (mkAddrState false None "")) in *.
  rewrite Hshow.
  destruct (has_street tags); cbn [negb andb]; [auto |].
  rewrite Hgeo. destruct (opt_truthy (hs_get "geoAddr" tags)) eqn:Hga.
  - rewrite Hga. cbn [show_google_map site_address]. split; [reflexivity |].
    rewrite Haddr.
    rewrite <- (add_parts_from_empty (address_parts tags ++ [_])).
    + rewrite fold_left_app. cbn [fold_left].
      rewrite (add_parts_from_empty _ (address_parts_truthy tags)). reflexivity.
    + apply Forall_app. split; [apply address_parts_truthy |].
      constructor; [| constructor].
      destruct (hs_get "geoAddr" tags); [exact Hga | discriminate].
  - cbn [opt_truthy]. auto.
Qed.

Lemma site_address_composition_witness :
  (show_google_map (compose_address tags_street) = true
   /\ site_address (compose_address tags_street) = "Paris, 1 rue A")
  /\ (show_google_map (compose_address tags_addr) = true
      /\ site_address (compose_address tags_addr) = "Paris, somewhere in Paris").
Proof.
  split.
  - refine (site_address_composition tags_street _).
    cbn. repeat constructor; cbn; intuition discriminate.
  - refine (site_address_composition tags_addr _).
    cbn. repeat constructor; cbn; intuition discriminate.
Defined.


(** X18. A location that [get_site_addr_loc] has returned is served from
    the session afterwards: a second call with the same tags on the session
    the first call left returns the same location without calling the
    geocoder and without touching the session, whatever [site_id] it is
    given; the location keeps the [site_id] of the call that stored it. *)
Theorem site_location_is_cached :
  forall (GOOGLE_API_KEY : option string) (md5_hexdigest : string -> string)
         (geocoder_google : string -> option string -> option GeoJson)
         (tags : list (string * option string)) (site_id1 site_id2 : string)
         (session session' : list (string * option AddrLoc)) (loc : AddrLoc)
         (calls : list string),
    get_site_addr_loc GOOGLE_API_KEY md5_hexdigest geocoder_google
                      tags site_id1 session = (Some loc, session', calls) ->
    get_site_addr_loc GOOGLE_API_KEY md5_hexdigest geocoder_google
                      tags site_id2 session' = (Some loc, session', []).
Proof.
  intros GOOGLE_API_KEY md5_hexdigest geocoder_google tags site_id1 site_id2
         session session' loc calls.
  unfold get_site_addr_loc.
  destruct (opt_truthy GOOGLE_API_KEY); [| discriminate].
  destruct (PyStr.truthy (site_address (compose_address tags))
            && show_google_map (compose_address tags)); [| discriminate].
  set (hash_key := md5_hexdigest (site_address (compose_address tags))).
  destruct (dict_get hash_key session) as [[a|]|] eqn:Hget.
  - intros [= <- <- _]. now rewrite Hget.
  - destruct (geocoder_google _ GOOGLE_API_KEY) as [geo|]; [| discriminate].
    destruct (geo_ok geo); [| discriminate].
    intros [= <- <- _]. now rewrite dict_get_set_same.
  - destruct (geocoder_google _ GOOGLE_API_KEY) as [geo|]; [| discriminate].
    destruct (geo_ok geo); [| discriminate].
    intros [= <- <- _]. now rewrite dict_get_set_same.
Qed.

Lemma site_location_is_cached_witness :
  get_site_addr_loc (Some "key") md5_0 geocoder0 tags_street "site2"
                    [("md5:Paris, 1 rue A",
                      Some (mkAddrLoc (4885 # 100) (235 # 100) "site1"))]
  = (Some (mkAddrLoc (4885 # 100) (235 # 100) "site1"),
     [("md5:Paris, 1 rue A", Some (mkAddrLoc (4885 # 100) (235 # 100) "site1"))],
     []).
Proof.
  refine (site_location_is_cached (Some "key") md5_0 geocoder0 tags_street
            "site1" "site2" [] _ _ ["Paris, 1 rue A"] _).
  reflexivity.
Defined.

(** X19. A call of [get_site_addr_loc] hands at most one address to the
    geocoder, the composed one, and only when the session holds no location
    under the hash of that address.  Without an API key, or when there is
    nothing to look up, it returns [None] and touches neither the geocoder
    nor the session.  The session changes only when the geocoder answered
    ok: then the location returned, with the [site_id] given, is what the
    session holds under the hash of the address. *)
Theorem site_location_lookup :
  forall (GOOGLE_API_KEY : option string) (md5_hexdigest : string -> string)
         (geocoder_google : string -> option string -> option GeoJson)
         (tags : list (string * option string)) (site_id_ : string)
         (session : list (string * option AddrLoc)),
    let address := site_address (compose_address tags) in
    match get_site_addr_loc GOOGLE_API_KEY md5_hexdigest geocoder_google
                            tags site_id_ session with
    | (r, session', calls) =>
        (opt_truthy GOOGLE_API_KEY = false
         \/ show_google_map (compose_address tags) = false
         -> r = None /\ session' = session /\ calls = [])
        /\ (calls = [] \/ calls = [address])
        /\ (session' = session
            \/ exists a, r = Some a /\ al_site_id a = site_id_ /\ calls = [address]
                         /\ dict_get (md5_hexdigest address) session' = Some (Some a))
        /\ (calls = [address] ->
            match dict_get (md5_hexdigest address) session with
            | Some (Some _) => False
            | _ => True
            end)
    end.
Proof.
  intros GOOGLE_API_KEY md5_hexdigest geocoder_google tags site_id_ session.
  cbv zeta. unfold get_site_addr_loc.
  destruct (opt_truthy GOOGLE_API_KEY);
    [| repeat split; auto; discriminate].
  destruct (show_google_map (compose_address tags));
    rewrite ?andb_false_r, ?andb_true_r;
    [| repeat split; auto; discriminate].
  destruct (PyStr.truthy (site_address (compose_address tags)));
    [| repeat split; auto; intuition discriminate].
  set (address := site_address (compose_address tags)).
  destruct (dict_get (md5_hexdigest address) session) as [[a|]|] eqn:Hget.
  - repeat split; auto; intuition discriminate.
  - destruct (geocoder_google address GOOGLE_API_KEY) as [geo|];
      [destruct (geo_ok geo) |];
      repeat split; auto; try (intuition discriminate).
    right. eexists. repeat split. apply dict_get_set_same.
  - destruct (geocoder_google address GOOGLE_API_KEY) as [geo|];
      [destruct (geo_ok geo) |];
      repeat split; auto; try (intuition discriminate).
    right. eexists. repeat split. apply dict_get_set_same.
Qed.

(** ** More on [get_current_value_dict] and [get_current_value] *)

(** X22. For a point that is not of kind Bool and has a reading,
    [get_current_value_dict] returns the stored text as it is, except for a
    temperature (a Number in °F or °C) whose text reads as a number, which
    is shown with one decimal; a temperature whose text is not a number is
    returned as it is, without an error.  The dict has the timestamp of the
    reading, and the key ['unit'] exactly when the point has a unit. *)
Theorem plain_value_is_stored_text :
  forall (store_latest : string -> result (option (Z * option string)))
         (isoformat strftime : Z -> string)
         (format_1f : option string -> option string)
         (point : PointView) (connection : option nat) (w : World) (d : ValueDict),
    String.eqb (kind point) "Bool" = false ->
    fst (get_current_value_dict store_latest isoformat strftime format_1f
                                point connection w) = Ok (Some d) ->
    exists ts sv,
      store_latest (topic point) = Ok (Some (ts, sv))
      /\ v_epoch d = ts
      /\ v_value d = DStr (if is_temperature point
                           then match format_1f sv with Some s => Some s | None => sv end
                           else sv)
      /\ v_unit d = (if unit_truthy (unit point) then unit point else None).
Proof.
  intros store_latest isoformat strftime format_1f point connection w d Hkind.
  unfold get_current_value_dict, is_temperature.
  destruct connection as [c|];
    cbv [bind ret lift get_crate_connection connection_close];
    (destruct (store_latest (topic point)) as [[[ts sv]|]|e]; cbn [fst];
     [| discriminate | discriminate]);
    (destruct (format_epoch isoformat strftime ts) as [t|e]; cbn [fst];
     [| discriminate]);
    rewrite Hkind;
    destruct (unit_truthy (unit point)); cbn [fst];
    intros [= <-]; exists ts, sv; cbn [v_value v_epoch v_unit]; auto.
Qed.

Lemma plain_value_is_stored_text_witness :
  exists ts sv,
    latest_72 (topic p_temp) = Ok (Some (ts, sv))
    /\ 1000 = ts
    /\ DStr (Some "72.0")
       = DStr (if is_temperature p_temp
               then match float_1f_0 sv with Some s => Some s | None => sv end
               else sv)
    /\ Some "°F" = (if unit_truthy (unit p_temp) then unit p_temp else None).
Proof.
  exact (plain_value_is_stored_text latest_72 iso0 fmt0 float_1f_0 p_temp None w0
           (mkValueDict (DStr (Some "72.0")) 1000 "" "" (Some "°F")) eq_refl eq_refl).
Defined.

Lemma remove_char_absent (c : ascii) (s : string) : has_char c (remove_char c s) = false.
Proof.
  induction s as [|a r IH]; cbn [remove_char has_char]; [reflexivity |].
  destruct (Ascii.eqb a c) eqn:E; [exact IH |].
  cbn [has_char]. now rewrite E, IH.
Qed.

Lemma remove_char_keeps_absent (c d : ascii) (s : string) :
  has_char d s = false -> has_char d (remove_char c s) = false.
Proof.
  induction s as [|a r IH]; cbn [remove_char has_char]; [reflexivity |].
  intros H. apply orb_false_iff in H. destruct H as [Ha Hr].
  destruct (Ascii.eqb a c); [auto |]. cbn [has_char]. now rewrite Ha, IH.
Qed.

(** X23. The text that [get_current_value] hands to [format_html] is
    ["<b>"], the value as shown, ["</b>"], then for a point that is not a
    Bool and has a unit a space and the unit, then the time of the reading.
    The value as shown is the value of the dict of
    [get_current_value_dict], except that a text that contains an opening
    brace loses all its braces, opening and closing; a text without an
    opening brace is shown as it is, so a closing brace alone stays in the
    text handed to [format_html].  What [format_html] answers is returned,
    and its failure is the failure of the call. *)
Theorem braces_removed_from_value :
  forall (store_latest : string -> result (option (Z * option string)))
         (isoformat strftime : Z -> string)
         (format_1f : option string -> option string)
         (format_html : string -> result string)
         (point : PointView) (connection : option nat) (w : World) (d : ValueDict),
    fst (get_current_value_dict store_latest isoformat strftime format_1f
                                point connection w) = Ok (Some d) ->
    exists shown tail : string,
      match v_value d with
      | DStr (Some s) =>
          if has_char "{" s
          then shown = remove_char "}" (remove_char "{" s)
               /\ has_char "{" shown = false /\ has_char "}" shown = false
          else shown = s
      | DStr None => shown = "None"
      | DBool b => shown = if b then "True" else "False"
      end
      /\ tail = (if negb (String.eqb (kind point) "Bool") && unit_truthy (unit point)
                 then " " ++ (match v_unit d with Some u => u | None => "" end)
                          ++ as_of (v_time d) (v_fmttime d)
                 else as_of (v_time d) (v_fmttime d))
      /\ fst (get_current_value store_latest isoformat strftime format_1f format_html
                                point connection false w)
         = match format_html ("<b>" ++ shown ++ "</b>" ++ tail) with
           | Ok html => Ok (Some (CvHtml html))
           | Raise e => Raise e
           end.
Proof.
  intros store_latest isoformat strftime format_1f format_html point connection w d Hd.
  unfold get_current_value. unfold bind at 1.
  destruct (get_current_value_dict store_latest isoformat strftime format_1f
                                   point connection w) as [[[d'|]|e] w1];
    cbn [fst] in Hd; try discriminate Hd.
  injection Hd as ->.
  exists (str_of_value (strip_braces (v_value d))).
  eexists. split; [| split; [reflexivity |]].
  - destruct (v_value d) as [[|] | [s|]]; try reflexivity.
    unfold strip_braces. destruct (has_char "{" s) eqn:H; [| reflexivity].
    cbn [str_of_value]. split; [reflexivity |]. split.
    + apply remove_char_keeps_absent, remove_char_absent.
    + apply remove_char_absent.
  - cbv beta iota zeta.
    destruct (String.eqb (kind point) "Bool"); cbn [negb andb];
      [| destruct (unit_truthy (unit point))];
      unfold bind, lift, ret; cbn [append];
      match goal with
      | |- context [format_html ?x] => destruct (format_html x)
      end; reflexivity.
Qed.

Lemma braces_removed_from_value_witness :
  exists shown tail : string,
    (shown = "a" /\ has_char "{" shown = false /\ has_char "}" shown = false)
    /\ tail = as_of "" ""
    /\ fst (get_current_value latest_braces iso0 fmt0 float0 html0 d0 None false w0)
       = match html0 ("<b>" ++ shown ++ "</b>" ++ tail) with
         | Ok html => Ok (Some (CvHtml html))
         | Raise e => Raise e
         end.
Proof.
  exact (braces_removed_from_value latest_braces iso0 fmt0 float0 html0 d0 None w0
           (mkValueDict (DStr (Some "{a}")) 1000 "" "" None) eq_refl).
Defined.

Example closing_brace_alone_is_kept :
  strip_braces (DStr (Some "{a}")) = DStr (Some "a")
  /\ strip_braces (DStr (Some "a}")) = DStr (Some "a}")
  /\ fst (get_current_value latest_braces iso0 fmt0 float0 html0 d0 None false w0)
     = Ok (Some (CvHtml ("<b>a</b>" ++ as_of "" ""))).
Proof. repeat split; reflexivity. Qed.

(** ** Explicit dates, and points that are neither Number nor Bool *)



(** X25. For a point that is neither of kind Number nor of kind Bool the
    query selects the stored rows themselves: the truncation granularity and
    the aggregate function given to [get_point_values] have no effect on
    what it returns. *)
Theorem text_points_ignore_granularity :
  forall (utcnow_at : nat -> Z) (interp : PyStr.Interpreter) (store_range : Query -> result (list Row))
         (parse_datetime : string -> result Z)
         (d : PointView) (date_trunc1 value_func1 date_trunc2 value_func2 : string)
         (trange : option string) (ts_as_datetime : bool) (w : World),
    String.eqb "Number" (kind d) = false ->
    String.eqb "Bool" (kind d) = false ->
    get_point_values utcnow_at interp store_range parse_datetime
                     d date_trunc1 value_func1 trange ts_as_datetime w
    = get_point_values utcnow_at interp store_range parse_datetime
                       d date_trunc2 value_func2 trange ts_as_datetime w.
Proof.
  intros utcnow_at interp store_range parse_datetime d date_trunc1 value_func1
         date_trunc2 value_func2 trange ts_as_datetime w Hn Hb.
  unfold get_point_values. unfold bind.
  cbv [get_crate_connection]. cbv beta iota.
  destruct (resolve_range utcnow_at interp parse_datetime (valid_trange trange) _)
    as [[[start end_]|e] w1]; [| reflexivity].
  unfold query_points, point_query. now rewrite Hn, Hb.
Qed.

Lemma text_points_ignore_granularity_witness :
  get_point_values clock0 interp0 store_same_second parse0 d0 "day" "max" None false w0
  = get_point_values clock0 interp0 store_same_second parse0 d0 "second" "min" None false w0.
Proof.
  apply text_points_ignore_granularity; reflexivity.
Defined.
